(** * optuna_PSO: the trial objective of [hyperparameter_tuning.py]

    A shallow embedding of [objective] (the function Optuna calls once per
    trial) and of the Python builtins it relies on: [str.splitlines],
    [str.strip], [re.search] on the fitness pattern, and [float] on the
    matched token.  Text is a list of Unicode code points; a float is an
    IEEE-754 binary64 value in the [spec_float] representation of the
    Standard Library. *)

From Stdlib Require Import String Ascii.
From Stdlib Require Import List ZArith NArith Lia Bool.
From Stdlib Require Import Floats.SpecFloat.
Import ListNotations.

Set Implicit Arguments.

(* ===================================================================== *)
(** * Python [str] *)
(* ===================================================================== *)

Module PyStr.

(** A Python 3 [str] is a sequence of Unicode code points. *)
Definition char := N.
Definition str := list char.

Definition ch (a : ascii) : char := N_of_ascii a.

(** An ASCII literal of the source, as a [str]. *)
Definition lit (s : string) : str := map ch (list_ascii_of_string s).

Definition NL : char := 10%N.

Definition str_eqb (a b : str) : bool :=
  if list_eq_dec N.eq_dec a b then true else false.

Definition in_range (lo hi c : N) : bool := ((lo <=? c) && (c <=? hi))%N.

(** [str.isspace] per character ([Py_UNICODE_ISSPACE]): the characters
    [str.strip()] removes when called without an argument. *)
Definition is_space (c : char) : bool :=
  in_range 0x09 0x0D c || in_range 0x1C 0x1F c || (c =? 0x20)%N
  || (c =? 0x85)%N || (c =? 0xA0)%N || (c =? 0x1680)%N
  || in_range 0x2000 0x200A c || (c =? 0x2028)%N || (c =? 0x2029)%N
  || (c =? 0x202F)%N || (c =? 0x205F)%N || (c =? 0x3000)%N.

Definition CR : char := 13%N.

(** The line boundaries of [str.splitlines] ([Py_UNICODE_ISLINEBREAK]);
    CR immediately followed by LF counts as one boundary. *)
Definition is_linebreak (c : char) : bool :=
  in_range 0x0A 0x0D c || in_range 0x1C 0x1E c || (c =? 0x85)%N
  || (c =? 0x2028)%N || (c =? 0x2029)%N.

(** First code points of the runs of ten decimal digits (general category
    Nd) in the Unicode database of CPython 3.11 (Unicode 14.0): the run
    starting at [b] holds the digits 0 to 9 at [b], ..., [b + 9]. *)
Definition decimal_blocks : list N :=
  [ 0x30; 0x660; 0x6F0; 0x7C0; 0x966; 0x9E6; 0xA66; 0xAE6; 0xB66; 0xBE6;
    0xC66; 0xCE6; 0xD66; 0xDE6; 0xE50; 0xED0; 0xF20; 0x1040; 0x1090;
    0x17E0; 0x1810; 0x1946; 0x19D0; 0x1A80; 0x1A90; 0x1B50; 0x1BB0;
    0x1C40; 0x1C50; 0xA620; 0xA8D0; 0xA900; 0xA9D0; 0xA9F0; 0xAA50;
    0xABF0; 0xFF10; 0x104A0; 0x10D30; 0x11066; 0x110F0; 0x11136; 0x111D0;
    0x112F0; 0x11450; 0x114D0; 0x11650; 0x116C0; 0x11730; 0x118E0;
    0x11950; 0x11C50; 0x11D50; 0x11DA0; 0x16A60; 0x16AC0; 0x16B50;
    0x1D7CE; 0x1D7D8; 0x1D7E2; 0x1D7EC; 0x1D7F6; 0x1E140; 0x1E2F0;
    0x1E950; 0x1FBF0 ]%N.

(** [Py_UNICODE_TODECIMAL]: the value of a decimal digit, [None] for any
    other character. *)
Definition to_decimal (c : char) : option N :=
  match find (fun b => in_range b (b + 9) c) decimal_blocks with
  | Some b => Some (c - b)%N
  | None => None
  end.

(** [Py_UNICODE_ISDECIMAL], the class [\d] of a [str] pattern. *)
Definition is_decimal (c : char) : bool :=
  match to_decimal c with Some _ => true | None => false end.

Fixpoint drop_while (p : char -> bool) (s : str) : str :=
  match s with
  | c :: s' => if p c then drop_while p s' else s
  | [] => []
  end.

Definition lstrip (s : str) : str := drop_while is_space s.
Definition rstrip (s : str) : str := rev (drop_while is_space (rev s)).

(** [s.strip()] *)
Definition strip (s : str) : str := rstrip (lstrip s).

(** [s.splitlines()]: [cur] is the line being read, reversed; [after_cr]
    tells that the previous character was a CR, so that an LF right after
    it belongs to the same boundary.  A boundary at the very end of the
    text does not open a last, empty line. *)
Fixpoint splitlines_from (cur : str) (after_cr : bool) (s : str) : list str :=
  match s with
  | [] => match cur with [] => [] | _ => [rev cur] end
  | c :: s' =>
      if after_cr && (c =? NL)%N then splitlines_from cur false s'
      else if is_linebreak c then rev cur :: splitlines_from [] (c =? CR)%N s'
      else splitlines_from (c :: cur) false s'
  end.

Definition splitlines (s : str) : list str := splitlines_from [] false s.

(** [sep.join(parts)] *)
Fixpoint join (sep : str) (parts : list str) : str :=
  match parts with
  | [] => []
  | [p] => p
  | p :: rest => p ++ sep ++ join sep rest
  end.

(** Truth value of a [str]: the empty string is false. *)
Definition truthy (s : str) : bool :=
  match s with [] => false | _ => true end.

(** [a or b] on strings. *)
Definition str_or (a b : str) : str := if truthy a then a else b.

(** [str(n)] for an [int]: decimal digits, with a minus sign when negative. *)
Definition digit_char (d : N) : char := (48 + d)%N.

Fixpoint pos_digits (fuel : nat) (n : N) (acc : str) : str :=
  match fuel with
  | O => acc
  | S fuel' =>
      let acc' := digit_char (n mod 10) :: acc in
      if (n / 10 =? 0)%N then acc' else pos_digits fuel' (n / 10) acc'
  end.

Definition str_of_nat (n : N) : str := pos_digits (S (N.to_nat (N.log2 n))) n [].

Definition str_of_int (z : Z) : str :=
  match z with
  | Zneg p => ch "-" :: str_of_nat (Npos p)
  | _ => str_of_nat (Z.to_N z)
  end.

End PyStr.

(* ===================================================================== *)
(** * The fragment of [re] used by the fitness pattern *)
(* ===================================================================== *)

Module Re.
Import PyStr.

(** Pattern syntax: a character class, concatenation, a greedy optional
    group, and greedy repetition of a character class. *)
Inductive regex : Type :=
  | Empty
  | Class (p : char -> bool)
  | Seq (r1 r2 : regex)
  | Opt (r : regex)
  | Star (p : char -> bool)
  | Plus (p : char -> bool).

(** Greedy repetition under backtracking: take as many characters of the
    class as there are, and give them back one at a time while the rest of
    the pattern, [k], fails. *)
Fixpoint greedy (A : Type) (p : char -> bool) (s : str)
                (k : str -> option A) : option A :=
  match s with
  | c :: s' =>
      if p c then
        match greedy p s' k with
        | Some x => Some x
        | None => k s
        end
      else k s
  | [] => k []
  end.

(** The backtracking matcher, in continuation-passing style: [k] is the
    rest of the pattern, applied to the text that is left.  [Opt r] first
    tries [r], then the empty match. *)
Fixpoint rmatch (A : Type) (r : regex) (s : str)
                (k : str -> option A) : option A :=
  match r with
  | Empty => k s
  | Class p =>
      match s with
      | c :: s' => if p c then k s' else None
      | [] => None
      end
  | Seq r1 r2 => rmatch r1 s (fun s' => rmatch r2 s' k)
  | Opt r1 =>
      match rmatch r1 s k with
      | Some x => Some x
      | None => k s
      end
  | Star p => greedy p s k
  | Plus p =>
      match s with
      | c :: s' => if p c then greedy p s' k else None
      | [] => None
      end
  end.

(** A match object: the text before the match, [group(0)], and the text
    after it. *)
Record match_object : Type := MatchObject {
  m_pre : str;
  m_group0 : str;
  m_post : str
}.

(** [pattern.match(s)] at the start of [s]; [seen] is the text to the left
    of [s], reversed. *)
Definition match_here (r : regex) (seen : str) (s : str) : option match_object :=
  match rmatch r s (fun rest => Some rest) with
  | Some rest =>
      Some (MatchObject (rev seen)
                        (firstn (length s - length rest) s)
                        rest)
  | None => None
  end.

(** [re.search]: the match at the first position, from the left, where the
    pattern matches. *)
Fixpoint search_from (r : regex) (seen : str) (s : str) : option match_object :=
  match match_here r seen s with
  | Some m => Some m
  | None =>
      match s with
      | [] => None
      | c :: s' => search_from r (c :: seen) s'
      end
  end.

Definition search (r : regex) (s : str) : option match_object :=
  search_from r [] s.

(** The language of a pattern, independently of any matching order. *)
Fixpoint lang (r : regex) (w : str) : Prop :=
  match r with
  | Empty => w = []
  | Class p => exists c, w = [c] /\ p c = true
  | Seq r1 r2 => exists a b, w = a ++ b /\ lang r1 a /\ lang r2 b
  | Opt r1 => w = [] \/ lang r1 w
  | Star p => Forall (fun c => p c = true) w
  | Plus p => w <> [] /\ Forall (fun c => p c = true) w
  end.

(** The match at the start of a text is the longest the pattern has
    there: no word of its language leaves less of the text. *)
Definition takes_longest (r : regex) : Prop :=
  forall s rest, rmatch r s (fun rest => Some rest) = Some rest ->
  forall a b, s = a ++ b -> lang r a -> length rest <= length b.

End Re.

(* ===================================================================== *)
(** * Exceptions *)
(* ===================================================================== *)

Module Py.
Import PyStr.

(** The exception classes that reach [objective]: those [subprocess.run]
    raises (timeout, missing program, other launch errors, undecodable
    output) and the one [float] raises. *)
Inductive exn_class : Type :=
  | TimeoutExpired
  | FileNotFoundError
  | PermissionError
  | OSError
  | UnicodeDecodeError
  | ValueError.

Definition exn_class_eqb (a b : exn_class) : bool :=
  match a, b with
  | TimeoutExpired, TimeoutExpired | FileNotFoundError, FileNotFoundError
  | PermissionError, PermissionError | OSError, OSError
  | UnicodeDecodeError, UnicodeDecodeError | ValueError, ValueError => true
  | _, _ => false
  end.

(** [issubclass(a, b)]: [FileNotFoundError] and [PermissionError] derive
    from [OSError], [UnicodeDecodeError] from [ValueError]. *)
Definition issubclass (a b : exn_class) : bool :=
  exn_class_eqb a b ||
  match a, b with
  | FileNotFoundError, OSError | PermissionError, OSError
  | UnicodeDecodeError, ValueError => true
  | _, _ => false
  end.

(** An exception object: its class and its message. *)
Record exn : Type := Exn { exn_type : exn_class; exn_msg : str }.

(** [isinstance(e, cls)]: what an [except cls] clause tests. *)
Definition isinstance (e : exn) (cls : exn_class) : bool :=
  issubclass (exn_type e) cls.

(** The two ways a call ends. *)
Inductive outcome (A : Type) : Type :=
  | Ret (a : A)
  | Raise (e : exn).

Arguments Ret {A} a.
Arguments Raise {A} e.

End Py.

(* ===================================================================== *)
(** * [float(str)] *)
(* ===================================================================== *)

Module PyFloat.
Import PyStr Py.

(** A Python [float] is an IEEE-754 binary64. *)
Definition prec : Z := 53.
Definition emax : Z := 1024.
Definition pyfloat := spec_float.

(** [float('inf')] *)
Definition inf : pyfloat := S754_infinity false.

Definition is_nan (x : pyfloat) : bool :=
  match x with S754_nan => true | _ => false end.

Definition is_finite (x : pyfloat) : bool :=
  match x with S754_zero _ | S754_finite _ _ _ => true | _ => false end.

(** The binary64 nearest to [(-1)^neg * m * 10^e], ties to even, with
    overflow to an infinity and underflow through the subnormals to a
    signed zero: the correctly rounded conversion that [float] performs. *)
Definition round_decimal (neg : bool) (m : N) (e : Z) : pyfloat :=
  match m with
  | N0 => S754_zero neg
  | Npos p =>
      match e with
      | Zneg k =>
          let '(q, e2, l) :=
            SFdiv_core_binary prec emax (Zpos p) 0 (Zpos (Pos.pow 10 k)) 0 in
          binary_round_aux prec emax neg q e2 l
      | Z0 => binary_round prec emax neg p 0
      | Zpos k => binary_round prec emax neg (p * Pos.pow 10 k) 0
      end
  end.

Definition is_ascii_digit (c : char) : bool := in_range 48 57 c.

(** [Py_ISSPACE] *)
Definition is_ascii_space (c : char) : bool :=
  in_range 9 13 c || (c =? 32)%N.

(** Decimal digits and Unicode spaces become their ASCII counterparts; the
    first other non-ASCII character becomes a question mark that ends the
    text. *)
Fixpoint to_ascii (s : str) : str :=
  match s with
  | [] => []
  | c :: s' =>
      if (c <? 127)%N then c :: to_ascii s'
      else if is_space c then 32%N :: to_ascii s'
      else match to_decimal c with
           | Some d => digit_char d :: to_ascii s'
           | None => [ch "?"]
           end
  end.

(** Underscores may only stand between two digits; they are removed. *)
Fixpoint drop_underscores (prev : char) (s : str) : option str :=
  match s with
  | [] => if (prev =? ch "_")%N then None else Some []
  | c :: s' =>
      if (c =? ch "_")%N then
        if is_ascii_digit prev then drop_underscores c s' else None
      else if (prev =? ch "_")%N && negb (is_ascii_digit c) then None
      else match drop_underscores c s' with
           | Some r => Some (c :: r)
           | None => None
           end
  end.

Definition without_underscores (s : str) : option str :=
  if existsb (fun c => (c =? ch "_")%N) s then drop_underscores 0%N s
  else Some s.

Fixpoint span (p : char -> bool) (s : str) : str * str :=
  match s with
  | c :: s' =>
      if p c then let (a, b) := span p s' in (c :: a, b) else ([], s)
  | [] => ([], [])
  end.

Fixpoint digits_value (acc : N) (ds : str) : N :=
  match ds with
  | [] => acc
  | d :: ds' => digits_value (acc * 10 + (d - 48))%N ds'
  end.

Definition take_sign (s : str) : bool * str :=
  match s with
  | c :: s' =>
      if (c =? ch "-")%N then (true, s')
      else if (c =? ch "+")%N then (false, s')
      else (false, s)
  | [] => (false, [])
  end.

(** The exponent part, when it is complete; otherwise nothing is read. *)
Definition scan_exponent (s : str) : Z * str :=
  match s with
  | c :: s' =>
      if (c =? ch "e")%N || (c =? ch "E")%N then
        let (neg, s1) := take_sign s' in
        let (ds, s2) := span is_ascii_digit s1 in
        match ds with
        | [] => (0%Z, s)
        | _ => let v := Z.of_N (digits_value 0 ds) in
               ((if neg then - v else v)%Z, s2)
        end
      else (0%Z, s)
  | [] => (0%Z, [])
  end.

(** [MAX_DIGITS] of [dtoa.c]: the most digits [_Py_dg_strtod] reads. *)
Definition MAX_DIGITS : N := 1000000000.

Definition is_zero_digit (c : char) : bool := (c =? 48)%N.

(** [ndigits] of [_Py_dg_strtod]: the digits of the integer part [ip] and
    of the fraction [fp], leading zeros apart; when the integer part is
    zeros only, the zeros that open the fraction are leading zeros too. *)
Definition ndigits (ip fp : str) : nat :=
  match drop_while is_zero_digit ip with
  | [] => length (drop_while is_zero_digit fp)
  | ip' => length ip' + length fp
  end.

(** The range check of [_Py_dg_strtod] on [ndigits] and on [fraclen], the
    length of the fraction: beyond [MAX_DIGITS] the text is refused. *)
Definition too_many_digits (ip fp : str) : bool :=
  (MAX_DIGITS <? N.of_nat (ndigits ip fp))%N
  || (MAX_DIGITS <? N.of_nat (length fp))%N.

(** The decimal grammar of [float]: sign, digits, point, digits (at least
    one digit in all, and no more than [MAX_DIGITS]), exponent.  Gives the
    value and the text left over, or [None] when the text does not start
    with a number it can read. *)
Definition strtod (s : str) : option (pyfloat * str) :=
  let (neg, s1) := take_sign s in
  let (ip, s2) := span is_ascii_digit s1 in
  let (fp, s3) :=
    match s2 with
    | c :: s' => if (c =? ch ".")%N then span is_ascii_digit s' else ([], s2)
    | [] => ([], [])
    end in
  match ip ++ fp with
  | [] => None
  | ds =>
      if too_many_digits ip fp then None
      else
        let (e, s4) := scan_exponent s3 in
        Some (round_decimal neg (digits_value 0 ds)
                            (e - Z.of_nat (length fp)), s4)
  end.

Definition lower (c : char) : char :=
  if in_range 65 90 c then (c + 32)%N else c.

(** [case_insensitive_match]: the text left after [word], if [s] starts
    with it in any letter case. *)
Fixpoint skip_word (word : str) (s : str) : option str :=
  match word with
  | [] => Some s
  | w :: word' =>
      match s with
      | c :: s' => if (lower c =? w)%N then skip_word word' s' else None
      | [] => None
      end
  end.

(** The spellings [inf], [infinity] and [nan], with an optional sign. *)
Definition parse_inf_or_nan (s : str) : option (pyfloat * str) :=
  let (neg, s1) := take_sign s in
  match skip_word (lit "inf") s1 with
  | Some s2 =>
      match skip_word (lit "inity") s2 with
      | Some s3 => Some (S754_infinity neg, s3)
      | None => Some (S754_infinity neg, s2)
      end
  | None =>
      match skip_word (lit "nan") s1 with
      | Some s2 => Some (S754_nan, s2)
      | None => None
      end
  end.

Definition value_error (s : str) : exn :=
  Exn ValueError (lit "could not convert string to float: " ++ s).

(** [float(s)] for a [str]: the whole text, surrounding white space apart,
    must be one number; a number of more than [MAX_DIGITS] digits is
    refused like any other text, with a [ValueError]. *)
Definition py_float (s : str) : outcome pyfloat :=
  match without_underscores (to_ascii s) with
  | None => Raise (value_error s)
  | Some s1 =>
      let s2 := rev (drop_while is_ascii_space
                       (rev (drop_while is_ascii_space s1))) in
      let parsed :=
        match strtod s2 with
        | Some r => Some r
        | None => parse_inf_or_nan s2
        end in
      match parsed with
      | Some (x, []) => Ret x
      | _ => Raise (value_error s)
      end
  end.

(** A float literal of the source, such as [0.1]. *)
Definition float_literal (s : string) : pyfloat :=
  match py_float (lit s) with
  | Ret x => x
  | Raise _ => S754_nan
  end.

End PyFloat.

(* ===================================================================== *)
(** * [hyperparameter_tuning.py] *)
(* ===================================================================== *)

Module Tuning.
Import PyStr Py PyFloat Re.

(** ** The objects [objective] exchanges with its environment *)

(** What a trial remembers of a [suggest_int] or [suggest_float] call: the
    bounds of the request and the value handed out. *)
Inductive suggestion : Type :=
  | SuggestedInt (low high : Z) (value : Z)
  | SuggestedFloat (low high : pyfloat) (value : pyfloat).

(** Optuna's distributions, as [suggest_int(name, low, high)] and
    [suggest_float(name, low, high)] build them. *)
Inductive distribution : Type :=
  | IntDistribution (low high : Z)
  | FloatDistribution (low high : pyfloat).

(** Values passed to [logging] as message arguments. *)
#[warnings="-register-all"] Inductive pyval : Type :=
  | VInt (z : Z)
  | VFloat (x : pyfloat)
  | VStr (s : str)
  | VDict (items : list (str * pyval))
  | VExn (e : exn).

Inductive level : Type := ERROR | WARNING.

(** A call of [logging.warning] or [logging.error]: level, format string
    and arguments. *)
Record log_record : Type := LogRecord {
  levelname : level;
  msg : str;
  args : list pyval
}.

(** [subprocess.CompletedProcess], with [capture_output=True] and
    [text=True]: both streams are [str]. *)
Record CompletedProcess : Type := {
  returncode : Z;
  stdout : str;
  stderr : str
}.

(** What the script does not decide: where the JAR is, how a float prints,
    which values the search strategy hands to this trial, and how each
    launch of the external program ends. *)
Record Env : Type := {
  JAR_PATH : str;
  float_str : pyfloat -> str;
  sample_int : str -> Z -> Z -> Z;
  sample_float : str -> pyfloat -> pyfloat -> pyfloat;
  spawn : nat -> list str -> Z -> outcome CompletedProcess
}.

(** What [objective] changes: the trial object, the calls of
    [subprocess.run] made so far (command and timeout), and the log. *)
Record State : Type := {
  suggested : list (str * suggestion);
  launched : list (list str * Z);
  log : list log_record
}.

(** ** A monad for environment, state and exceptions *)

Definition M (A : Type) : Type := Env -> State -> outcome A * State.

Definition ret (A : Type) (a : A) : M A := fun _ st => (Ret a, st).

Definition bind (A B : Type) (c : M A) (f : A -> M B) : M B :=
  fun env st =>
    match c env st with
    | (Ret a, st') => f a env st'
    | (Raise e, st') => (Raise e, st')
    end.

Notation "x <- c ;; k" := (bind c (fun x => k))
  (at level 61, c at next level, right associativity).
Notation "c ;;; k" := (bind c (fun _ => k))
  (at level 61, right associativity).

Definition of_outcome (A : Type) (o : outcome A) : M A := fun _ st => (o, st).

Definition ask : M Env := fun env st => (Ret env, st).

Fixpoint find_handler (A : Type) (e : exn)
    (handlers : list (exn_class * (exn -> M A))) : option (M A) :=
  match handlers with
  | [] => None
  | (cls, h) :: rest =>
      if isinstance e cls then Some (h e) else find_handler e rest
  end.

(** [try: body except C1 as e: h1 except C2 as e: h2]: the first clause
    whose class the exception is an instance of handles it; an exception
    no clause names goes on to the caller. *)
Definition try_except (A : Type) (body : M A)
    (handlers : list (exn_class * (exn -> M A))) : M A :=
  fun env st =>
    match body env st with
    | (Ret a, st') => (Ret a, st')
    | (Raise e, st') =>
        match find_handler e handlers with
        | Some h => h env st'
        | None => (Raise e, st')
        end
    end.

(** ** The trial object *)

Fixpoint lookup (A : Type) (name : str) (d : list (str * A)) : option A :=
  match d with
  | [] => None
  | (k, v) :: d' => if str_eqb k name then Some v else lookup name d'
  end.

Definition suggestion_value (s : suggestion) : pyval :=
  match s with
  | SuggestedInt _ _ v => VInt v
  | SuggestedFloat _ _ v => VFloat v
  end.

Definition suggestion_distribution (s : suggestion) : distribution :=
  match s with
  | SuggestedInt lo hi _ => IntDistribution lo hi
  | SuggestedFloat lo hi _ => FloatDistribution lo hi
  end.

(** [trial.params] and [trial.distributions], in insertion order. *)
Definition params_of (st : State) : list (str * pyval) :=
  map (fun kv => (fst kv, suggestion_value (snd kv))) (suggested st).

Definition distributions_of (st : State) : list (str * distribution) :=
  map (fun kv => (fst kv, suggestion_distribution (snd kv))) (suggested st).

Definition trial_params : M (list (str * pyval)) :=
  fun _ st => (Ret (params_of st), st).

Definition remember (name : str) (s : suggestion) (st : State) : State :=
  {| suggested := suggested st ++ [(name, s)];
     launched := launched st;
     log := log st |}.

Definition kind_error : exn :=
  Exn ValueError
      (lit "Cannot set different distribution kind to the same parameter name.").

(** [trial.suggest_int(name, low, high)]: a name this trial has already
    been asked for keeps its value (and must keep its kind of
    distribution); a new name gets the strategy's value, which the trial
    records. *)
Definition suggest_int (name : str) (low high : Z) : M Z :=
  fun env st =>
    match lookup name (suggested st) with
    | Some (SuggestedInt _ _ v) => (Ret v, st)
    | Some (SuggestedFloat _ _ _) => (Raise kind_error, st)
    | None =>
        let v := sample_int env name low high in
        (Ret v, remember name (SuggestedInt low high v) st)
    end.

(** [trial.suggest_float(name, low, high)] *)
Definition suggest_float (name : str) (low high : pyfloat) : M pyfloat :=
  fun env st =>
    match lookup name (suggested st) with
    | Some (SuggestedFloat _ _ v) => (Ret v, st)
    | Some (SuggestedInt _ _ _) => (Raise kind_error, st)
    | None =>
        let v := sample_float env name low high in
        (Ret v, remember name (SuggestedFloat low high v) st)
    end.

(** ** [subprocess] and [logging] *)

(** [subprocess.run(cmd, capture_output=True, text=True, timeout=t)]: one
    more process is launched; the environment tells how it ends. *)
Definition subprocess_run (cmd : list str) (timeout : Z) : M CompletedProcess :=
  fun env st =>
    (spawn env (length (launched st)) cmd timeout,
     {| suggested := suggested st;
        launched := launched st ++ [(cmd, timeout)];
        log := log st |}).

Definition logging_log (lvl : level) (fmt : string) (a : list pyval) : M unit :=
  fun _ st =>
    (Ret tt,
     {| suggested := suggested st;
        launched := launched st;
        log := log st ++ [LogRecord lvl (lit fmt) a] |}).

Definition logging_warning := logging_log WARNING.
Definition logging_error := logging_log ERROR.

(** ** The fitness pattern *)

Definition is_sign (c : char) : bool := (c =? ch "-")%N || (c =? ch "+")%N.
Definition is_dot (c : char) : bool := (c =? ch ".")%N.
Definition is_e (c : char) : bool := (c =? ch "e")%N || (c =? ch "E")%N.

(** [[-+]?\d*\.?\d+(?:[eE][-+]?\d+)?] *)
Definition exponent_group : regex :=
  Seq (Class is_e) (Seq (Opt (Class is_sign)) (Plus is_decimal)).

Definition fitness_pattern : regex :=
  Seq (Opt (Class is_sign))
      (Seq (Star is_decimal)
           (Seq (Opt (Class is_dot))
                (Seq (Plus is_decimal)
                     (Opt exponent_group)))).

(** ** [objective] *)

(** Line 41: the two streams, standard output first, joined by a newline.
    Both are [str], so [s or ""] is [s] and the [is not None] filter keeps
    both. *)
Definition combined (result : CompletedProcess) : str :=
  join [NL] [str_or (stdout result) []; str_or (stderr result) []].

(** Line 42: the stripped lines that are not empty. *)
Definition lines (text : str) : list str :=
  map strip (filter (fun line => truthy (strip line)) (splitlines text)).

(** Line 47: [line] is [lines[-1]], the last of the lines that line 42
    keeps. *)
Definition last_nonempty_line (text line : str) : Prop :=
  exists before, lines text = before ++ [line].

(** Lines 42 to 59: from the combined output to the fitness. *)
Definition extract_fitness (text : str) : M pyfloat :=
  match lines text with
  | [] =>
      p <- trial_params ;;
      logging_warning "No output to parse for params: %s" [VDict p] ;;;
      ret inf
  | l :: ls =>
      let last_line := last (l :: ls) [] in
      match search fitness_pattern last_line with
      | None =>
          logging_warning "No numeric value found in last line: %s"
                          [VStr last_line] ;;;
          ret inf
      | Some m =>
          try_except
            (fitness <- of_outcome (py_float (m_group0 m)) ;; ret fitness)
            [ (ValueError, fun _ =>
                 logging_warning
                   "Failed to convert extracted token to float: %s"
                   [VStr (m_group0 m)] ;;;
                 ret inf) ]
      end
  end.

(** How the [try] around [subprocess.run] ends: with the completed process,
    or with the value an [except] clause returned. *)
Inductive run_attempt : Type :=
  | Completed (result : CompletedProcess)
  | Returned (value : pyfloat).

Definition timeout_seconds : Z := 300.

(** Lines 24 to 27. *)
Definition cmd (env : Env) (swarmSize maxIters : Z)
               (inertias c1s c2s : pyfloat) : list str :=
  [ lit "java"; lit "-jar"; JAR_PATH env;
    str_of_int swarmSize; str_of_int maxIters;
    float_str env inertias; float_str env c1s; float_str env c2s ].

Definition objective : M pyfloat :=
  swarmSize <- suggest_int (lit "swarmSize") 10 100 ;;
  maxIters <- suggest_int (lit "maxIters") 50 1000 ;;
  inertias <- suggest_float (lit "inertias")
                (float_literal "0.1") (float_literal "1.0") ;;
  c1s <- suggest_float (lit "c1s")
                (float_literal "0.1") (float_literal "3.0") ;;
  c2s <- suggest_float (lit "c2s")
                (float_literal "0.1") (float_literal "3.0") ;;
  env <- ask ;;
  attempt <-
    try_except
      (result <- subprocess_run (cmd env swarmSize maxIters inertias c1s c2s)
                                timeout_seconds ;;
       ret (Completed result))
      [ (TimeoutExpired, fun _ =>
           p <- trial_params ;;
           logging_warning "Subprocess timed out for params: %s" [VDict p] ;;;
           ret (Returned inf));
        (FileNotFoundError, fun e =>
           logging_error "Failed to run subprocess: %s" [VExn e] ;;;
           ret (Returned inf)) ] ;;
  match attempt with
  | Returned value => ret value
  | Completed result =>
      (if (returncode result =? 0)%Z then ret tt
       else logging_warning "Jar exited with code %s. stderr: %s"
              [VInt (returncode result); VStr (strip (stderr result))]) ;;;
      extract_fitness (combined result)
  end.

(** Line 68: [study.optimize(objective, n_trials=100)]. *)
Definition n_trials : nat := 100.

End Tuning.

(* ===================================================================== *)
(** * The search loop *)
(* ===================================================================== *)

Module SearchLoop.
Import PyFloat.

Section Loop.

(** Modelled from the spec: the parameter vectors and the external search
    strategy (Optuna's study and sampler, which the script only calls):
    anything that can propose a parameter vector and be told its fitness. *)
Variables Params Strategy : Type.
Variable propose : Strategy -> Params.
Variable update : Strategy -> Params -> pyfloat -> Strategy.

(** Modelled from the spec: the trial objective as the loop sees it, one
    fitness for the parameter vector of the trial with the given index. *)
Variable score : nat -> Params -> pyfloat.

(** Modelled from the spec: a trial record is the trial index, the
    parameter vector and the resulting fitness. *)
Record TrialRecord : Type := {
  index : nat;
  parameters : Params;
  fitness : pyfloat
}.

(** Modelled from the spec: the study result is the best parameter
    vector, the best fitness and the best trial index; the direction is
    always minimize. *)
Record StudyResult : Type := {
  best_params : Params;
  best_value : pyfloat;
  best_trial_number : nat
}.

(** Modelled from the spec: propose, evaluate, record, update, for [n]
    more trials from index [i] on; the history is append-only. *)
Fixpoint trials_from (n i : nat) (s : Strategy)
                     (history : list TrialRecord) : list TrialRecord :=
  match n with
  | O => history
  | S n' =>
      let p := propose s in
      let f := score i p in
      trials_from n' (S i) (update s p f)
                  (history ++ [ {| index := i; parameters := p; fitness := f |} ])
  end.

(** Modelled from the spec: the best-so-far record under the order on
    fitness; a later record replaces it only when strictly smaller, so
    that ties go to the earliest trial. *)
Definition best_so_far (best : option TrialRecord) (r : TrialRecord)
  : option TrialRecord :=
  match best with
  | None => Some r
  | Some b =>
      if SFltb (fitness r) (fitness b) then Some r else Some b
  end.

(** Modelled from the spec: the best record of a history, derived from
    the history alone; there is none before the first trial. *)
Definition best_record (history : list TrialRecord) : option TrialRecord :=
  fold_left best_so_far history None.

(** Modelled from the spec: [b] is the best record of [seen] when it has
    minimal fitness and is the earliest trial among those of equal
    fitness. *)
Definition is_best (b : TrialRecord) (seen : list TrialRecord) : Prop :=
  In b seen /\
  forall r, In r seen ->
    SFleb (fitness b) (fitness r) = true /\
    (SFeqb (fitness r) (fitness b) = true -> index b <= index r).

(** Modelled from the spec: the terminal state, the history of all [N]
    trials and the study result computed from it. *)
Definition search_loop (N : nat) (s0 : Strategy)
  : list TrialRecord * option StudyResult :=
  let history := trials_from N 0 s0 [] in
  (history,
   match best_record history with
   | Some b =>
       Some {| best_params := parameters b;
               best_value := fitness b;
               best_trial_number := index b |}
   | None => None
   end).

End Loop.

End SearchLoop.

(* ===================================================================== *)
(** * The vocabulary of the specification *)
(* ===================================================================== *)

(** The notions the specification words its properties with, defined
    from its words and not from the program: a numeric token in standard
    notation, the last non-empty line of a text, a text without any
    non-empty line.  The properties compare them with what [objective]
    computes. *)

Module Spec.
Import PyStr PyFloat.

Section Token.

(** The characters that count as digits. *)
Variable digit : char -> bool.

Definition digits (w : str) : Prop := Forall (fun c => digit c = true) w.

Definition optional_sign (w : str) : Prop :=
  w = [] \/ w = [ch "+"] \/ w = [ch "-"].

Definition optional_point (w : str) : Prop :=
  w = [] \/ w = [ch "."].

(** An exponent: the letter e in either case, an optional sign, digits. *)
Definition exponent (w : str) : Prop :=
  exists e sg ds,
    w = e :: sg ++ ds /\ (e = ch "e" \/ e = ch "E") /\
    optional_sign sg /\ digits ds /\ ds <> [].

(** Optional sign, digits, optional point, at least one digit, optional
    exponent. *)
Definition token (t : str) : Prop :=
  exists sg d1 pt d2 ex,
    t = sg ++ d1 ++ pt ++ d2 ++ ex /\
    optional_sign sg /\ digits d1 /\ optional_point pt /\
    digits d2 /\ d2 <> [] /\ (ex = [] \/ exponent ex).

End Token.

(** A numeric token in standard decimal or scientific notation: its
    digits are the ten digits 0 to 9. *)
Definition numeric_token : str -> Prop := token is_ascii_digit.

(** The line contains a numeric token. *)
Definition contains_token (line : str) : Prop :=
  exists a t b, line = a ++ t ++ b /\ numeric_token t.

(** The text is empty or ends with a line boundary: what follows it
    starts a line. *)
Definition at_line_start (before : str) : Prop :=
  before = [] \/ exists b c, before = b ++ [c] /\ is_linebreak c = true.

(** The line is not empty and has no white space at either end. *)
Definition trimmed (line : str) : Prop :=
  exists c r, line = c :: r /\
              is_space c = false /\ is_space (last line c) = false.

(** [line] is the last non-empty line of [text], trimmed: the text is
    [before ++ lead ++ line ++ after], where [lead] starts a line and is
    white space, no line boundary lies in [lead ++ line], [line] is
    trimmed, and [after] is white space only (line boundaries are white
    space), so that trimming leaves nothing of what follows [line].
    Nothing here refers to the way the program splits or trims the
    text. *)
Definition last_trimmed_line (text line : str) : Prop :=
  exists before lead after,
    text = before ++ lead ++ line ++ after /\
    at_line_start before /\
    Forall (fun c => is_space c = true) lead /\
    Forall (fun c => is_linebreak c = false) (lead ++ line) /\
    Forall (fun c => is_space c = true) after /\
    trimmed line.

(** The text has no non-empty line after trimming: it is white space
    only. *)
Definition blank (text : str) : Prop :=
  Forall (fun c => is_space c = true) text.

(** The sentinel fitness. *)
Definition sentinel : pyfloat := inf.

(** The five field names of the parameter vector, as the specification
    spells them. *)
Definition claimed_names : list str :=
  [lit "swarmSize"; lit "maxIters"; lit "inertia"; lit "c1"; lit "c2"].

End Spec.

(* ===================================================================== *)
(** * What the fitness pattern matches *)
(* ===================================================================== *)

Module Pattern.
Import PyStr PyFloat.

(** The tokens of the fitness pattern have the grammar of a numeric token,
    with the class [\d] of a [str] pattern for digits: the decimal digits
    of every script, not only 0 to 9. *)
Definition unicode_token : str -> Prop := Spec.token is_decimal.

Definition contains_unicode_token (line : str) : Prop :=
  exists a t b, line = a ++ t ++ b /\ unicode_token t.


End Pattern.

(* ===================================================================== *)
(** * Concrete environments *)
(* ===================================================================== *)

Module Examples.
Import PyStr Py PyFloat Tuning.

(** A trial that has not been asked for any parameter, before any launch
    and any log record. *)
Definition new_trial : State :=
  {| suggested := []; launched := []; log := [] |}.

(** An environment in which the strategy always hands out the lower bound
    and every launch of the program ends as [r]; of the floats, only the
    lower bound 0.1 is ever printed there. *)
Definition env_where (r : outcome CompletedProcess) : Env :=
  {| JAR_PATH := lit "/opt/pso/thermoforming_optimization-1.0.jar";
     float_str := fun x =>
       match x with
       | S754_finite false 7205759403792794 (-56) => lit "0.1"
       | _ => lit "1.0"
       end;
     sample_int := fun _ low _ => low;
     sample_float := fun _ low _ => low;
     spawn := fun _ _ _ => r |}.

Definition completed (code : Z) (out err : str) : outcome CompletedProcess :=
  Ret {| returncode := code; stdout := out; stderr := err |}.

(** [java] is on the path but may not be executed. *)
Definition permission_denied : exn :=
  Exn PermissionError (lit "[Errno 13] Permission denied: 'java'").

(** [java] is not installed. *)
Definition no_java : exn :=
  Exn FileNotFoundError (lit "[Errno 2] No such file or directory: 'java'").

Definition timed_out : exn :=
  Exn TimeoutExpired (lit "Command timed out after 300 seconds").

(** The two outputs the specification gives as examples, and outputs
    without a number and with a number too large for a float. *)
Definition noisy_output : str :=
  lit "noise" ++ [NL] ++ lit "3.14 extra text" ++ [NL].

Definition scientific_output : str :=
  lit "line1" ++ [NL] ++ lit "line2" ++ [NL] ++ lit "-2.5e-3" ++ [NL].

Definition wordy_output : str :=
  lit "Fitness: 12.345" ++ [NL] ++ lit "done" ++ [NL].

Definition huge_negative_output : str := lit "-1e999" ++ [NL].

(** U+0663, ARABIC-INDIC DIGIT THREE: a decimal digit that is not one of
    0 to 9. *)
Definition arabic_three : char := 1635%N.


(** One line: the digit three of another script alone. *)
Definition foreign_digit_output : str := [arabic_three].

(** A search strategy for the loop: its state is the number of trials it
    has seen, its proposal that number. *)
Definition counting_propose (s : nat) : nat := s.
Definition counting_update (s : nat) (p : nat) (f : pyfloat) : nat := S s.

(** A score with a tie: trials 3 and 7 yield 0.5, all others 1.0. *)
Definition tied_score (i : nat) (p : nat) : pyfloat :=
  if (i =? 3)%nat || (i =? 7)%nat then float_literal "0.5"
  else float_literal "1.0".

(** Every trial fails. *)
Definition failing_score (i : nat) (p : nat) : pyfloat := inf.

End Examples.

(* ===================================================================== *)
(** * The sign of a float *)
(* ===================================================================== *)

Module FloatSign.
Import PyStr PyFloat.

(** The sign bit of a float, as [math.copysign(1.0, x) < 0] reads it; NaN
    has none here. *)
Definition sign_bit (x : pyfloat) : bool :=
  match x with
  | S754_zero s | S754_infinity s | S754_finite s _ _ => s
  | S754_nan => false
  end.

(** [t.startswith("-")] *)
Definition starts_with_minus (t : str) : bool :=
  match t with
  | c :: _ => (c =? ch "-")%N
  | [] => false
  end.

End FloatSign.

(* ===================================================================== *)
(** * The script around [objective] *)
(* ===================================================================== *)

Module Script.
Import PyStr Py PyFloat Tuning.

(** Optuna's [StudyDirection]. *)
Inductive StudyDirection : Type := NOT_SET | MINIMIZE | MAXIMIZE.

(** The study object, as far as the script uses it: [optimize] runs the
    objective it is given for a number of trials; the three [best_]
    attributes raise when the study has nothing to report. *)
Record Study : Type := {
  optimize : M pyfloat -> nat -> M unit;
  best_params : outcome (list (str * pyval));
  best_value : outcome pyfloat;
  best_trial_number : outcome Z;
  direction : StudyDirection
}.

(** The values of the dictionary [output]. *)
Inductive output_value : Type :=
  | OParams (p : list (str * pyval))
  | OFloat (x : pyfloat)
  | OInt (z : Z)
  | ODirection (d : StudyDirection).

(** What the script does not decide, beyond the environment of
    [objective]: whether the JAR is there, the study Optuna creates, and
    whether a file can be opened and written. *)
Record ScriptEnv : Type := {
  trial_env : Env;
  jar_is_file : bool;
  create_study : str -> outcome Study;
  write_json : str -> list (str * output_value) -> outcome unit
}.

(** What the script changes: the state the trials work on, the lines
    printed (the arguments of each [print]), and the files written in
    full. *)
Record ScriptState : Type := {
  trials : State;
  printed : list (list pyval);
  written : list (str * list (str * output_value))
}.

(** How the script ends: by reaching its last line, by [sys.exit(code)],
    or by an exception nothing catches. *)
Inductive ending : Type :=
  | Finished
  | Exited (code : Z)
  | Crashed (e : exn).

Definition with_trials (s : ScriptState) (t : State) : ScriptState :=
  {| trials := t; printed := printed s; written := written s |}.

(** [print(a, b, ...)] *)
Definition print (s : ScriptState) (a : list pyval) : ScriptState :=
  {| trials := trials s; printed := printed s ++ [a]; written := written s |}.

Definition save (s : ScriptState) (path : str)
                (doc : list (str * output_value)) : ScriptState :=
  {| trials := trials s; printed := printed s;
     written := written s ++ [(path, doc)] |}.

(** [logging.error(fmt, args)] from the script. *)
Definition log_error (w : ScriptEnv) (s : ScriptState) (fmt : string)
                     (a : list pyval) : ScriptState :=
  with_trials s (snd (logging_error fmt a (trial_env w) (trials s))).

Definition out_path : str := lit "best_results.json".

(** Lines 72 to 77. *)
Definition output (bp : list (str * pyval)) (bv : pyfloat) (bn : Z)
                  (d : StudyDirection) : list (str * output_value) :=
  [ (lit "best_params", OParams bp);
    (lit "best_value", OFloat bv);
    (lit "best_trial_number", OInt bn);
    (lit "direction", ODirection d) ].

(** Lines 79 to 87: save the results, absorbing an [OSError], and print
    the best hyperparameters again. *)
Definition save_results (w : ScriptEnv) (s : ScriptState)
    (bp : list (str * pyval)) (doc : list (str * output_value))
  : ending * ScriptState :=
  let best := [VStr (lit "Best hyperparameters:"); VDict bp] in
  match write_json w out_path doc with
  | Ret _ =>
      (Finished,
       print (print (save s out_path doc)
                    [VStr (lit "Saved best results to " ++ out_path)])
             best)
  | Raise e =>
      if isinstance e OSError then
        (Finished,
         print (log_error w s "Failed to write best results to %s: %s"
                          [VStr out_path; VExn e])
               best)
      else (Crashed e, s)
  end.

(** Lines 61 to 87, the body of [if __name__ == '__main__']. *)
Definition main (w : ScriptEnv) (s : ScriptState) : ending * ScriptState :=
  if negb (jar_is_file w) then
    (Exited 1,
     log_error w s
       "JAR not found at `%s`. Please build the project or correct the path."
       [VStr (JAR_PATH (trial_env w))])
  else
    match create_study w (lit "minimize") with
    | Raise e => (Crashed e, s)
    | Ret study =>
        match optimize study objective n_trials (trial_env w) (trials s) with
        | (Raise e, t) => (Crashed e, with_trials s t)
        | (Ret _, t) =>
            let s1 := with_trials s t in
            match best_params study with
            | Raise e => (Crashed e, s1)
            | Ret bp =>
                let s2 := print s1 [VStr (lit "Best hyperparameters:");
                                    VDict bp] in
                match best_value study with
                | Raise e => (Crashed e, s2)
                | Ret bv =>
                    match best_trial_number study with
                    | Raise e => (Crashed e, s2)
                    | Ret bn =>
                        save_results w s2 bp
                          (output bp bv bn (direction study))
                    end
                end
            end
        end
    end.

End Script.

(* ===================================================================== *)
(** * More concrete runs *)
(* ===================================================================== *)

Module Runs.
Import PyStr Py PyFloat Tuning Script Examples.

(** The program prints its fitness, then a warning on the error stream. *)
Definition run_with_warning : CompletedProcess :=
  {| returncode := 0;
     stdout := lit "Fitness: 12.5" ++ [NL];
     stderr := lit "WARN: 3 particles left the domain" ++ [NL] |}.

(** The program prints its fitness and nothing else. *)
Definition quiet_run : CompletedProcess :=
  {| returncode := 0; stdout := lit "Fitness: -12.5" ++ [NL]; stderr := [] |}.

(** The program prints one line of one more than a thousand million
    digits 1: more digits than [float] reads. *)
Definition overlong_number : str :=
  49%N :: repeat 49%N (N.to_nat 1000000000).

Definition overlong_run : CompletedProcess :=
  {| returncode := 0; stdout := overlong_number; stderr := [] |}.

(** The program fails without printing a number. *)
Definition failed_run : CompletedProcess :=
  {| returncode := 2; stdout := [];
     stderr := lit "Error: bad arguments" ++ [NL] |}.

(** A study that runs the objective once and reports fixed results. *)
Definition one_trial_study : Study :=
  {| optimize := fun objective _ => bind objective (fun _ => ret tt);
     best_params := Ret [(lit "swarmSize", VInt 10)];
     best_value := Ret (float_literal "12.5");
     best_trial_number := Ret 0%Z;
     direction := MINIMIZE |}.

(** An environment of the script: the program always ends as
    [quiet_run]; the JAR is there or not; the result file can be written
    or the attempt ends as [w]. *)
Definition script_env (jar : bool) (w : outcome unit) : ScriptEnv :=
  {| trial_env := env_where (Ret quiet_run);
     jar_is_file := jar;
     create_study := fun _ => Ret one_trial_study;
     write_json := fun _ _ => w |}.

Definition start : ScriptState :=
  {| trials := new_trial; printed := []; written := [] |}.

(** The directory of the result file may not be written to. *)
Definition read_only : exn :=
  Exn PermissionError
      (lit "[Errno 13] Permission denied: 'best_results.json'").

End Runs.

Unset Implicit Arguments.

(* ===================================================================== *)
(** * Properties of the pattern matcher *)
(* ===================================================================== *)

Module ReFacts.
Import PyStr Re.

Section Matcher.
Variable A : Type.

Lemma greedy_sound (p : char -> bool) (s : str) (k : str -> option A) x :
  greedy p s k = Some x ->
  exists a b, s = a ++ b /\ Forall (fun c => p c = true) a /\ k b = Some x.
Proof.
  induction s as [|c s IH]; simpl; intros H.
  - exists [], []. auto.
  - destruct (p c) eqn:Hp.
    + destruct (greedy p s k) eqn:Hg.
      * inversion H; subst. destruct (IH eq_refl) as (a & b & -> & Ha & Hk).
        exists (c :: a), b. auto.
      * exists [], (c :: s). auto.
    + exists [], (c :: s). auto.
Qed.

Lemma greedy_complete (p : char -> bool) (s : str) (k : str -> option A) :
  greedy p s k = None ->
  forall a b, s = a ++ b -> Forall (fun c => p c = true) a -> k b = None.
Proof.
  induction s as [|c s IH]; simpl; intros H a b E Ha.
  - symmetry in E. apply app_eq_nil in E as [-> ->]. exact H.
  - destruct a as [|c' a]; simpl in E.
    + subst b. destruct (p c); [destruct (greedy p s k); [discriminate | exact H] | exact H].
    + inversion E; subst. inversion Ha; subst.
      rewrite H2 in H. destruct (greedy p (a ++ b) k) eqn:Hg; [discriminate|].
      eapply IH; eauto.
Qed.

End Matcher.

Lemma rmatch_sound (A : Type) (r : regex) :
  forall (s : str) (k : str -> option A) x,
    rmatch r s k = Some x ->
    exists a b, s = a ++ b /\ lang r a /\ k b = Some x.
Proof.
  induction r as [|p|r1 IH1 r2 IH2|r IH|p|p]; simpl; intros s k x H.
  - exists [], s. auto.
  - destruct s as [|c s]; [discriminate|].
    destruct (p c) eqn:Hp; [|discriminate].
    exists [c], s. split; [reflexivity|]. split; [exists c; auto | exact H].
  - apply IH1 in H as (a & b & -> & La & H).
    apply IH2 in H as (a' & b' & -> & La' & H).
    exists (a ++ a'), b'. rewrite app_assoc. split; [reflexivity|].
    split; [exists a, a'; auto | exact H].
  - destruct (rmatch r s k) eqn:Hr.
    + inversion H; subst. apply IH in Hr as (a & b & -> & La & Hk).
      exists a, b. auto.
    + exists [], s. auto.
  - apply greedy_sound in H as (a & b & -> & Ha & Hk). exists a, b. auto.
  - destruct s as [|c s]; [discriminate|].
    destruct (p c) eqn:Hp; [|discriminate].
    apply greedy_sound in H as (a & b & -> & Ha & Hk).
    exists (c :: a), b. split; [reflexivity|]. split; [|exact Hk].
    split; [discriminate | constructor; auto].
Qed.

Lemma rmatch_complete (A : Type) (r : regex) :
  forall (s : str) (k : str -> option A),
    rmatch r s k = None ->
    forall a b, s = a ++ b -> lang r a -> k b = None.
Proof.
  induction r as [|p|r1 IH1 r2 IH2|r IH|p|p]; simpl; intros s k H a b E La.
  - subst. exact H.
  - destruct La as (c & -> & Hp). subst s. simpl in H. rewrite Hp in H. exact H.
  - destruct La as (a1 & a2 & -> & L1 & L2). subst s.
    rewrite <- app_assoc in H.
    specialize (IH1 _ _ H a1 (a2 ++ b) eq_refl L1). simpl in IH1.
    eapply IH2; eauto.
  - destruct (rmatch r s k) eqn:Hr; [discriminate|].
    destruct La as [-> | La].
    + simpl in E. subst. exact H.
    + eapply IH; eauto.
  - eapply greedy_complete; eauto.
  - destruct La as (Hne & Ha). destruct a as [|c a]; [congruence|].
    subst s. simpl in H. inversion Ha; subst. rewrite H2 in H.
    eapply greedy_complete; eauto.
Qed.

Lemma firstn_length_app (a b : str) :
  firstn (length (a ++ b) - length b) (a ++ b) = a.
Proof.
  rewrite length_app, Nat.add_sub.
  rewrite firstn_app, Nat.sub_diag, firstn_all. simpl. apply app_nil_r.
Qed.

Lemma match_here_some r seen s m :
  match_here r seen s = Some m ->
  m_pre m = rev seen /\ s = m_group0 m ++ m_post m /\ lang r (m_group0 m) /\
  rmatch r s (fun rest => Some rest) = Some (m_post m).
Proof.
  unfold match_here. destruct (rmatch r s _) as [rest|] eqn:H; [|discriminate].
  intros E. inversion E; subst; clear E. simpl.
  destruct (rmatch_sound _ _ _ _ _ H) as (a & b & -> & La & Hk).
  inversion Hk; subst. rewrite firstn_length_app. auto.
Qed.

Lemma match_here_none r seen s :
  match_here r seen s = None ->
  forall t b, s = t ++ b -> ~ lang r t.
Proof.
  unfold match_here. destruct (rmatch r s _) as [rest|] eqn:H; [discriminate|].
  intros _ t b E L.
  pose proof (rmatch_complete _ r s _ H t b E L). discriminate.
Qed.

(** [search_from] returns a match of the pattern, and no match of the
    pattern starts to the left of it. *)
Lemma search_from_some r : forall s seen m,
  search_from r seen s = Some m ->
  exists a,
    m_pre m = rev seen ++ a /\
    s = a ++ m_group0 m ++ m_post m /\
    lang r (m_group0 m) /\
    rmatch r (m_group0 m ++ m_post m) (fun rest => Some rest)
      = Some (m_post m) /\
    forall a' t b, s = a' ++ t ++ b -> lang r t -> length a <= length a'.
Proof.
  induction s as [|c s IH]; intros seen m; simpl.
  - destruct (match_here r seen []) eqn:H; [|discriminate].
    intros E; inversion E; subst.
    apply match_here_some in H as (Hp & Hs & L & R).
    exists []. rewrite app_nil_r. simpl. rewrite <- Hs.
    repeat split; auto. intros; lia.
  - destruct (match_here r seen (c :: s)) eqn:H.
    + intros E; inversion E; subst.
      apply match_here_some in H as (Hp & Hs & L & R).
      exists []. rewrite app_nil_r. simpl. rewrite <- Hs.
      repeat split; auto. intros; lia.
    + intros E. apply IH in E as (a & Hp & Hs & L & R & Hleft).
      exists (c :: a). simpl in Hp. rewrite <- app_assoc in Hp. simpl in Hp.
      repeat split; auto.
      * simpl. congruence.
      * intros a' t b E' Lt. destruct a' as [|c' a'].
        -- simpl in E'. exfalso. eapply match_here_none; eauto.
        -- simpl in E'. inversion E'; subst. simpl.
           apply le_n_S. eapply Hleft; eauto.
Qed.

Lemma search_from_none r : forall s seen,
  search_from r seen s = None ->
  forall a t b, s = a ++ t ++ b -> ~ lang r t.
Proof.
  induction s as [|c s IH]; intros seen; simpl.
  - destruct (match_here r seen []) eqn:H; [discriminate|].
    intros _ a t b E. symmetry in E. apply app_eq_nil in E as [-> E].
    symmetry in E. eapply match_here_none; eauto.
  - destruct (match_here r seen (c :: s)) eqn:H; [discriminate|].
    intros E a t b E' L. destruct a as [|c' a].
    + simpl in E'. eapply match_here_none; eauto.
    + simpl in E'. inversion E'; subst. eapply IH; eauto.
Qed.

Lemma search_some r s m :
  search r s = Some m ->
  s = m_pre m ++ m_group0 m ++ m_post m /\
  lang r (m_group0 m) /\
  rmatch r (m_group0 m ++ m_post m) (fun rest => Some rest)
    = Some (m_post m) /\
  forall a t b, s = a ++ t ++ b -> lang r t -> length (m_pre m) <= length a.
Proof.
  intros H. apply search_from_some in H as (a & Hp & Hs & L & R & Hl).
  simpl in Hp. subst a. auto.
Qed.

(** When the pattern takes the longest match, the match [search] returns
    is the longest word of the language at its position. *)
Lemma search_longest r s m :
  takes_longest r ->
  search r s = Some m ->
  forall t b, m_group0 m ++ m_post m = t ++ b -> lang r t ->
              length t <= length (m_group0 m).
Proof.
  intros Hr H t b E L. apply search_some in H as (_ & _ & R & _).
  pose proof (Hr _ _ R t b E L) as Hlen.
  apply (f_equal (@length char)) in E. rewrite !length_app in E. lia.
Qed.

Lemma search_none r s :
  search r s = None -> forall a t b, s = a ++ t ++ b -> ~ lang r t.
Proof. apply search_from_none. Qed.

(** [search] fails only when no part of the text matches. *)
Lemma search_finds r s a t b :
  s = a ++ t ++ b -> lang r t -> exists m, search r s = Some m.
Proof.
  intros E L. destruct (search r s) as [m|] eqn:H; [eauto|].
  exfalso. eapply search_none; eauto.
Qed.

End ReFacts.

(* ===================================================================== *)
(** * Properties of the character tables *)
(* ===================================================================== *)

Module CharFacts.
Import PyStr PyFloat.

Lemma in_range_spec lo hi c :
  in_range lo hi c = true <-> (lo <= c <= hi)%N.
Proof.
  unfold in_range. rewrite andb_true_iff, !N.leb_le. tauto.
Qed.

Lemma to_decimal_some c d :
  to_decimal c = Some d ->
  exists b, In b decimal_blocks /\ (b <= c <= b + 9)%N /\ d = (c - b)%N.
Proof.
  unfold to_decimal.
  destruct (find _ decimal_blocks) as [b|] eqn:F; [|discriminate].
  intros E; inversion E; subst. apply find_some in F as [Hin Hr].
  apply in_range_spec in Hr. eauto.
Qed.

Lemma to_decimal_le9 c d : to_decimal c = Some d -> (d <= 9)%N.
Proof. intros H. apply to_decimal_some in H as (b & _ & Hr & ->). lia. Qed.

Lemma is_decimal_some c :
  is_decimal c = true -> exists d, to_decimal c = Some d.
Proof. unfold is_decimal. destruct (to_decimal c); [eauto|discriminate]. Qed.

Lemma blocks_below_127 b :
  In b decimal_blocks -> (b < 127)%N -> b = 48%N.
Proof.
  intros Hin Hlt.
  assert (F : forallb (fun b => (b =? 48)%N || (127 <=? b)%N) decimal_blocks = true)
    by (vm_compute; reflexivity).
  rewrite forallb_forall in F. specialize (F b Hin).
  apply orb_true_iff in F as [F|F]; [apply N.eqb_eq in F; exact F|].
  apply N.leb_le in F. lia.
Qed.

(** The ASCII characters that are decimal digits are 0 to 9. *)
Lemma decimal_ascii c :
  (c < 127)%N -> is_decimal c = true ->
  is_ascii_digit c = true /\ to_decimal c = Some (c - 48)%N.
Proof.
  intros Hc H. apply is_decimal_some in H as (d & Hd).
  destruct (to_decimal_some _ _ Hd) as (b & Hin & Hr & ->).
  assert (b = 48%N) by (apply blocks_below_127; [exact Hin | lia]). subst b.
  split; [apply in_range_spec; lia | exact Hd].
Qed.

Lemma ascii_digit_decimal c : is_ascii_digit c = true -> is_decimal c = true.
Proof.
  intros H. apply in_range_spec in H. unfold is_decimal, to_decimal.
  assert (F : find (fun b => in_range b (b + 9) c) decimal_blocks = Some 48%N).
  { assert (R : in_range 48 57 c = true) by (apply in_range_spec; lia).
    simpl. rewrite R. reflexivity. }
  rewrite F. reflexivity.
Qed.

(** No decimal digit is a white-space character. *)
Lemma decimal_not_space c : is_decimal c = true -> is_space c = false.
Proof.
  intros H. apply is_decimal_some in H as (d & Hd).
  apply to_decimal_some in Hd as (b & Hin & Hr & _).
  assert (F : forallb (fun b => forallb (fun i => negb (is_space (b + N.of_nat i)%N))
                                        (seq 0 10)) decimal_blocks = true)
    by (vm_compute; reflexivity).
  rewrite forallb_forall in F. specialize (F b Hin). cbv beta in F.
  rewrite forallb_forall in F.
  specialize (F (N.to_nat (c - b))).
  rewrite N2Nat.id in F. replace (b + (c - b))%N with c in F by lia.
  apply negb_true_iff, F. apply in_seq. lia.
Qed.

Lemma decimal_not_special c :
  is_decimal c = true ->
  c <> ch "+" /\ c <> ch "-" /\ c <> ch "." /\ c <> ch "e" /\ c <> ch "E" /\
  c <> ch "_".
Proof.
  intros H.
  assert (G : (c < 127)%N -> (48 <= c <= 57)%N).
  { intros Hc. destruct (decimal_ascii c Hc H) as [G _].
    apply in_range_spec in G. exact G. }
  unfold ch; simpl. repeat split; intros ->; specialize (G eq_refl); lia.
Qed.

End CharFacts.

(* ===================================================================== *)
(** * Properties of [float] *)
(* ===================================================================== *)

Module FloatFacts.
Import PyStr Py PyFloat CharFacts.

(** ** Rounding never yields NaN *)

Lemma iter_pos_invariant (A : Type) (P : A -> Prop) (f : A -> A) :
  (forall x, P x -> P (f x)) ->
  forall n x, P x -> P (iter_pos f n x).
Proof.
  intros Hf. induction n as [n IH|n IH|]; simpl; intros x Hx; auto.
Qed.

Lemma shr_1_nonneg mrs : (0 <= shr_m mrs)%Z -> (0 <= shr_m (shr_1 mrs))%Z.
Proof.
  destruct mrs as [m r s]. simpl.
  destruct m as [|[p|p|]|[p|p|]]; simpl; lia.
Qed.

Lemma shr_nonneg mrs e n :
  (0 <= shr_m mrs)%Z -> (0 <= shr_m (fst (shr mrs e n)))%Z.
Proof.
  intros H. unfold shr. destruct n; simpl; auto.
  apply iter_pos_invariant; auto using shr_1_nonneg.
Qed.

Lemma shr_fexp_nonneg pr em m e l :
  (0 <= m)%Z -> (0 <= shr_m (fst (shr_fexp pr em m e l)))%Z.
Proof.
  intros H. unfold shr_fexp. apply shr_nonneg.
  destruct l as [|[ | | ]]; simpl; exact H.
Qed.

Lemma round_nearest_even_nonneg m l :
  (0 <= m)%Z -> (0 <= round_nearest_even m l)%Z.
Proof.
  intros H. unfold round_nearest_even.
  destruct l as [|[ | | ]]; try destruct (Z.even m); lia.
Qed.

Lemma binary_round_aux_not_nan pr em sx mx ex lx :
  (0 <= mx)%Z -> is_nan (binary_round_aux pr em sx mx ex lx) = false.
Proof.
  intros H. unfold binary_round_aux.
  pose proof (shr_fexp_nonneg pr em mx ex lx H) as H1.
  destruct (shr_fexp pr em mx ex lx) as [mrs' e']. simpl in H1.
  pose proof (shr_fexp_nonneg pr em _ e' loc_Exact
                (round_nearest_even_nonneg _ (loc_of_shr_record mrs') H1)) as H2.
  destruct (shr_fexp pr em _ e' loc_Exact) as [mrs'' e'']. simpl in H2.
  destruct (shr_m mrs'') as [|m|m]; [reflexivity | | lia].
  destruct (e'' <=? em - pr)%Z; reflexivity.
Qed.

Lemma binary_round_not_nan pr em sx mx ex :
  is_nan (binary_round pr em sx mx ex) = false.
Proof.
  unfold binary_round. destruct (shl_align mx ex _) as [mz ez].
  apply binary_round_aux_not_nan. lia.
Qed.

Lemma div_core_nonneg pr em m1 m2 :
  (0 <= fst (fst (SFdiv_core_binary pr em (Zpos m1) 0 (Zpos m2) 0)))%Z.
Proof.
  unfold SFdiv_core_binary.
  set (s := (0 - 0 - _)%Z).
  set (m' := match s with Zpos _ => Z.shiftl (Zpos m1) s | Z0 => Zpos m1 | Zneg _ => 0%Z end).
  assert (Hm : (0 <= m')%Z).
  { subst m'. destruct s; try lia. apply Z.shiftl_nonneg. lia. }
  pose proof (Z.div_pos m' (Zpos m2) Hm ltac:(lia)) as Hq.
  unfold Z.div in Hq. destruct (Z.div_eucl m' (Zpos m2)) as [q r]. exact Hq.
Qed.

(** The conversion of a decimal number never yields NaN. *)
Lemma round_decimal_not_nan neg m e : is_nan (round_decimal neg m e) = false.
Proof.
  unfold round_decimal. destruct m as [|p]; [reflexivity|].
  destruct e as [|k|k]; try apply binary_round_not_nan.
  pose proof (div_core_nonneg prec emax p (Pos.pow 10 k)) as H.
  destruct (SFdiv_core_binary _ _ _ _ _ _) as [[q e2] l]. simpl in H.
  apply binary_round_aux_not_nan. exact H.
Qed.

(** ** The decimal grammar on ASCII text *)

Lemma span_app (p : char -> bool) (a b : str) :
  Forall (fun c => p c = true) a ->
  (forall c b', b = c :: b' -> p c = false) ->
  span p (a ++ b) = (a, b).
Proof.
  intros Ha Hb. induction Ha as [|c a Hc Ha IH]; simpl.
  - destruct b as [|c b']; [reflexivity|]. simpl. rewrite (Hb c b' eq_refl). reflexivity.
  - rewrite Hc, IH. reflexivity.
Qed.

Lemma span_all (p : char -> bool) (a : str) :
  Forall (fun c => p c = true) a -> span p a = (a, []).
Proof.
  intros Ha. rewrite <- (app_nil_r a) at 1. apply span_app; [exact Ha|].
  intros; discriminate.
Qed.

Lemma digit_not_sign c :
  is_ascii_digit c = true ->
  (c =? ch "-")%N = false /\ (c =? ch "+")%N = false /\
  (c =? ch ".")%N = false /\ (c =? ch "e")%N = false /\
  (c =? ch "E")%N = false /\ (c =? ch "_")%N = false /\
  is_ascii_space c = false.
Proof.
  intros H. apply in_range_spec in H. unfold ch, is_ascii_space, in_range. simpl.
  repeat split; try (apply N.eqb_neq; lia).
  destruct (N.leb_spec 9 c), (N.leb_spec c 13), (N.eqb_spec c 32); simpl; auto; lia.
Qed.

(** After the sign of an ASCII token, [take_sign] reads nothing more. *)
Lemma take_sign_token (sg body : str) c body' :
  Spec.optional_sign sg ->
  body = c :: body' ->
  (c =? ch "-")%N = false -> (c =? ch "+")%N = false ->
  exists neg, take_sign (sg ++ body) = (neg, body).
Proof.
  intros [-> | [-> | ->]] -> H1 H2; cbn [app]; unfold take_sign.
  - rewrite H1, H2. eauto.
  - eexists; reflexivity.
  - eexists; reflexivity.
Qed.

Lemma scan_exponent_token (ex : str) :
  ex = [] \/ Spec.exponent is_ascii_digit ex ->
  exists z, scan_exponent ex = (z, []).
Proof.
  intros [-> | (e & sg & ds & -> & He & Hsg & Hds & Hne)]; [simpl; eauto|].
  assert (Hd : exists c ds', ds = c :: ds' /\ is_ascii_digit c = true).
  { destruct ds as [|c ds']; [congruence|]. inversion Hds; subst. eauto. }
  destruct Hd as (c & ds' & Eds & Hc).
  destruct (digit_not_sign c Hc) as (N1 & N2 & _).
  destruct (take_sign_token sg ds c ds' Hsg Eds N1 N2) as (neg & Hts).
  unfold scan_exponent.
  assert (Ee : (e =? ch "e")%N || (e =? ch "E")%N = true)
    by (destruct He; subst; reflexivity).
  rewrite Ee, Hts, (span_all _ ds Hds). subst ds. eauto.
Qed.

Lemma drop_while_le (p : char -> bool) (s : str) :
  length (drop_while p s) <= length s.
Proof.
  induction s as [|c s IH]; simpl; [lia|]. destruct (p c); simpl; lia.
Qed.

Lemma ndigits_le (ip fp : str) : ndigits ip fp <= length ip + length fp.
Proof.
  unfold ndigits.
  pose proof (drop_while_le is_zero_digit ip) as H1.
  pose proof (drop_while_le is_zero_digit fp) as H2.
  destruct (drop_while is_zero_digit ip); simpl in *; lia.
Qed.

(** A number of at most [MAX_DIGITS] digits passes the range check; one
    that fails it has more. *)
Lemma few_digits (ip fp : str) :
  (N.of_nat (length ip + length fp) <= MAX_DIGITS)%N ->
  too_many_digits ip fp = false.
Proof.
  intros H. unfold too_many_digits. pose proof (ndigits_le ip fp) as L.
  apply orb_false_iff. split; apply N.ltb_ge; lia.
Qed.

Lemma many_digits (ip fp : str) :
  too_many_digits ip fp = true ->
  (MAX_DIGITS < N.of_nat (length ip + length fp))%N.
Proof.
  unfold too_many_digits. pose proof (ndigits_le ip fp) as L.
  intros H. apply orb_true_iff in H as [H | H]; apply N.ltb_lt in H; lia.
Qed.

(** After its sign, a token starts with a digit or with the point. *)
Lemma token_body (digit : char -> bool) (d1 pt d2 ex : str) :
  Spec.digits digit d1 -> Spec.optional_point pt ->
  Spec.digits digit d2 -> d2 <> [] ->
  exists c body', d1 ++ pt ++ d2 ++ ex = c :: body' /\
                  (digit c = true \/ c = ch ".").
Proof.
  intros Hd1 Hpt Hd2 Hne. destruct d1 as [|c d1'].
  - destruct Hpt as [-> | ->].
    + destruct d2 as [|c d2']; [congruence|].
      apply Forall_cons_iff in Hd2 as [Hc _].
      exists c, (d2' ++ ex). split; [reflexivity | left; exact Hc].
    + exists (ch "."), (d2 ++ ex). split; [reflexivity | right; reflexivity].
  - apply Forall_cons_iff in Hd1 as [Hc _].
    exists c, (d1' ++ pt ++ d2 ++ ex). split; [reflexivity | left; exact Hc].
Qed.

Lemma body_not_sign c :
  is_ascii_digit c = true \/ c = ch "." ->
  (c =? ch "-")%N = false /\ (c =? ch "+")%N = false /\
  (lower c =? 105)%N = false /\ (lower c =? 110)%N = false.
Proof.
  intros [H | ->]; [|repeat split; reflexivity].
  apply in_range_spec in H. unfold lower, in_range, ch. simpl.
  destruct (N.leb_spec 65 c); simpl; [lia|].
  repeat split; apply N.eqb_neq; lia.
Qed.

(** On an ASCII token [strtod] reads the whole text, or refuses it for its
    number of digits; the spellings of infinity and NaN do not apply. *)
Lemma strtod_token (t : str) :
  Spec.token is_ascii_digit t ->
  exists neg ip fp e,
    length ip + length fp <= length t /\
    strtod t = (if too_many_digits ip fp then None
                else Some (round_decimal neg (digits_value 0 (ip ++ fp)) e,
                           [])) /\
    parse_inf_or_nan t = None.
Proof.
  intros (sg & d1 & pt & d2 & ex & -> & Hsg & Hd1 & Hpt & Hd2 & Hne & Hex).
  destruct (scan_exponent_token ex Hex) as (z & Hz).
  assert (Hexh : forall c b', ex = c :: b' ->
                   is_ascii_digit c = false /\ (c =? ch ".")%N = false).
  { intros c b' E. destruct Hex as [-> | (e & sg' & ds & -> & He & _)];
      [discriminate|]. inversion E; subst.
    destruct He; subst; split; reflexivity. }
  destruct (token_body is_ascii_digit d1 pt d2 ex Hd1 Hpt Hd2 Hne)
    as (c & body' & Eb & Hc).
  destruct (body_not_sign c Hc) as (N1 & N2 & N3 & N4).
  destruct (take_sign_token sg _ c body' Hsg Eb N1 N2) as (neg & Hts).
  assert (Hinf : parse_inf_or_nan (sg ++ d1 ++ pt ++ d2 ++ ex) = None).
  { unfold parse_inf_or_nan. rewrite Hts, Eb. simpl. rewrite N3, N4.
    reflexivity. }
  assert (Hst : exists ip fp e,
            length ip + length fp <= length d1 + length d2 /\
            strtod (sg ++ d1 ++ pt ++ d2 ++ ex) =
              (if too_many_digits ip fp then None
               else Some (round_decimal neg (digits_value 0 (ip ++ fp)) e,
                          []))).
  { unfold strtod. rewrite Hts.
    destruct Hpt as [-> | ->]; simpl app.
    - exists (d1 ++ d2), [], (z - 0)%Z.
      split; [rewrite length_app; simpl; lia|].
      rewrite (app_assoc d1 d2 ex).
      rewrite (span_app is_ascii_digit (d1 ++ d2) ex);
        [| apply Forall_app; auto | intros c' b' E; apply (Hexh c' b' E)].
      assert (Efin : forall fp s3, fp = [] -> s3 = ex ->
                match (d1 ++ d2) ++ fp with
                | [] => None
                | c0 :: l =>
                    if too_many_digits (d1 ++ d2) fp then None
                    else
                      let (e0, s4) := scan_exponent s3 in
                      Some (round_decimal neg (digits_value 0 (c0 :: l))
                              (e0 - Z.of_nat (length fp)), s4)
                end =
                if too_many_digits (d1 ++ d2) [] then None
                else Some (round_decimal neg
                             (digits_value 0 ((d1 ++ d2) ++ [])) (z - 0),
                           [])).
      { intros fp s3 -> ->. rewrite Hz. simpl length. simpl Z.of_nat.
        destruct ((d1 ++ d2) ++ []) as [|x xs] eqn:E12; [|reflexivity].
        rewrite app_nil_r in E12.
        apply app_eq_nil in E12 as [_ ->]. congruence. }
      destruct ex as [|c0 s']; [apply Efin; reflexivity|].
      destruct (Hexh c0 s' eq_refl) as [_ Hdot]. rewrite Hdot.
      apply Efin; reflexivity.
    - exists d1, d2, (z - Z.of_nat (length d2))%Z. split; [lia|].
      rewrite span_app;
        [| exact Hd1 | intros c' b' E; inversion E; reflexivity].
      change ((46 =? ch ".")%N) with true. cbv iota.
      rewrite (span_app is_ascii_digit d2 ex);
        [| exact Hd2 | intros c' b' E; apply (Hexh c' b' E)].
      rewrite Hz.
      destruct (d1 ++ d2) as [|x xs] eqn:E12; [|reflexivity].
      apply app_eq_nil in E12 as [_ ->]. congruence. }
  destruct Hst as (ip & fp & e & Hlen & Hst).
  exists neg, ip, fp, e. split; [|split; [exact Hst | exact Hinf]].
  rewrite !length_app. lia.
Qed.

(** ** From a token of the pattern to an ASCII token *)

Lemma to_ascii_app (a b : str) :
  Forall (fun c => (c <? 127)%N = true \/ is_decimal c = true) a ->
  to_ascii (a ++ b) = to_ascii a ++ to_ascii b.
Proof.
  induction 1 as [|c a Hc Ha IH]; [reflexivity|]. simpl.
  destruct (c <? 127)%N eqn:Hlt; [rewrite IH; reflexivity|].
  destruct Hc as [Hc | Hc]; [discriminate|].
  rewrite (decimal_not_space c Hc).
  destruct (is_decimal_some c Hc) as (d & ->). rewrite IH. reflexivity.
Qed.

Lemma to_ascii_low (s : str) :
  Forall (fun c => (c <? 127)%N = true) s -> to_ascii s = s.
Proof.
  induction 1 as [|c s Hc Hs IH]; [reflexivity|]. simpl. rewrite Hc, IH. reflexivity.
Qed.

Lemma to_ascii_digits (ds : str) :
  Spec.digits is_decimal ds ->
  Spec.digits is_ascii_digit (to_ascii ds) /\ (ds <> [] -> to_ascii ds <> []).
Proof.
  induction 1 as [|c ds Hc Hds [IH _]]; [split; [constructor | congruence]|].
  simpl. destruct (c <? 127)%N eqn:Hlt.
  - split; [|discriminate]. constructor; [|exact IH].
    apply N.ltb_lt in Hlt. apply (decimal_ascii c Hlt Hc).
  - rewrite (decimal_not_space c Hc).
    destruct (is_decimal_some c Hc) as (d & Hd). rewrite Hd.
    split; [|discriminate]. constructor; [|exact IH].
    apply to_decimal_le9 in Hd. unfold digit_char. apply in_range_spec. lia.
Qed.

Lemma sign_low (sg : str) :
  Spec.optional_sign sg -> Forall (fun c => (c <? 127)%N = true) sg.
Proof. intros [-> | [-> | ->]]; repeat constructor. Qed.

Lemma point_low (pt : str) :
  Spec.optional_point pt -> Forall (fun c => (c <? 127)%N = true) pt.
Proof. intros [-> | ->]; repeat constructor. Qed.

Lemma low_convertible (s : str) :
  Forall (fun c => (c <? 127)%N = true) s ->
  Forall (fun c => (c <? 127)%N = true \/ is_decimal c = true) s.
Proof. apply Forall_impl. auto. Qed.

Lemma digits_convertible (s : str) :
  Spec.digits is_decimal s ->
  Forall (fun c => (c <? 127)%N = true \/ is_decimal c = true) s.
Proof. apply Forall_impl. auto. Qed.

Lemma exponent_to_ascii (ex : str) :
  ex = [] \/ Spec.exponent is_decimal ex ->
  to_ascii ex = [] \/ Spec.exponent is_ascii_digit (to_ascii ex).
Proof.
  intros [-> | (e & sg & ds & -> & He & Hsg & Hds & Hne)]; [left; reflexivity|].
  right. exists e, sg, (to_ascii ds).
  destruct (to_ascii_digits ds Hds) as [Hd Hn].
  repeat split; auto.
  change (e :: sg ++ ds) with ([e] ++ sg ++ ds).
  rewrite to_ascii_app, to_ascii_app by
    (try (apply low_convertible, sign_low; exact Hsg);
     destruct He; subst; repeat constructor).
  rewrite (to_ascii_low sg (sign_low sg Hsg)).
  rewrite (to_ascii_low [e]) by (destruct He; subst; repeat constructor).
  reflexivity.
Qed.

Lemma to_ascii_length (s : str) :
  Forall (fun c => (c <? 127)%N = true \/ is_decimal c = true) s ->
  length (to_ascii s) = length s.
Proof.
  induction 1 as [|c s Hc Hs IH]; [reflexivity|]. simpl.
  destruct (c <? 127)%N eqn:Hlt; [simpl; rewrite IH; reflexivity|].
  destruct Hc as [Hc | Hc]; [discriminate|].
  rewrite (decimal_not_space c Hc).
  destruct (is_decimal_some c Hc) as (d & ->). simpl. rewrite IH. reflexivity.
Qed.

(** [float] first turns the digits of a token into ASCII digits; the
    result is a token over ASCII digits, of the same length. *)
Lemma token_to_ascii (t : str) :
  Pattern.unicode_token t ->
  Spec.token is_ascii_digit (to_ascii t) /\
  length (to_ascii t) = length t.
Proof.
  intros Ht.
  assert (Hconv : Forall (fun c => (c <? 127)%N = true \/ is_decimal c = true) t).
  { destruct Ht as (sg & d1 & pt & d2 & ex & -> & Hsg & Hd1 & Hpt & Hd2 & _ & Hex).
    repeat (apply Forall_app; split);
      auto using low_convertible, digits_convertible, sign_low, point_low.
    destruct Hex as [-> | (e & sg' & ds & -> & He & Hsg' & Hds & _)];
      [constructor|].
    constructor; [left; destruct He; subst; reflexivity|].
    apply Forall_app; split;
      auto using low_convertible, digits_convertible, sign_low. }
  split; [|apply to_ascii_length; exact Hconv].
  revert Ht.
  intros (sg & d1 & pt & d2 & ex & -> & Hsg & Hd1 & Hpt & Hd2 & Hne & Hex).
  destruct (to_ascii_digits d1 Hd1) as [H1 _].
  destruct (to_ascii_digits d2 Hd2) as [H2 H2n].
  exists sg, (to_ascii d1), pt, (to_ascii d2), (to_ascii ex).
  repeat split; auto using exponent_to_ascii.
  rewrite !to_ascii_app by
    auto using low_convertible, digits_convertible, sign_low, point_low.
  rewrite (to_ascii_low sg (sign_low sg Hsg)).
  rewrite (to_ascii_low pt (point_low pt Hpt)). reflexivity.
Qed.

(** An ASCII token has neither underscores nor white space. *)
Lemma token_chars (t : str) :
  Spec.token is_ascii_digit t ->
  t <> [] /\
  Forall (fun c => (c =? ch "_")%N = false /\ is_ascii_space c = false) t.
Proof.
  intros (sg & d1 & pt & d2 & ex & -> & Hsg & Hd1 & Hpt & Hd2 & Hne & Hex).
  assert (Hdig : forall ds, Spec.digits is_ascii_digit ds ->
            Forall (fun c => (c =? ch "_")%N = false /\ is_ascii_space c = false) ds).
  { intros ds. apply Forall_impl. intros c Hc.
    destruct (digit_not_sign c Hc) as (_ & _ & _ & _ & _ & ? & ?). auto. }
  assert (Hs : forall sg, Spec.optional_sign sg ->
            Forall (fun c => (c =? ch "_")%N = false /\ is_ascii_space c = false) sg).
  { intros ? [-> | [-> | ->]]; repeat constructor. }
  split.
  - intros E. apply app_eq_nil in E as [_ E]. apply app_eq_nil in E as [_ E].
    apply app_eq_nil in E as [_ E]. apply app_eq_nil in E as [E _]. congruence.
  - repeat (apply Forall_app; split); auto.
    + destruct Hpt as [-> | ->]; repeat constructor.
    + destruct Hex as [-> | (e & sg' & ds & -> & He & Hsg' & Hds & _)];
        [constructor|].
      constructor; [destruct He; subst; split; reflexivity|].
      apply Forall_app; auto.
Qed.

Lemma drop_while_none (p : char -> bool) (s : str) :
  Forall (fun c => p c = false) s -> drop_while p s = s.
Proof. destruct 1 as [|c s Hc _]; simpl; [|rewrite Hc]; reflexivity. Qed.

Lemma existsb_none (p : char -> bool) (s : str) :
  Forall (fun c => p c = false) s -> existsb p s = false.
Proof. induction 1 as [|c s Hc _ IH]; simpl; [|rewrite Hc, IH]; reflexivity. Qed.

(** [float] on a token of the pattern: the text is read by [strtod] on its
    ASCII form, and the result is the rounding of a decimal number, or a
    [ValueError] when the range check on the number of digits fails. *)
Lemma py_float_token (t : str) :
  Pattern.unicode_token t ->
  exists neg ip fp e,
    length ip + length fp <= length t /\
    strtod (to_ascii t) =
      (if too_many_digits ip fp then None
       else Some (round_decimal neg (digits_value 0 (ip ++ fp)) e, [])) /\
    py_float t =
      (if too_many_digits ip fp then Raise (value_error t)
       else Ret (round_decimal neg (digits_value 0 (ip ++ fp)) e)).
Proof.
  intros Ht. apply token_to_ascii in Ht as [Ht Hlen].
  destruct (token_chars _ Ht) as [Hne Hch].
  destruct (strtod_token _ Ht) as (neg & ip & fp & e & Hl & Hs & Hinf).
  exists neg, ip, fp, e. split; [rewrite <- Hlen; exact Hl|].
  split; [exact Hs|].
  unfold py_float, without_underscores.
  rewrite existsb_none by (eapply Forall_impl; [|exact Hch]; intros c [H _]; exact H).
  assert (Hsp : Forall (fun c => is_ascii_space c = false) (to_ascii t))
    by (eapply Forall_impl; [|exact Hch]; intros c [_ H]; exact H).
  rewrite (drop_while_none _ _ Hsp).
  rewrite drop_while_none by (apply Forall_rev; exact Hsp).
  rewrite rev_involutive, Hs, Hinf.
  destruct (too_many_digits ip fp); reflexivity.
Qed.

(** [float] accepts every token of at most [MAX_DIGITS] characters. *)
Lemma py_float_token_short (t : str) :
  Pattern.unicode_token t ->
  (N.of_nat (length t) <= MAX_DIGITS)%N ->
  exists neg m e, py_float t = Ret (round_decimal neg m e) /\
                  strtod (to_ascii t) = Some (round_decimal neg m e, []).
Proof.
  intros Ht Hlen.
  destruct (py_float_token t Ht) as (neg & ip & fp & e & Hl & Hs & F).
  rewrite few_digits in Hs, F by lia. eauto.
Qed.

(** The float of a token, when there is one, is the rounding of a decimal
    number. *)
Lemma py_float_token_value (t : str) x :
  Pattern.unicode_token t -> py_float t = Ret x ->
  (exists neg m e, x = round_decimal neg m e) /\
  strtod (to_ascii t) = Some (x, []).
Proof.
  intros Ht F0.
  destruct (py_float_token t Ht) as (neg & ip & fp & e & Hl & Hs & F).
  rewrite F0 in F. destruct (too_many_digits ip fp); [discriminate|].
  inversion F; subst x. split; [eauto | exact Hs].
Qed.

(** It is never NaN. *)
Lemma py_float_token_not_nan (t : str) x :
  Pattern.unicode_token t -> py_float t = Ret x -> is_nan x = false.
Proof.
  intros Ht F. destruct (py_float_token_value t x Ht F) as [(neg & m & e & ->) _].
  apply round_decimal_not_nan.
Qed.

(** [float] refuses a token only for its length: more than [MAX_DIGITS]
    characters. *)
Lemma py_float_token_raise (t : str) e :
  Pattern.unicode_token t -> py_float t = Raise e ->
  e = value_error t /\ (MAX_DIGITS < N.of_nat (length t))%N.
Proof.
  intros Ht F0.
  destruct (py_float_token t Ht) as (neg & ip & fp & e' & Hl & Hs & F).
  rewrite F0 in F. destruct (too_many_digits ip fp) eqn:Hm; [|discriminate].
  inversion F; subst e. split; [reflexivity|].
  apply many_digits in Hm. lia.
Qed.

(** [float] refuses a run of more than [MAX_DIGITS] digits that does not
    start with a zero. *)
Lemma py_float_long_digits (d : char) (ds : str) :
  is_ascii_digit d = true -> is_zero_digit d = false ->
  Forall (fun c => is_ascii_digit c = true) ds ->
  (MAX_DIGITS < N.of_nat (length (d :: ds)))%N ->
  py_float (d :: ds) = Raise (value_error (d :: ds)).
Proof.
  intros Hd Hz Hds Hlen.
  assert (Hall : Forall (fun c => is_ascii_digit c = true) (d :: ds))
    by (constructor; assumption).
  assert (Hlow : Forall (fun c => (c <? 127)%N = true) (d :: ds)).
  { eapply Forall_impl; [|exact Hall]. intros c Hc.
    apply in_range_spec in Hc. apply N.ltb_lt. lia. }
  assert (Hch : Forall (fun c => (c =? ch "_")%N = false /\
                                 is_ascii_space c = false) (d :: ds)).
  { eapply Forall_impl; [|exact Hall]. intros c Hc.
    destruct (digit_not_sign c Hc) as (_ & _ & _ & _ & _ & ? & ?). auto. }
  destruct (digit_not_sign d Hd) as (N1 & N2 & _).
  destruct (body_not_sign d (or_introl Hd)) as (_ & _ & N3 & N4).
  assert (Hmany : too_many_digits (d :: ds) [] = true).
  { unfold too_many_digits, ndigits. cbn [drop_while]. rewrite Hz.
    apply orb_true_iff. left. apply N.ltb_lt. lia. }
  assert (Hs : strtod (d :: ds) = None).
  { unfold strtod, take_sign. rewrite N1, N2.
    rewrite (span_all is_ascii_digit (d :: ds) Hall).
    rewrite app_nil_r, Hmany. reflexivity. }
  assert (Hinf : parse_inf_or_nan (d :: ds) = None).
  { unfold parse_inf_or_nan, take_sign. rewrite N1, N2. simpl.
    rewrite N3, N4. reflexivity. }
  unfold py_float, without_underscores.
  rewrite (to_ascii_low _ Hlow).
  rewrite existsb_none by (eapply Forall_impl; [|exact Hch]; intros c [H _]; exact H).
  assert (Hsp : Forall (fun c => is_ascii_space c = false) (d :: ds))
    by (eapply Forall_impl; [|exact Hch]; intros c [_ H]; exact H).
  rewrite (drop_while_none _ _ Hsp).
  rewrite drop_while_none by (apply Forall_rev; exact Hsp).
  rewrite rev_involutive, Hs, Hinf. reflexivity.
Qed.

(** [float] raises nothing but [ValueError]. *)
Lemma py_float_raises (s : str) e :
  py_float s = Raise e -> exn_type e = ValueError.
Proof.
  unfold py_float. destruct (without_underscores _); [|intros E; inversion E; reflexivity].
  destruct (match strtod _ with Some r => Some r | None => _ end) as [[x [|c r]]|];
    intros E; inversion E; reflexivity.
Qed.

End FloatFacts.

(* ===================================================================== *)
(** * The fitness pattern and its tokens *)
(* ===================================================================== *)

Module TokenFacts.
Import PyStr Py PyFloat Re Tuning Spec Pattern ReFacts CharFacts.

Lemma opt_sign_iff (w : str) :
  lang (Opt (Class is_sign)) w <-> optional_sign w.
Proof.
  simpl. unfold optional_sign, is_sign. split.
  - intros [-> | (c & -> & H)]; [auto|].
    apply orb_true_iff in H as [H | H]; apply N.eqb_eq in H; subst; auto.
  - intros [-> | [-> | ->]]; [auto | right | right]; eexists; split; reflexivity.
Qed.

Lemma opt_point_iff (w : str) :
  lang (Opt (Class is_dot)) w <-> optional_point w.
Proof.
  simpl. unfold optional_point, is_dot. split.
  - intros [-> | (c & -> & H)]; [auto|]. apply N.eqb_eq in H; subst; auto.
  - intros [-> | ->]; [auto | right]; eexists; split; reflexivity.
Qed.

Lemma exponent_iff (w : str) :
  lang exponent_group w <-> exponent is_decimal w.
Proof.
  unfold exponent_group. split.
  - intros (a & b & -> & (e & -> & He) & (sg & ds & -> & Hsg & Hne & Hds)).
    apply opt_sign_iff in Hsg. exists e, sg, ds. repeat split; auto.
    unfold is_e in He. apply orb_true_iff in He as [H | H];
      apply N.eqb_eq in H; auto.
  - intros (e & sg & ds & -> & He & Hsg & Hds & Hne).
    exists [e], (sg ++ ds). repeat split.
    + exists e. split; [reflexivity|]. destruct He; subst; reflexivity.
    + exists sg, ds. repeat split; auto. apply opt_sign_iff; exact Hsg.
Qed.

(** The language of the fitness pattern is the set of tokens over the
    decimal digits of Unicode. *)
Lemma pattern_token (t : str) :
  lang fitness_pattern t <-> unicode_token t.
Proof.
  unfold fitness_pattern, unicode_token, token. split.
  - intros (sg & r1 & -> & Hsg & d1 & r2 & -> & Hd1 & pt & r3 & -> & Hpt &
            d2 & ex & -> & (Hne & Hd2) & Hex).
    exists sg, d1, pt, d2, ex.
    apply opt_sign_iff in Hsg. apply opt_point_iff in Hpt.
    repeat split; auto.
    destruct Hex as [-> | Hex]; [auto | right; apply exponent_iff; exact Hex].
  - intros (sg & d1 & pt & d2 & ex & -> & Hsg & Hd1 & Hpt & Hd2 & Hne & Hex).
    exists sg, (d1 ++ pt ++ d2 ++ ex). split; [reflexivity|].
    split; [apply opt_sign_iff; exact Hsg|].
    exists d1, (pt ++ d2 ++ ex). split; [reflexivity|]. split; [exact Hd1|].
    exists pt, (d2 ++ ex). split; [reflexivity|].
    split; [apply opt_point_iff; exact Hpt|].
    exists d2, ex. split; [reflexivity|]. split; [split; assumption|].
    destruct Hex as [-> | Hex]; [left; reflexivity | right; apply exponent_iff; exact Hex].
Qed.

(** [re.search] on the fitness pattern finds a token, and no token starts
    to the left of it. *)
Lemma search_token_some (line : str) m :
  search fitness_pattern line = Some m ->
  line = m_pre m ++ m_group0 m ++ m_post m /\
  unicode_token (m_group0 m) /\
  forall a t b, line = a ++ t ++ b -> unicode_token t ->
                length (m_pre m) <= length a.
Proof.
  intros H. apply search_some in H as (E & L & _ & Hl).
  split; [exact E|]. split; [apply pattern_token; exact L|].
  intros a t b E' Ht. apply (Hl a t b E'). apply pattern_token; exact Ht.
Qed.

Lemma search_token_none (line : str) :
  search fitness_pattern line = None <-> ~ contains_unicode_token line.
Proof.
  split.
  - intros H (a & t & b & E & Ht).
    apply (search_none _ _ H a t b E). apply pattern_token; exact Ht.
  - intros H. destruct (search fitness_pattern line) as [m|] eqn:S; [|reflexivity].
    exfalso. apply H. apply search_token_some in S as (E & Ht & _).
    exists (m_pre m), (m_group0 m), (m_post m). auto.
Qed.

(** ** Standard tokens among the tokens of the pattern *)

(** A token whose digits all belong to another class of digits is a token
    over that class. *)
Lemma token_restrict (digit digit' : char -> bool) (t : str) :
  Forall (fun c => digit c = true -> digit' c = true) t ->
  token digit t -> token digit' t.
Proof.
  intros Hall (sg & d1 & pt & d2 & ex & -> & Hsg & Hd1 & Hpt & Hd2 & Hne & Hex).
  apply Forall_app in Hall as [_ Hall].
  apply Forall_app in Hall as [H1 Hall].
  apply Forall_app in Hall as [_ Hall].
  apply Forall_app in Hall as [H2 H3].
  assert (D : forall ds, Forall (fun c => digit c = true -> digit' c = true) ds ->
                         digits digit ds -> digits digit' ds).
  { intros ds Ha Hd. unfold digits in *. rewrite Forall_forall in *.
    intros c Hc. apply (Ha c Hc), (Hd c Hc). }
  exists sg, d1, pt, d2, ex. repeat split; auto.
  destruct Hex as [-> | (e & sg' & ds & -> & He & Hsg' & Hds & Hn)];
    [left; reflexivity|].
  right. exists e, sg', ds. repeat split; auto.
  apply Forall_cons_iff in H3 as [_ H3].
  apply Forall_app in H3 as [_ H3]. auto.
Qed.

(** A standard numeric token is a token of the pattern. *)
Lemma numeric_unicode (t : str) : numeric_token t -> unicode_token t.
Proof.
  apply token_restrict. apply Forall_forall. intros c _.
  apply ascii_digit_decimal.
Qed.


(** A token starts with a sign, a digit or the point. *)
Lemma token_first (digit : char -> bool) (t : str) :
  token digit t ->
  exists c r, t = c :: r /\
    (c = ch "+" \/ c = ch "-" \/ c = ch "." \/ digit c = true).
Proof.
  intros (sg & d1 & pt & d2 & ex & -> & Hsg & Hd1 & Hpt & Hd2 & Hne & Hex).
  destruct (FloatFacts.token_body digit d1 pt d2 ex Hd1 Hpt Hd2 Hne)
    as (c & body' & Eb & Hc).
  destruct Hsg as [-> | [-> | ->]].
  - exists c, body'. split; [exact Eb|]. destruct Hc; auto.
  - eexists _, _. split; [reflexivity | auto].
  - eexists _, _. split; [reflexivity | auto].
Qed.

End TokenFacts.

(* ===================================================================== *)
(** * The fitness pattern takes the longest token *)
(* ===================================================================== *)

Module LongestFacts.
Import PyStr Re Tuning Spec Pattern ReFacts CharFacts TokenFacts.

Lemma drop_while_app (p : char -> bool) (a b : str) :
  Forall (fun c => p c = true) a -> drop_while p (a ++ b) = drop_while p b.
Proof. induction 1 as [|c a Hc _ IH]; simpl; [|rewrite Hc]; auto. Qed.

Lemma drop_while_length (p : char -> bool) (s : str) :
  length (drop_while p s) <= length s.
Proof.
  induction s as [|c s IH]; simpl; [lia|]. destruct (p c); simpl; lia.
Qed.

Lemma drop_while_prefix (p : char -> bool) (a b : str) :
  Forall (fun c => p c = true) a -> length (drop_while p (a ++ b)) <= length b.
Proof. intros H. rewrite drop_while_app by exact H. apply drop_while_length. Qed.

Lemma drop_while_stop (p : char -> bool) (a : str) c (b : str) :
  Forall (fun c => p c = true) a -> p c = false ->
  drop_while p (a ++ c :: b) = c :: b.
Proof. intros H Hc. rewrite drop_while_app by exact H. simpl. rewrite Hc. reflexivity. Qed.

(** What is left after a match is a part of the text. *)
Lemma rmatch_rest r (s x : str) :
  rmatch r s (fun rest => Some rest) = Some x -> length x <= length s.
Proof.
  intros H. apply rmatch_sound in H as (a & b & -> & _ & E).
  inversion E; subst. rewrite length_app. lia.
Qed.

(** When the rest of the pattern cannot fail, a greedy repetition keeps
    the whole run. *)
Lemma greedy_total (p : char -> bool) (k : str -> option str) :
  (forall u, k u <> None) ->
  forall s, greedy p s k = k (drop_while p s).
Proof.
  intros Hk. induction s as [|c s IH]; simpl; [reflexivity|].
  destruct (p c); [|reflexivity]. rewrite IH.
  destruct (k (drop_while p s)) eqn:E; [reflexivity|]. destruct (Hk _ E).
Qed.

(** When the rest of the pattern, on a text that starts inside the run,
    skips to the end of the run and goes on as [g]: a greedy repetition
    keeps the whole run if the rest of the pattern matches there, and
    gives one character back otherwise. *)
Lemma greedy_run (p : char -> bool) (k g : str -> option str) :
  (forall c u, p c = true -> k (c :: u) = g (drop_while p u)) ->
  forall s,
    greedy p s k =
    match k (drop_while p s) with
    | Some x => Some x
    | None =>
        match s with
        | c :: _ => if p c then g (drop_while p s) else None
        | [] => None
        end
    end.
Proof.
  intros Hk. induction s as [|c s IH]; simpl.
  - destruct (k []); reflexivity.
  - destruct (p c) eqn:Hc.
    + rewrite IH. destruct (k (drop_while p s)) as [x|] eqn:Ek; [reflexivity|].
      destruct s as [|c' s']; simpl in *.
      * rewrite (Hk c [] Hc). reflexivity.
      * destruct (p c') eqn:Hc'.
        -- destruct (g (drop_while p s')) eqn:Eg; [reflexivity|].
           rewrite (Hk c (c' :: s') Hc). simpl. rewrite Hc'. exact Eg.
        -- rewrite (Hk c (c' :: s') Hc). simpl. rewrite Hc'. reflexivity.
    + destruct (k (c :: s)); reflexivity.
Qed.

(** ** How [takes_longest] composes *)

Lemma longest_class_seq (p : char -> bool) r :
  takes_longest r -> takes_longest (Seq (Class p) r).
Proof.
  intros Hr s rest H a b E (a1 & a2 & -> & (c0 & -> & Hc0) & L2).
  simpl in E. subst s. simpl in H. rewrite Hc0 in H.
  exact (Hr _ _ H a2 b eq_refl L2).
Qed.

Lemma longest_opt_class_seq (p : char -> bool) r :
  takes_longest r ->
  (forall c w, lang r (c :: w) -> p c = false) ->
  takes_longest (Seq (Opt (Class p)) r).
Proof.
  intros Hr Hd s rest H a b E (o & l & -> & Ho & Ll).
  simpl in H. destruct s as [|c s'].
  - apply rmatch_rest in H. simpl in H.
    apply (f_equal (@length char)) in E. rewrite !length_app in E. simpl in E. lia.
  - destruct (p c) eqn:Hc.
    + destruct (rmatch r s' _) as [x|] eqn:R.
      * inversion H; subst x. destruct Ho as [-> | (c0 & -> & Hc0)]; simpl in E.
        -- destruct l as [|c1 l'].
           ++ simpl in E. subst b. apply rmatch_rest in R. simpl. lia.
           ++ inversion E; subst. rewrite (Hd _ _ Ll) in Hc. discriminate.
        -- inversion E; subst. exact (Hr _ _ R l b eq_refl Ll).
      * destruct Ho as [-> | (c0 & -> & Hc0)]; simpl in E.
        -- exact (Hr _ _ H l b E Ll).
        -- inversion E; subst.
           pose proof (rmatch_complete _ r _ _ R l b eq_refl Ll). discriminate.
    + destruct Ho as [-> | (c0 & -> & Hc0)]; simpl in E.
      * exact (Hr _ _ H l b E Ll).
      * inversion E; subst. congruence.
Qed.

Lemma longest_plus (p : char -> bool) : takes_longest (Plus p).
Proof.
  intros s rest H a b E (Hne & Ha). simpl in H.
  destruct a as [|c a']; [congruence|]. simpl in E. subst s.
  apply Forall_cons_iff in Ha as [Hc Ha']. rewrite Hc in H.
  rewrite greedy_total in H by discriminate. inversion H; subst.
  apply drop_while_prefix. exact Ha'.
Qed.

Lemma longest_opt r : takes_longest r -> takes_longest (Opt r).
Proof.
  intros Hr s rest H a b E La. simpl in H.
  destruct (rmatch r s _) as [x|] eqn:R; inversion H; subst.
  - destruct La as [-> | La]; [|exact (Hr _ _ R a b eq_refl La)].
    apply rmatch_rest in R. exact R.
  - destruct La as [-> | La]; [simpl; lia|].
    pose proof (rmatch_complete _ r _ _ R a b eq_refl La). discriminate.
Qed.

Lemma plus_seq_eq (p : char -> bool) r :
  (forall s, rmatch r s (fun rest => Some rest) <> None) ->
  forall c s, p c = true ->
    rmatch (Seq (Plus p) r) (c :: s) (fun rest => Some rest)
    = rmatch r (drop_while p s) (fun rest => Some rest).
Proof.
  intros Hr c s Hc. simpl. rewrite Hc. apply greedy_total. exact Hr.
Qed.

Lemma longest_plus_seq (p : char -> bool) r :
  takes_longest r ->
  (forall s, rmatch r s (fun rest => Some rest) <> None) ->
  (forall c w, lang r (c :: w) -> p c = false) ->
  takes_longest (Seq (Plus p) r).
Proof.
  intros Hr Ht Hd s rest H a b E (ds & w & -> & (Hne & Hds) & Lw).
  destruct ds as [|c ds']; [congruence|].
  apply Forall_cons_iff in Hds as [Hc Hds'].
  rewrite <- app_assoc in E. simpl in E. subst s.
  rewrite (plus_seq_eq p r Ht c _ Hc) in H.
  destruct w as [|c1 w'].
  - simpl in H. apply rmatch_rest in H.
    pose proof (drop_while_prefix p ds' b Hds'). lia.
  - rewrite <- app_comm_cons in H.
    rewrite (drop_while_stop p ds' c1 (w' ++ b) Hds' (Hd _ _ Lw)) in H.
    exact (Hr _ _ H (c1 :: w') b eq_refl Lw).
Qed.

(** ** The stages of the fitness pattern *)

Lemma decimal_class c :
  is_decimal c = true -> is_sign c = false /\ is_dot c = false /\ is_e c = false.
Proof.
  intros H. destruct (decimal_not_special c H) as (N1 & N2 & N3 & N4 & N5 & _).
  unfold is_sign, is_dot, is_e.
  repeat match goal with
         | |- context [(c =? ?x)%N] => destruct (N.eqb_spec c x); [congruence|]
         end.
  auto.
Qed.

Lemma e_class c : is_e c = true -> is_decimal c = false /\ is_dot c = false.
Proof.
  intros H. destruct (is_decimal c) eqn:D.
  - apply decimal_class in D as (_ & _ & D). congruence.
  - split; [reflexivity|]. unfold is_e, is_dot in *.
    apply orb_true_iff in H as [H | H]; apply N.eqb_eq in H; subst; reflexivity.
Qed.

Lemma dot_class c : is_dot c = true -> is_decimal c = false.
Proof.
  intros H. destruct (is_decimal c) eqn:D; [|reflexivity].
  apply decimal_class in D as (_ & D & _). congruence.
Qed.

Lemma opt_class_skip (p : char -> bool) r c (u : str) (k : str -> option str) :
  p c = false ->
  rmatch (Seq (Opt (Class p)) r) (c :: u) k = rmatch r (c :: u) k.
Proof. intros H. simpl. rewrite H. reflexivity. Qed.

Lemma opt_never_fails r (s : str) :
  rmatch (Opt r) s (fun rest => Some rest) <> None.
Proof. simpl. destruct (rmatch r s _); discriminate. Qed.

Lemma exponent_first c w : lang exponent_group (c :: w) -> is_e c = true.
Proof.
  intros (a1 & a2 & E & (c0 & -> & He) & _). inversion E; subst. exact He.
Qed.

Lemma longest_exponent : takes_longest exponent_group.
Proof.
  unfold exponent_group.
  apply longest_class_seq, longest_opt_class_seq; [apply longest_plus|].
  intros c w (_ & Hf). apply Forall_cons_iff in Hf as [Hc _].
  apply (decimal_class c Hc).
Qed.

Lemma longest_digits_exponent :
  takes_longest (Seq (Plus is_decimal) (Opt exponent_group)).
Proof.
  apply longest_plus_seq.
  - apply longest_opt, longest_exponent.
  - apply opt_never_fails.
  - intros c w [E | L]; [discriminate|].
    apply exponent_first in L. apply (e_class c L).
Qed.

Lemma digits_exponent_first c w :
  lang (Seq (Plus is_decimal) (Opt exponent_group)) (c :: w) ->
  is_decimal c = true.
Proof.
  intros (ds & e & E & (Hne & Hds) & _).
  destruct ds as [|c' ds']; [congruence|]. inversion E; subst.
  apply Forall_cons_iff in Hds as [Hc _]. exact Hc.
Qed.

Lemma longest_point_digits :
  takes_longest (Seq (Opt (Class is_dot))
                     (Seq (Plus is_decimal) (Opt exponent_group))).
Proof.
  apply longest_opt_class_seq; [apply longest_digits_exponent|].
  intros c w L. apply digits_exponent_first in L. apply (decimal_class c L).
Qed.

(** The digits before the point: the repetition keeps the whole run of
    digits when a point and a digit follow it, and gives back the last
    digit of the run otherwise. *)
Lemma longest_body :
  takes_longest
    (Seq (Star is_decimal)
         (Seq (Opt (Class is_dot))
              (Seq (Plus is_decimal) (Opt exponent_group)))).
Proof.
  set (P3 := Seq (Plus is_decimal) (Opt exponent_group)).
  set (P2 := Seq (Opt (Class is_dot)) P3).
  intros s rest H a b E (d1 & w & -> & Hd1 & Lw).
  assert (Hk : forall c u, is_decimal c = true ->
             rmatch P2 (c :: u) (fun rest => Some rest)
             = rmatch (Opt exponent_group) (drop_while is_decimal u)
                      (fun rest => Some rest)).
  { intros c u Hc. unfold P2.
    rewrite opt_class_skip by apply (decimal_class c Hc).
    apply plus_seq_eq; [apply opt_never_fails | exact Hc]. }
  change (greedy is_decimal s (fun s' => rmatch P2 s' (fun rest => Some rest))
          = Some rest) in H.
  rewrite (greedy_run is_decimal
             (fun s' => rmatch P2 s' (fun rest => Some rest))
             (fun u => rmatch (Opt exponent_group) u (fun rest => Some rest))
             Hk) in H.
  rewrite <- app_assoc in E. subst s.
  destruct Lw as (o & w3 & -> & Ho & L3).
  destruct Ho as [-> | (cd & -> & Hcd)].
  - (* no point: the digits of the word are part of the run *)
    destruct L3 as (ds & e & -> & (Hne & Hds) & Le). simpl app in *.
    assert (Hrun : Forall (fun c => is_decimal c = true) (d1 ++ ds))
      by (apply Forall_app; auto).
    assert (Hs : exists c0 r0, d1 ++ ds ++ e ++ b = c0 :: r0 /\
                               is_decimal c0 = true).
    { destruct d1 as [|c0 d1'].
      - destruct ds as [|c0 ds']; [congruence|].
        apply Forall_cons_iff in Hds as [Hc _]. simpl. eauto.
      - apply Forall_cons_iff in Hd1 as [Hc _]. simpl. eauto. }
    destruct Hs as (c0 & r0 & Es & Hc0).
    rewrite <- !app_assoc in H.
    set (T := d1 ++ ds ++ e ++ b) in *.
    set (K := rmatch P2 (drop_while is_decimal T) _) in H.
    set (G := rmatch (Opt exponent_group) (drop_while is_decimal T) _) in H.
    rewrite Es, Hc0 in H. subst K G T. clear Es.
    rewrite (app_assoc d1 ds) in H.
    destruct e as [|c1 e'].
    + cbn [app] in H.
      pose proof (drop_while_prefix is_decimal _ b Hrun) as Hb.
      destruct (rmatch P2 _ _) as [x|] eqn:R.
      * inversion H; subst. apply rmatch_rest in R. lia.
      * apply rmatch_rest in H. lia.
    + destruct Le as [Le | Le]; [discriminate|].
      pose proof (exponent_first _ _ Le) as He.
      destruct (e_class c1 He) as [Hdec Hdot].
      rewrite <- app_comm_cons in H.
      rewrite (drop_while_stop is_decimal _ c1 (e' ++ b) Hrun Hdec) in H.
      assert (R : rmatch P2 (c1 :: e' ++ b) (fun rest => Some rest) = None).
      { unfold P2. rewrite opt_class_skip by exact Hdot.
        simpl. rewrite Hdec. reflexivity. }
      rewrite R in H.
      apply (longest_opt _ longest_exponent _ _ H (c1 :: e') b eq_refl).
      right. exact Le.
  - (* a point: the run ends where the word has its point *)
    simpl app in H.
    rewrite (drop_while_stop is_decimal d1 cd (w3 ++ b) Hd1 (dot_class cd Hcd))
      in H.
    assert (Lw : lang P2 (cd :: w3)).
    { exists [cd], w3. split; [reflexivity|]. split; [|exact L3].
      right. exists cd. auto. }
    destruct (rmatch P2 (cd :: w3 ++ b) _) as [x|] eqn:R.
    + inversion H; subst.
      exact (longest_point_digits _ _ R (cd :: w3) b eq_refl Lw).
    + pose proof (rmatch_complete _ P2 _ _ R (cd :: w3) b eq_refl Lw).
      discriminate.
Qed.

Lemma body_first c w :
  lang (Seq (Star is_decimal)
            (Seq (Opt (Class is_dot))
                 (Seq (Plus is_decimal) (Opt exponent_group)))) (c :: w) ->
  is_sign c = false.
Proof.
  intros (d1 & w2 & E & Hd1 & (o & w3 & -> & Ho & L3)).
  destruct d1 as [|c' d1'].
  - destruct Ho as [-> | (cd & -> & Hcd)]; simpl in E.
    + rewrite <- E in L3. apply digits_exponent_first in L3.
      apply (decimal_class c L3).
    + inversion E; subst. unfold is_dot in Hcd. apply N.eqb_eq in Hcd.
      subst. reflexivity.
  - inversion E; subst. apply Forall_cons_iff in Hd1 as [Hc _].
    apply (decimal_class _ Hc).
Qed.

(** The fitness pattern takes the longest token at the position where it
    matches. *)
Lemma longest_fitness_pattern : takes_longest fitness_pattern.
Proof.
  unfold fitness_pattern.
  apply longest_opt_class_seq; [apply longest_body | apply body_first].
Qed.

(** The token [re.search] returns is the longest token that
    starts where it starts. *)
Lemma search_token_longest (line : str) m :
  search fitness_pattern line = Some m ->
  forall t b, m_group0 m ++ m_post m = t ++ b -> unicode_token t ->
              length t <= length (m_group0 m).
Proof.
  intros H t b E Ht.
  apply (search_longest _ _ _ longest_fitness_pattern H t b E).
  apply pattern_token. exact Ht.
Qed.

End LongestFacts.

(* ===================================================================== *)
(** * Properties of [objective] *)
(* ===================================================================== *)

Module ObjectiveFacts.
Import PyStr Py PyFloat Re Tuning Spec Pattern ReFacts FloatFacts TokenFacts.

(** The value [extract_fitness] computes, in each of its three cases. *)

Lemma extract_no_lines text env st :
  lines text = [] -> fst (extract_fitness text env st) = Ret inf.
Proof. intros H. unfold extract_fitness. rewrite H. reflexivity. Qed.

Lemma last_line_eq text line :
  last_nonempty_line text line ->
  exists l ls, lines text = l :: ls /\ last (l :: ls) [] = line.
Proof.
  intros (before & H). rewrite H.
  destruct (before ++ [line]) as [|l ls] eqn:E.
  - destruct before; discriminate.
  - exists l, ls. split; [reflexivity|]. rewrite <- E. apply last_last.
Qed.

Lemma extract_no_match text line env st :
  last_nonempty_line text line ->
  search fitness_pattern line = None ->
  fst (extract_fitness text env st) = Ret inf.
Proof.
  intros Hl Hs. destruct (last_line_eq _ _ Hl) as (l & ls & E & El).
  unfold extract_fitness. rewrite E, El, Hs. reflexivity.
Qed.

Lemma extract_match text line m env st :
  last_nonempty_line text line ->
  search fitness_pattern line = Some m ->
  fst (extract_fitness text env st) =
    match py_float (m_group0 m) with
    | Ret v => Ret v
    | Raise _ => Ret inf
    end.
Proof.
  intros Hl Hs. destruct (last_line_eq _ _ Hl) as (l & ls & E & El).
  unfold extract_fitness. rewrite E, El, Hs.
  unfold try_except, bind, of_outcome, ret.
  destruct (py_float (m_group0 m)) as [v|e] eqn:F; [reflexivity|].
  apply py_float_raises in F. unfold find_handler, isinstance. rewrite F.
  reflexivity.
Qed.

Lemma lines_cases text :
  lines text = [] \/ exists line, last_nonempty_line text line.
Proof.
  destruct (lines text) as [|l ls] eqn:E; [auto|]. right.
  destruct (exists_last (l := l :: ls)) as (before & line & E'); [discriminate|].
  exists line, before. congruence.
Qed.

(** [extract_fitness] always returns a value, and that value is either the
    sentinel or the float of a token of the pattern. *)
Lemma extract_value text env st :
  exists v, fst (extract_fitness text env st) = Ret v /\
            (v = inf \/ exists t, unicode_token t /\ py_float t = Ret v).
Proof.
  destruct (lines_cases text) as [H | (line & Hl)].
  - exists inf. split; [apply extract_no_lines; exact H | auto].
  - destruct (search fitness_pattern line) as [m|] eqn:S.
    + rewrite (extract_match _ _ _ _ _ Hl S).
      apply search_token_some in S as (_ & Ht & _).
      destruct (py_float (m_group0 m)) as [v|e] eqn:F.
      * exists v. split; [reflexivity|]. right. eauto.
      * exists inf. auto.
    + exists inf. split; [eapply extract_no_match; eauto | auto].
Qed.

(** ** The run of [objective] on a new trial *)

(** What lines 18 to 36 do on a trial that has not been asked for any
    parameter yet: the five values come from the search strategy, one
    process is launched, and the two [except] clauses turn a timeout and a
    missing program into the sentinel. *)
Lemma objective_fresh env st :
  suggested st = [] ->
  let swarmSize := sample_int env (lit "swarmSize") 10 100 in
  let maxIters := sample_int env (lit "maxIters") 50 1000 in
  let inertias := sample_float env (lit "inertias")
                    (float_literal "0.1") (float_literal "1.0") in
  let c1s := sample_float env (lit "c1s")
                    (float_literal "0.1") (float_literal "3.0") in
  let c2s := sample_float env (lit "c2s")
                    (float_literal "0.1") (float_literal "3.0") in
  let after log' :=
    {| suggested :=
         [ (lit "swarmSize", SuggestedInt 10 100 swarmSize);
           (lit "maxIters", SuggestedInt 50 1000 maxIters);
           (lit "inertias", SuggestedFloat (float_literal "0.1")
                              (float_literal "1.0") inertias);
           (lit "c1s", SuggestedFloat (float_literal "0.1")
                              (float_literal "3.0") c1s);
           (lit "c2s", SuggestedFloat (float_literal "0.1")
                              (float_literal "3.0") c2s) ];
       launched := launched st ++
         [(cmd env swarmSize maxIters inertias c1s c2s, timeout_seconds)];
       log := log st ++ log' |} in
  objective env st =
    match spawn env (length (launched st))
                (cmd env swarmSize maxIters inertias c1s c2s)
                timeout_seconds with
    | Ret result =>
        if (returncode result =? 0)%Z
        then extract_fitness (combined result) env (after [])
        else extract_fitness (combined result) env
               (after [LogRecord WARNING
                         (lit "Jar exited with code %s. stderr: %s")
                         [VInt (returncode result);
                          VStr (strip (stderr result))]])
    | Raise e =>
        match exn_type e with
        | TimeoutExpired =>
            (Ret inf,
             after [LogRecord WARNING
                      (lit "Subprocess timed out for params: %s")
                      [VDict (params_of (after []))]])
        | FileNotFoundError =>
            (Ret inf,
             after [LogRecord ERROR (lit "Failed to run subprocess: %s")
                      [VExn e]])
        | _ => (Raise e, after [])
        end
    end.
Proof.
  destruct st as [sg la lg]. simpl. intros ->.
  unfold objective, bind, suggest_int, suggest_float, ask, try_except,
    subprocess_run, ret, remember. simpl.
  rewrite !app_nil_r.
  destruct (spawn env _ _ _) as [result|e]; simpl.
  - destruct (returncode result =? 0)%Z; simpl.
    + reflexivity.
    + unfold logging_warning, logging_log. simpl. reflexivity.
  - unfold isinstance, issubclass.
    destruct (exn_type e); simpl; rewrite ?app_nil_r; reflexivity.
Qed.

(** ** The run of [objective] on any trial *)

Lemma bind_ret (A B : Type) (c : M A) (f : A -> M B) env st b st' :
  bind c f env st = (Ret b, st') ->
  exists a st1, c env st = (Ret a, st1) /\ f a env st1 = (Ret b, st').
Proof.
  unfold bind. destruct (c env st) as [[a|e] st1]; [eauto | discriminate].
Qed.

Lemma bind_raise (A B : Type) (c : M A) (f : A -> M B) env st e st' :
  bind c f env st = (Raise e, st') ->
  c env st = (Raise e, st') \/
  exists a st1, c env st = (Ret a, st1) /\ f a env st1 = (Raise e, st').
Proof.
  unfold bind. destruct (c env st) as [[a|e0] st1]; [eauto|].
  intros E; inversion E; subst. auto.
Qed.

(** Whatever [objective] returns is the sentinel or a value of
    [extract_fitness]. *)
Lemma objective_value env st v st' :
  objective env st = (Ret v, st') ->
  v = inf \/ exists text st1, extract_fitness text env st1 = (Ret v, st').
Proof.
  unfold objective. intros H.
  do 5 (apply bind_ret in H as (? & ? & _ & H)).
  apply bind_ret in H as (env' & st2 & Ha & H). inversion Ha; subst; clear Ha.
  apply bind_ret in H as (attempt & st3 & Hc & H).
  revert Hc. unfold try_except, bind, subprocess_run, ret.
  destruct (spawn env' _ _ _) as [result|e].
  - intros E; inversion E; subst; clear E. revert H.
    unfold bind. destruct (returncode result =? 0)%Z;
      unfold ret, logging_warning, logging_log; eauto.
  - unfold find_handler, isinstance, issubclass.
    destruct (exn_type e); simpl; intros E; inversion E; subst;
      inversion H; auto.
Qed.

(** The value of [extract_fitness] does not depend on the environment or
    on the state it runs in. *)
Lemma extract_fitness_pure text env1 st1 env2 st2 :
  fst (extract_fitness text env1 st1) = fst (extract_fitness text env2 st2).
Proof.
  unfold extract_fitness. destruct (lines text) as [|l ls]; [reflexivity|].
  destruct (search fitness_pattern _) as [m|]; [|reflexivity].
  unfold try_except, bind, of_outcome, ret.
  destruct (py_float (m_group0 m)) as [v|e]; [reflexivity|].
  destruct (find_handler e _) as [h|] eqn:F; [|reflexivity].
  unfold find_handler in F. destruct (isinstance e ValueError); inversion F.
  reflexivity.
Qed.

(** [extract_fitness] only adds to the log. *)
Lemma extract_fitness_state text env st :
  suggested (snd (extract_fitness text env st)) = suggested st /\
  launched (snd (extract_fitness text env st)) = launched st.
Proof.
  unfold extract_fitness. destruct (lines text) as [|l ls]; [split; reflexivity|].
  destruct (search fitness_pattern _) as [m|]; [|split; reflexivity].
  unfold try_except, bind, of_outcome, ret.
  destruct (py_float (m_group0 m)) as [v|e]; [split; reflexivity|].
  unfold find_handler. destruct (isinstance e ValueError); split; reflexivity.
Qed.

(** A value returned by [objective] is the sentinel or the float of a
    token of the pattern. *)
Lemma objective_returns_token_value env st v :
  fst (objective env st) = Ret v ->
  v = inf \/ exists t, unicode_token t /\ py_float t = Ret v.
Proof.
  intros H. destruct (objective env st) as [o st'] eqn:E. simpl in H. subst o.
  apply objective_value in E as [-> | (text & st1 & E)]; [auto|].
  destruct (extract_value text env st1) as (v' & Hv & Hcase).
  rewrite E in Hv. simpl in Hv. inversion Hv; subst. exact Hcase.
Qed.

End ObjectiveFacts.

(* ===================================================================== *)
(** * The order on fitness values *)
(* ===================================================================== *)

Module OrderFacts.
Import PyFloat.

Ltac compare_cases :=
  repeat match goal with
    | H : context [Pos.compare_cont Eq ?a ?b] |- _ =>
        change (Pos.compare_cont Eq a b) with (Pos.compare a b) in H
    | |- context [Pos.compare_cont Eq ?a ?b] =>
        change (Pos.compare_cont Eq a b) with (Pos.compare a b)
    end;
  repeat match goal with
    | H : context [(?a ?= ?b)%Z] |- _ =>
        destruct (Z.compare_spec a b); simpl in H; try discriminate H; subst
    | H : context [(?a ?= ?b)%positive] |- _ =>
        destruct (Pos.compare_spec a b); simpl in H; try discriminate H; subst
    end;
  repeat match goal with
    | |- context [(?a ?= ?b)%Z] =>
        destruct (Z.compare_spec a b); simpl; subst; try lia
    | |- context [(?a ?= ?b)%positive] =>
        destruct (Pos.compare_spec a b); simpl; subst; try lia
    end;
  try reflexivity; try discriminate; try lia.

Lemma SFleb_trans x y z :
  SFleb x y = true -> SFleb y z = true -> SFleb x z = true.
Proof.
  unfold SFleb.
  destruct x as [sx|sx| |sx mx ex], y as [sy|sy| |sy my ey],
           z as [sz|sz| |sz mz ez];
    simpl; try discriminate; try reflexivity;
    try destruct sx; try destruct sy; try destruct sz; simpl;
    try discriminate; try reflexivity;
    intros H1 H2; compare_cases.
Qed.

Lemma SFcompare_antisym x y c :
  SFcompare x y = Some c -> SFcompare y x = Some (CompOpp c).
Proof.
  destruct x as [sx|sx| |sx mx ex], y as [sy|sy| |sy my ey];
    simpl; try discriminate;
    try destruct sx; try destruct sy; simpl;
    intros H; inversion H; subst; clear H; try reflexivity;
    rewrite (Z.compare_antisym ex ey); destruct (ex ?= ey)%Z; simpl;
    try reflexivity;
    change (Pos.compare_cont Eq my mx) with (Pos.compare my mx);
    change (Pos.compare_cont Eq mx my) with (Pos.compare mx my);
    rewrite (Pos.compare_antisym mx my); destruct (mx ?= my)%positive;
    reflexivity.
Qed.

Lemma SFcompare_some x y :
  is_nan x = false -> is_nan y = false -> exists c, SFcompare x y = Some c.
Proof.
  destruct x as [sx|sx| |sx mx ex], y as [sy|sy| |sy my ey];
    simpl; try discriminate; eauto.
Qed.

(** Apart from NaN, any two floats compare. *)
Lemma SFleb_total x y :
  is_nan x = false -> is_nan y = false ->
  SFltb x y = false -> SFleb y x = true.
Proof.
  intros Hx Hy. destruct (SFcompare_some x y Hx Hy) as (c & Hc).
  unfold SFltb, SFleb. rewrite Hc, (SFcompare_antisym _ _ _ Hc).
  destruct c; simpl; congruence.
Qed.

Lemma SFltb_leb x y : SFltb x y = true -> SFleb x y = true.
Proof. unfold SFltb, SFleb. destruct (SFcompare x y) as [[ | | ]|]; congruence. Qed.

Lemma SFltb_not_leb x y : SFltb x y = true -> SFleb y x = false.
Proof.
  unfold SFltb, SFleb. destruct (SFcompare x y) as [c|] eqn:Hc; [|discriminate].
  rewrite (SFcompare_antisym _ _ _ Hc). destruct c; simpl; congruence.
Qed.

Lemma SFeqb_leb x y : SFeqb x y = true -> SFleb x y = true.
Proof. unfold SFeqb, SFleb. destruct (SFcompare x y) as [[ | | ]|]; congruence. Qed.

Lemma SFleb_refl x : is_nan x = false -> SFleb x x = true.
Proof.
  intros H. apply SFleb_total; auto.
  destruct (SFltb x x) eqn:L; [|reflexivity].
  pose proof (SFltb_leb _ _ L). pose proof (SFltb_not_leb _ _ L). congruence.
Qed.

End OrderFacts.

(* ===================================================================== *)
(** * Properties of the search loop *)
(* ===================================================================== *)

Module SearchLoopFacts.
Import PyFloat SearchLoop OrderFacts.

Section Loop.
Variables Params Strategy : Type.
Variable propose : Strategy -> Params.
Variable update : Strategy -> Params -> pyfloat -> Strategy.
Variable score : nat -> Params -> pyfloat.

Local Abbreviation record := (TrialRecord Params).
Local Abbreviation trials_from := (trials_from propose update score).

Lemma trials_from_app n : forall i s (h : list record),
  trials_from n i s h = h ++ trials_from n i s [].
Proof.
  induction n as [|n IH]; intros i s h; simpl.
  - symmetry. apply app_nil_r.
  - rewrite IH. rewrite (IH _ _ [_]). rewrite <- app_assoc. reflexivity.
Qed.

Lemma trials_from_index n : forall i s,
  map (@index Params) (trials_from n i s []) = seq i n.
Proof.
  induction n as [|n IH]; intros i s; simpl; [reflexivity|].
  rewrite trials_from_app, map_app, IH. reflexivity.
Qed.

Lemma trials_from_length n i s :
  length (trials_from n i s []) = n.
Proof.
  rewrite <- (length_map (@index Params)), trials_from_index. apply length_seq.
Qed.

Lemma trials_from_fitness n : forall i s (r : record),
  In r (trials_from n i s []) -> exists j p, fitness r = score j p.
Proof.
  induction n as [|n IH]; intros i s r; simpl; [tauto|].
  rewrite trials_from_app. intros [[<- | []] | H]%in_app_or; simpl; eauto.
Qed.

(** In the history, the record at position [i] is the one of trial [i]. *)
Lemma trials_from_position n s i (r : record) :
  nth_error (trials_from n 0 s []) i = Some r -> index r = i.
Proof.
  intros H. pose proof (map_nth_error (@index Params) _ _ H) as H'.
  rewrite trials_from_index in H'.
  assert (Hi : i < n).
  { rewrite <- (trials_from_length n 0 s). apply nth_error_Some. congruence. }
  rewrite (nth_error_nth' _ 0) in H' by (rewrite length_seq; exact Hi).
  rewrite seq_nth in H' by exact Hi. inversion H'. reflexivity.
Qed.

Lemma best_so_far_step (seen : list record) (b r : record) :
  is_best b seen ->
  (forall r0, In r0 seen -> index r0 < index r) ->
  is_nan (fitness b) = false -> is_nan (fitness r) = false ->
  exists b', best_so_far (Some b) r = Some b' /\ is_best b' (seen ++ [r]) /\
             is_nan (fitness b') = false.
Proof.
  intros [Hin Hb] Hidx Nb Nr. unfold best_so_far.
  destruct (SFltb (fitness r) (fitness b)) eqn:L.
  - exists r. split; [reflexivity|]. split; [|exact Nr]. split.
    + apply in_or_app. right. left. reflexivity.
    + intros r0 [H0 | [<- | []]]%in_app_or.
      * destruct (Hb r0 H0) as [Hle _]. split.
        -- eapply SFleb_trans; [apply SFltb_leb; exact L | exact Hle].
        -- intros E. apply SFeqb_leb in E.
           pose proof (SFleb_trans _ _ _ Hle E) as C.
           rewrite (SFltb_not_leb _ _ L) in C. discriminate.
      * split; [apply SFleb_refl; exact Nr | auto].
  - exists b. split; [reflexivity|]. split; [|exact Nb]. split.
    + apply in_or_app. left. exact Hin.
    + intros r0 [H0 | [<- | []]]%in_app_or; [apply Hb; exact H0|].
      split; [apply SFleb_total; auto|].
      intros _. apply Nat.lt_le_incl, Hidx, Hin.
Qed.

Lemma fold_best : forall (h seen : list record) (b : record),
  is_best b seen ->
  (forall i r, nth_error (seen ++ h) i = Some r -> index r = i) ->
  is_nan (fitness b) = false ->
  (forall r, In r h -> is_nan (fitness r) = false) ->
  exists b', fold_left (@best_so_far Params) h (Some b) = Some b' /\
             is_best b' (seen ++ h).
Proof.
  induction h as [|r h IH]; intros seen b Hb Hpos Nb Nh; cbn [fold_left].
  - exists b. rewrite app_nil_r. auto.
  - assert (Hr : index r = length seen).
    { apply Hpos. rewrite nth_error_app2, Nat.sub_diag by lia. reflexivity. }
    assert (Hidx : forall r0, In r0 seen -> index r0 < index r).
    { intros r0 H0. apply In_nth_error in H0 as (i & Hi).
      assert (i < length seen) by (apply nth_error_Some; congruence).
      rewrite (Hpos i r0), Hr; [assumption|].
      rewrite nth_error_app1 by assumption. exact Hi. }
    destruct (best_so_far_step seen b r Hb Hidx Nb (Nh r (or_introl eq_refl)))
      as (b' & E & Hb' & Nb').
    rewrite E.
    destruct (IH (seen ++ [r]) b' Hb') as (b'' & E' & Hb''); auto.
    + rewrite <- app_assoc. exact Hpos.
    + intros r0 H0. apply Nh. right. exact H0.
    + exists b''. rewrite <- app_assoc in Hb''. auto.
Qed.

(** The best record of a history without NaN, whose records sit at the
    positions of their trial indices. *)
Lemma best_record_spec (h : list record) :
  h <> [] ->
  (forall i r, nth_error h i = Some r -> index r = i) ->
  (forall r, In r h -> is_nan (fitness r) = false) ->
  exists b, best_record h = Some b /\ In b h /\
    forall r, In r h ->
      SFleb (fitness b) (fitness r) = true /\
      (SFeqb (fitness r) (fitness b) = true -> index b <= index r).
Proof.
  destruct h as [|r h]; [congruence|]. intros _ Hpos Hn.
  unfold best_record. simpl.
  destruct (fold_best h [r] r) as (b & E & Hb); auto.
  - split; [left; reflexivity|]. intros r0 [<- | []].
    split; [apply SFleb_refl, Hn; left; reflexivity | auto].
  - apply Hn. left. reflexivity.
  - intros r0 H0. apply Hn. right. exact H0.
  - exists b. split; [exact E|]. exact Hb.
Qed.

End Loop.

End SearchLoopFacts.

(* ===================================================================== *)
(** * Properties of the lines of a text *)
(* ===================================================================== *)

Module LinesFacts.
Import PyStr Tuning Spec CharFacts.

Local Abbreviation keep ls :=
  (map strip (filter (fun line => truthy (strip line)) ls)).

Lemma keep_cons (l : str) (ls : list str) :
  keep (l :: ls) = keep [l] ++ keep ls.
Proof. simpl. destruct (truthy (strip l)); reflexivity. Qed.

Lemma keep_empty_line (ls : list str) : keep ([] :: ls) = keep ls.
Proof. reflexivity. Qed.

Lemma splitlines_end (cur : str) (acr : bool) :
  splitlines_from cur acr [] = match cur with [] => [] | _ => [rev cur] end.
Proof. reflexivity. Qed.

Lemma keep_end (cur : str) (acr : bool) :
  keep (splitlines_from cur acr []) = keep [rev cur].
Proof. destruct cur; reflexivity. Qed.

(** ** White space and [strip] *)

Lemma drop_while_head (p : char -> bool) (s : str) c r :
  drop_while p s = c :: r -> p c = false.
Proof.
  induction s as [|x s IH]; simpl; [discriminate|].
  destruct (p x) eqn:Hx; [exact IH|]. intros E; inversion E; subst. exact Hx.
Qed.

Lemma drop_while_split (p : char -> bool) (s : str) :
  exists z, s = z ++ drop_while p s /\ Forall (fun c => p c = true) z.
Proof.
  induction s as [|x s (z & E & Hz)]; simpl; [exists []; auto|].
  destruct (p x) eqn:Hx; [|exists []; auto].
  exists (x :: z). split; [simpl; congruence | constructor; auto].
Qed.

Lemma drop_while_all (p : char -> bool) (s : str) :
  Forall (fun c => p c = true) s -> drop_while p s = [].
Proof. induction 1 as [|c s Hc _ IH]; simpl; [|rewrite Hc]; auto. Qed.

Lemma drop_while_keeps (p : char -> bool) (s t : str) :
  drop_while p s <> [] -> drop_while p (s ++ t) = drop_while p s ++ t.
Proof.
  induction s as [|x s IH]; simpl; [congruence|].
  destruct (p x); [exact IH | reflexivity].
Qed.

Lemma drop_while_fixed (p : char -> bool) c (s : str) :
  p c = false -> drop_while p (c :: s) = c :: s.
Proof. intros H. simpl. rewrite H. reflexivity. Qed.

Lemma rstrip_split (x : str) :
  exists z, x = rstrip x ++ z /\ Forall (fun c => is_space c = true) z.
Proof.
  unfold rstrip. destruct (drop_while_split is_space (rev x)) as (z & E & Hz).
  exists (rev z). split; [|apply Forall_rev; exact Hz].
  rewrite <- rev_app_distr, <- E, rev_involutive. reflexivity.
Qed.

Lemma strip_first (l : str) c r : strip l = c :: r -> is_space c = false.
Proof.
  unfold strip. intros E.
  destruct (rstrip_split (lstrip l)) as (z & Ez & _). rewrite E in Ez.
  simpl in Ez. apply (drop_while_head is_space l c (r ++ z)). exact Ez.
Qed.

Lemma strip_last (l : str) d : strip l <> [] -> is_space (last (strip l) d) = false.
Proof.
  unfold strip, rstrip. intros Hne.
  destruct (drop_while is_space (rev (lstrip l))) as [|c y] eqn:E;
    [simpl in Hne; congruence|].
  simpl. rewrite last_last. apply (drop_while_head _ _ _ _ E).
Qed.

Lemma strip_forall (P : char -> Prop) (l : str) :
  Forall P l -> Forall P (strip l).
Proof.
  intros H. unfold strip, rstrip, lstrip.
  assert (D : forall s, Forall P s -> Forall P (drop_while is_space s)).
  { intros s Hs. destruct (drop_while_split is_space s) as (z & E & _).
    rewrite E in Hs. apply Forall_app in Hs. tauto. }
  apply Forall_rev, D, Forall_rev, D, H.
Qed.

(** A text without white space at either end is its own [strip]. *)
Lemma strip_fixed (l : str) c r :
  l = c :: r -> is_space c = false -> is_space (last l c) = false ->
  strip l = l.
Proof.
  intros -> Hc Hl. unfold strip, lstrip, rstrip.
  rewrite (drop_while_fixed is_space c r Hc).
  destruct (rev (c :: r)) as [|x y] eqn:E.
  - apply (f_equal (@rev char)) in E. rewrite rev_involutive in E. discriminate.
  - assert (Hx : x = last (c :: r) c).
    { apply (f_equal (@rev char)) in E. rewrite rev_involutive in E.
      rewrite E. simpl. rewrite last_last. reflexivity. }
    rewrite drop_while_fixed by (rewrite Hx; exact Hl).
    rewrite <- E. apply rev_involutive.
Qed.

(** A white-space character at the end of a line does not change what
    [strip] gives. *)
Lemma strip_snoc_space (x : str) c :
  is_space c = true -> strip (x ++ [c]) = strip x.
Proof.
  intros Hc. unfold strip, lstrip.
  destruct (drop_while is_space x) as [|y ys] eqn:E.
  - destruct (drop_while_split is_space x) as (z & Ez & Hz).
    rewrite E, app_nil_r in Ez. subst z.
    rewrite drop_while_all; [reflexivity|].
    apply Forall_app. split; [exact Hz | repeat constructor; exact Hc].
  - rewrite drop_while_keeps by (rewrite E; discriminate). rewrite E.
    unfold rstrip. rewrite rev_unit. simpl. rewrite Hc. reflexivity.
Qed.

(** ** [splitlines] *)

(** The newline between two texts: the lines of the whole are the lines
    of the first text followed by the lines of the second. *)
Lemma splitlines_newline (b : str) : forall (a cur : str) (acr : bool),
  (acr = true -> cur = []) ->
  keep (splitlines_from cur acr (a ++ NL :: b))
  = keep (splitlines_from cur acr a) ++ keep (splitlines_from [] false b).
Proof.
  induction a as [|c a IH]; intros cur acr Hinv.
  - cbn [app]. rewrite keep_end. cbn [splitlines_from].
    destruct acr.
    + rewrite (Hinv eq_refl). reflexivity.
    + cbn [andb]. change (is_linebreak NL) with true. cbv iota.
      change (NL =? CR)%N with false. apply keep_cons.
  - cbn [app splitlines_from].
    destruct (acr && (c =? NL)%N); [apply IH; discriminate|].
    destruct (is_linebreak c).
    + rewrite (keep_cons (rev cur) (splitlines_from _ _ (a ++ _))).
      rewrite (keep_cons (rev cur) (splitlines_from _ _ a)).
      rewrite IH by (intros _; reflexivity). apply app_assoc.
    + apply IH. discriminate.
Qed.

Lemma lines_newline (a b : str) : lines (a ++ NL :: b) = lines a ++ lines b.
Proof.
  unfold lines, splitlines. apply splitlines_newline. discriminate.
Qed.

(** White space after the end of a text adds no line to it. *)
Lemma splitlines_space_tail : forall (ws cur : str) (acr : bool),
  Forall (fun c => is_space c = true) ws ->
  (acr = true -> cur = []) ->
  keep (splitlines_from cur acr ws) = keep [rev cur].
Proof.
  induction ws as [|c ws IH]; intros cur acr Hws Hinv.
  - apply keep_end.
  - apply Forall_cons_iff in Hws as [Hc Hws]. cbn [splitlines_from].
    destruct (acr && (c =? NL)%N); [apply IH; [exact Hws | discriminate]|].
    destruct (is_linebreak c).
    + rewrite (keep_cons (rev cur) (splitlines_from _ _ ws)).
      rewrite IH by (auto; intros _; reflexivity).
      apply app_nil_r.
    + rewrite IH by (auto; discriminate).
      cbn [rev filter]. rewrite (strip_snoc_space (rev cur) c Hc).
      destruct (truthy (strip (rev cur))); cbn [map];
        [rewrite (strip_snoc_space (rev cur) c Hc)|]; reflexivity.
Qed.

Lemma splitlines_trailing_space (ws : str) :
  Forall (fun c => is_space c = true) ws ->
  forall (a cur : str) (acr : bool),
    (acr = true -> cur = []) ->
    keep (splitlines_from cur acr (a ++ ws))
    = keep (splitlines_from cur acr a).
Proof.
  intros Hws. induction a as [|c a IH]; intros cur acr Hinv.
  - cbn [app]. rewrite keep_end. apply splitlines_space_tail; assumption.
  - cbn [app splitlines_from].
    destruct (acr && (c =? NL)%N); [apply IH; discriminate|].
    destruct (is_linebreak c).
    + rewrite (keep_cons (rev cur) (splitlines_from _ _ (a ++ _))).
      rewrite (keep_cons (rev cur) (splitlines_from _ _ a)).
      rewrite IH by (intros _; reflexivity). reflexivity.
    + apply IH. discriminate.
Qed.

(** No line of [splitlines] holds a line boundary. *)
Lemma splitlines_no_break : forall (s cur : str) (acr : bool),
  Forall (fun c => is_linebreak c = false) cur ->
  Forall (Forall (fun c => is_linebreak c = false))
         (splitlines_from cur acr s).
Proof.
  induction s as [|c s IH]; intros cur acr Hcur; cbn [splitlines_from].
  - destruct cur; [constructor|]. repeat constructor. apply Forall_rev, Hcur.
  - destruct (acr && (c =? NL)%N); [apply IH; exact Hcur|].
    destruct (is_linebreak c) eqn:Hc.
    + constructor; [apply Forall_rev, Hcur | apply IH; constructor].
    + apply IH. constructor; assumption.
Qed.

(** Every line that [lines] keeps is one [strip] of a line of the text
    that is not empty. *)
Lemma lines_in (text l : str) :
  In l (lines text) ->
  exists l0, In l0 (splitlines text) /\ l = strip l0 /\ l <> [].
Proof.
  unfold lines. intros H. apply in_map_iff in H as (l0 & <- & H).
  apply filter_In in H as [H T]. exists l0. repeat split; auto.
  destruct (strip l0); [discriminate | discriminate].
Qed.

(** ** The last line, read off the text *)

(** Every line boundary is white space. *)
Lemma linebreak_space c : is_linebreak c = true -> is_space c = true.
Proof.
  unfold is_linebreak. intros H.
  repeat (apply orb_true_iff in H as [H | H]).
  - apply in_range_spec in H. unfold is_space.
    assert (E : in_range 9 13 c = true) by (apply in_range_spec; lia).
    rewrite E. reflexivity.
  - apply in_range_spec in H. unfold is_space.
    assert (E : in_range 28 31 c = true) by (apply in_range_spec; lia).
    rewrite E. rewrite orb_true_r. reflexivity.
  - apply N.eqb_eq in H. subst. reflexivity.
  - apply N.eqb_eq in H. subst. reflexivity.
  - apply N.eqb_eq in H. subst. reflexivity.
Qed.

Lemma not_linebreak_not_newline c : is_linebreak c = false -> (c =? NL)%N = false.
Proof.
  intros H. destruct (N.eqb_spec c NL) as [-> | _]; [discriminate | reflexivity].
Qed.

(** After a CR, only an LF is read differently. *)
Lemma splitlines_after_cr (s cur : str) :
  (forall c r, s = c :: r -> (c =? NL)%N = false) ->
  splitlines_from cur true s = splitlines_from cur false s.
Proof.
  destruct s as [|c r]; [reflexivity|]. intros H. cbn [splitlines_from].
  rewrite (H c r eq_refl). reflexivity.
Qed.

(** A line boundary between two texts, the second of which does not start
    with an LF: the lines of the whole are the lines of the first text
    followed by the lines of the second. *)
Lemma splitlines_break c (b : str) :
  is_linebreak c = true ->
  (forall x r, b = x :: r -> (x =? NL)%N = false) ->
  forall (a cur : str) (acr : bool),
    (acr = true -> cur = []) ->
    keep (splitlines_from cur acr (a ++ c :: b))
    = keep (splitlines_from cur acr a) ++ keep (splitlines_from [] false b).
Proof.
  intros Hc Hb. induction a as [|x a IH]; intros cur acr Hinv.
  - cbn [app]. rewrite keep_end. cbn [splitlines_from].
    destruct (acr && (c =? NL)%N) eqn:Ha.
    + apply andb_true_iff in Ha as [-> _]. rewrite (Hinv eq_refl). reflexivity.
    + rewrite Hc. rewrite (keep_cons (rev cur)). f_equal.
      destruct (c =? CR)%N; [rewrite (splitlines_after_cr b [] Hb)|];
        reflexivity.
  - cbn [app splitlines_from].
    destruct (acr && (x =? NL)%N); [apply IH; discriminate|].
    destruct (is_linebreak x).
    + rewrite (keep_cons (rev cur) (splitlines_from _ _ (a ++ _))).
      rewrite (keep_cons (rev cur) (splitlines_from _ _ a)).
      rewrite IH by (intros _; reflexivity). apply app_assoc.
    + apply IH. discriminate.
Qed.

(** A text without a line boundary is one line. *)
Lemma splitlines_one_line : forall (raw cur : str) (acr : bool),
  Forall (fun c => is_linebreak c = false) raw ->
  splitlines_from cur acr raw = splitlines_from (rev raw ++ cur) false [].
Proof.
  induction raw as [|c raw IH]; intros cur acr H; [reflexivity|].
  apply Forall_cons_iff in H as [Hc H]. cbn [splitlines_from].
  rewrite (not_linebreak_not_newline c Hc), andb_false_r, Hc.
  rewrite (IH (c :: cur) false H). cbn [rev]. rewrite <- app_assoc.
  reflexivity.
Qed.

Lemma lines_one_line (raw : str) :
  Forall (fun c => is_linebreak c = false) raw ->
  strip raw <> [] -> lines raw = [strip raw].
Proof.
  intros H Hne. unfold lines, splitlines.
  rewrite (splitlines_one_line raw [] false H), app_nil_r.
  cbn [splitlines_from].
  destruct (rev raw) as [|x y] eqn:E.
  - apply (f_equal (@rev char)) in E. rewrite rev_involutive in E.
    subst raw. exfalso. apply Hne. reflexivity.
  - rewrite <- E, rev_involutive. cbn [filter].
    destruct (strip raw) as [|c r] eqn:Es; [congruence|].
    cbn [truthy map]. rewrite Es. reflexivity.
Qed.

(** White space before a text does not change what [strip] gives. *)
Lemma strip_lead (lead l : str) :
  Forall (fun c => is_space c = true) lead -> strip (lead ++ l) = strip l.
Proof.
  intros H. unfold strip, lstrip. f_equal.
  induction H as [|c lead Hc _ IH]; [reflexivity|].
  cbn [app drop_while]. rewrite Hc. exact IH.
Qed.

Lemma trimmed_strip (line : str) :
  trimmed line -> strip line = line /\ line <> [].
Proof.
  intros (c & r & E & Hc & Hl). split.
  - exact (strip_fixed line c r E Hc Hl).
  - rewrite E. discriminate.
Qed.

(** A line that starts at a line start, holds no line boundary and is
    followed by white space only gives the last of the lines that
    [objective] keeps. *)
Lemma raw_line_lines (before raw after : str) :
  at_line_start before ->
  Forall (fun c => is_linebreak c = false) raw ->
  Forall (fun c => is_space c = true) after ->
  strip raw <> [] ->
  last_nonempty_line (before ++ raw ++ after) (strip raw).
Proof.
  intros Hb Hraw Hafter Hne.
  assert (Hnl : forall x r, raw = x :: r -> (x =? NL)%N = false).
  { intros x r ->. apply Forall_cons_iff in Hraw as [Hx _].
    apply not_linebreak_not_newline. exact Hx. }
  assert (E : lines (before ++ raw ++ after) = lines (before ++ raw)).
  { rewrite app_assoc. unfold lines, splitlines.
    apply (splitlines_trailing_space after Hafter (before ++ raw) [] false).
    discriminate. }
  exists (lines before). rewrite E.
  destruct Hb as [-> | (b & c & -> & Hc)].
  - cbn [app]. apply (lines_one_line raw Hraw Hne).
  - assert (E1 : lines (b ++ [c]) = lines b).
    { unfold lines, splitlines.
      rewrite (splitlines_break c [] Hc) by discriminate.
      apply app_nil_r. }
    rewrite E1, <- app_assoc. cbn [app]. unfold lines, splitlines.
    rewrite (splitlines_break c raw Hc Hnl) by discriminate.
    f_equal. apply (lines_one_line raw Hraw Hne).
Qed.

(** The last non-empty line read off the text is the last of the lines
    that [objective] keeps. *)
Lemma last_trimmed_line_lines (text line : str) :
  last_trimmed_line text line -> last_nonempty_line text line.
Proof.
  intros (before & lead & after & -> & Hb & Hlead & Hnb & Hafter & Ht).
  destruct (trimmed_strip line Ht) as [Es Hne].
  assert (E : strip (lead ++ line) = line)
    by (rewrite (strip_lead lead line Hlead); exact Es).
  pose proof (raw_line_lines before (lead ++ line) after Hb Hnb Hafter) as H.
  rewrite E, <- app_assoc in H. exact (H Hne).
Qed.

(** A text of white space only has no line left after trimming. *)
Lemma blank_lines (text : str) : blank text -> lines text = [].
Proof.
  intros H. unfold lines, splitlines.
  rewrite (splitlines_space_tail text [] false H) by discriminate.
  reflexivity.
Qed.

(** A text that holds a character other than white space is not trimmed
    to nothing. *)
Lemma strip_not_empty (x : str) c :
  In c x -> is_space c = false -> strip x <> [].
Proof.
  intros Hin Hc E.
  destruct (drop_while_split is_space x) as (z1 & E1 & H1).
  destruct (rstrip_split (lstrip x)) as (z2 & E2 & H2).
  fold (strip x) in E2. rewrite E in E2. cbn [app] in E2.
  unfold lstrip in E2. rewrite E2 in E1. rewrite E1 in Hin.
  apply in_app_or in Hin. rewrite Forall_forall in H1, H2.
  destruct Hin as [Hin | Hin]; [apply H1 in Hin | apply H2 in Hin];
    congruence.
Qed.

(** Every text is white space only or has a last non-empty line. *)
Lemma last_trimmed_line_cases (text : str) :
  blank text \/ exists line, last_trimmed_line text line.
Proof.
  destruct (drop_while_split is_space (rev text)) as (z & Ez & Hz).
  destruct (drop_while is_space (rev text)) as [|c r] eqn:Er.
  - left. rewrite app_nil_r in Ez.
    apply (f_equal (@rev char)) in Ez. rewrite rev_involutive in Ez.
    unfold blank. rewrite Ez. apply Forall_rev. exact Hz.
  - right. pose proof (drop_while_head _ _ _ _ Er) as Hc.
    set (p := fun x => negb (is_linebreak x)).
    destruct (drop_while_split p (c :: r)) as (u & Eu & Hu).
    assert (Hpc : p c = true).
    { unfold p. destruct (is_linebreak c) eqn:L; [|reflexivity].
      apply linebreak_space in L. congruence. }
    assert (Hin : In c (rev u)).
    { apply in_rev. rewrite rev_involutive.
      revert Eu. cbn [drop_while]. rewrite Hpc. intros Eu.
      destruct u as [|c' u']; cbn [app] in Eu.
      - exfalso. pose proof (FloatFacts.drop_while_le p r) as L.
        apply (f_equal (@length char)) in Eu. cbn [length] in Eu. lia.
      - inversion Eu; subst. left. reflexivity. }
    assert (Hraw : Forall (fun x => is_linebreak x = false) (rev u)).
    { apply Forall_rev. eapply Forall_impl; [|exact Hu].
      intros x Hx. unfold p in Hx. destruct (is_linebreak x);
        [discriminate | reflexivity]. }
    pose proof (strip_not_empty (rev u) c Hin Hc) as Hne.
    destruct (drop_while_split is_space (rev u)) as (z1 & E1 & H1).
    destruct (rstrip_split (lstrip (rev u))) as (z2 & E2 & H2).
    fold (strip (rev u)) in E2. unfold lstrip in E2. rewrite E2 in E1.
    exists (strip (rev u)), (rev (drop_while p (c :: r))), z1, (z2 ++ rev z).
    split.
    { apply (f_equal (@rev char)) in Ez. rewrite rev_involutive in Ez.
      rewrite Ez, rev_app_distr.
      rewrite Eu at 1. rewrite rev_app_distr, E1 at 1.
      rewrite <- !app_assoc. reflexivity. }
    split.
    { destruct (drop_while p (c :: r)) as [|y v] eqn:Ev; [left; reflexivity|].
      right. exists (rev v), y. split; [reflexivity|].
      apply drop_while_head in Ev. unfold p in Ev.
      destruct (is_linebreak y); [reflexivity | discriminate]. }
    split; [exact H1|]. split.
    { rewrite E1 in Hraw. rewrite app_assoc in Hraw.
      apply Forall_app in Hraw. tauto. }
    split; [apply Forall_app; split; [exact H2 | apply Forall_rev; exact Hz]|].
    destruct (strip (rev u)) as [|x y] eqn:Es; [congruence|].
    exists x, y. split; [reflexivity|]. split.
    + apply (strip_first (rev u) x y Es).
    + rewrite <- Es. apply strip_last. rewrite Es. discriminate.
Qed.

(** The two readings of the last non-empty line agree: the one read off
    the text and the last of the lines that [objective] keeps. *)
Lemma last_line_iff (text line : str) :
  last_trimmed_line text line <-> last_nonempty_line text line.
Proof.
  split; [apply last_trimmed_line_lines|].
  intros (before & E).
  destruct (last_trimmed_line_cases text) as [Hb | (line' & Hl)].
  - apply blank_lines in Hb. rewrite Hb in E. destruct before; discriminate.
  - destruct (last_trimmed_line_lines text line' Hl) as (before' & E').
    rewrite E in E'. apply app_inj_tail in E' as [_ <-]. exact Hl.
Qed.

End LinesFacts.

(* ===================================================================== *)
(** * The properties of the specification, checked on the code *)
(* ===================================================================== *)

Import PyStr Py PyFloat Re Tuning Spec Pattern Examples.
Import ReFacts CharFacts FloatFacts TokenFacts LongestFacts ObjectiveFacts.
Import LinesFacts.

(** ** Fitness extraction *)






(** The two examples of the specification. *)
Example extract_noisy_output env st :
  fst (extract_fitness noisy_output env st) = Ret (float_literal "3.14").
Proof. vm_compute. reflexivity. Qed.

Example extract_scientific_output env st :
  fst (extract_fitness scientific_output env st)
  = Ret (float_literal "-2.5e-3").
Proof. vm_compute. reflexivity. Qed.

Example float_3_14 :
  float_literal "3.14" = S754_finite false 7070651414971679 (-51).
Proof. vm_compute. reflexivity. Qed.

Example float_minus_2_5e_3 :
  float_literal "-2.5e-3" = S754_finite true 5764607523034235 (-61).
Proof. vm_compute. reflexivity. Qed.

(** C2, as stated, fails on a line whose only digit belongs to another
    script: the one line of [foreign_digit_output] contains no standard
    numeric token, and [extract_fitness] returns 3.0, not the sentinel. *)
Lemma C2_counterexample :
  last_trimmed_line foreign_digit_output foreign_digit_output /\
  ~ contains_token foreign_digit_output /\
  (forall env st,
     fst (extract_fitness foreign_digit_output env st)
     = Ret (float_literal "3")) /\
  float_literal "3" <> sentinel.
Proof.
  split.
  { exists [], [], []. split; [reflexivity|].
    split; [left; reflexivity|]. split; [constructor|].
    split; [repeat constructor|]. split; [constructor|].
    exists arabic_three, []. repeat split; reflexivity. }
  split.
  { intros (a & t & b & E & Ht).
    destruct (token_first _ t Ht) as (c & r & -> & Hc).
    destruct a as [|x a']; inversion E; subst.
    - destruct Hc as [H | [H | [H | H]]]; vm_compute in H; discriminate.
    - destruct a'; discriminate. }
  split; [intros env st; vm_compute; reflexivity|].
  intros H. vm_compute in H. discriminate.
Qed.

(** C2, amended.  When the text is white space only, so that no line is
    left after trimming, or when its last non-empty line contains no token
    of the pattern (no numeric token, a digit being a decimal digit of any
    script), [extract_fitness] returns the sentinel. *)
Theorem C2_sentinel_without_token text env st :
  blank text \/
  (exists line, last_trimmed_line text line /\
                ~ contains_unicode_token line) ->
  fst (extract_fitness text env st) = Ret sentinel.
Proof.
  intros [H | (line & Hl & Hc)].
  - apply extract_no_lines. apply blank_lines. exact H.
  - apply (extract_no_match text line);
      [apply last_trimmed_line_lines; exact Hl|].
    apply search_token_none. exact Hc.
Qed.

Lemma C2_witness :
  fst (extract_fitness [NL; 32%N; NL] (env_where (Raise no_java)) new_trial)
    = Ret sentinel /\
  fst (extract_fitness (lit "12" ++ [NL] ++ lit "no number here")
         (env_where (Raise no_java)) new_trial) = Ret sentinel.
Proof.
  split.
  - apply C2_sentinel_without_token. left. repeat constructor.
  - apply C2_sentinel_without_token. right. exists (lit "no number here").
    split.
    + exists (lit "12" ++ [NL]), [], [].
      split; [reflexivity|].
      split; [right; exists (lit "12"), NL; split; reflexivity|].
      split; [constructor|].
      split; [repeat constructor|]. split; [constructor|].
      exists (ch "n"), (lit "o number here"). repeat split; reflexivity.
    + apply search_token_none. reflexivity.
Defined.

(** ** Faults during a trial *)

(** [objective] returns the value of [extract_fitness] on the combined
    output whenever the process runs to completion. *)
Lemma objective_completed env st result :
  suggested st = [] ->
  (forall n c t, spawn env n c t = Ret result) ->
  forall env' st',
    fst (objective env st) = fst (extract_fitness (combined result) env' st').
Proof.
  intros Hs Hr env' st'. rewrite (objective_fresh env st Hs). rewrite Hr.
  destruct (returncode result =? 0)%Z; apply extract_fitness_pure.
Qed.

(** An exception of [subprocess.run] that neither [except] clause names
    leaves [objective] as it came. *)
Lemma objective_propagates env st e :
  suggested st = [] ->
  (forall n c t, spawn env n c t = Raise e) ->
  exn_type e <> TimeoutExpired -> exn_type e <> FileNotFoundError ->
  fst (objective env st) = Raise e.
Proof.
  intros Hs Hr H1 H2. rewrite (objective_fresh env st Hs). rewrite Hr.
  destruct (exn_type e); try reflexivity; congruence.
Qed.

(** C3, as stated, fails: when the program cannot be executed,
    [subprocess.run] raises [PermissionError], which no [except] clause of
    [objective] names, and the exception reaches the caller. *)
Lemma C3_counterexample :
  fst (objective (env_where (Raise permission_denied)) new_trial)
    = Raise permission_denied /\
  ~ (exists v, fst (objective (env_where (Raise permission_denied)) new_trial)
               = Ret v).
Proof.
  assert (E : fst (objective (env_where (Raise permission_denied)) new_trial)
              = Raise permission_denied) by (vm_compute; reflexivity).
  split; [exact E|]. rewrite E. intros (v & H). discriminate.
Qed.

(** C3, amended.  On a new trial, when every way [subprocess.run] can fail
    is a timeout or a missing program, [objective] returns a number,
    whatever the exit code and the output of a completed process are. *)
Theorem C3_returns_for_handled_faults env st :
  suggested st = [] ->
  (forall n c t e, spawn env n c t = Raise e ->
     exn_type e = TimeoutExpired \/ exn_type e = FileNotFoundError) ->
  exists v, fst (objective env st) = Ret v.
Proof.
  intros Hs Hr. rewrite (objective_fresh env st Hs).
  destruct (spawn env _ _ _) as [result|e] eqn:E.
  - destruct (returncode result =? 0)%Z;
      match goal with
      | |- context [extract_fitness ?t ?en ?s] =>
          destruct (extract_value t en s) as (v & Hv & _)
      end; exists v; exact Hv.
  - destruct (Hr _ _ _ _ E) as [-> | ->]; exists inf; reflexivity.
Qed.

Lemma C3_witness :
  (exists v, fst (objective (env_where (Raise timed_out)) new_trial) = Ret v) /\
  (exists v, fst (objective (env_where (Raise no_java)) new_trial) = Ret v) /\
  (exists v, fst (objective
                    (env_where (completed 1 (lit "Exception in thread main")
                                          (lit "at Main.java:42")))
                    new_trial) = Ret v).
Proof.
  split; [|split]; apply C3_returns_for_handled_faults; try reflexivity;
    intros n c t e H; inversion H; subst; simpl; auto.
Defined.

(** C4, as stated, fails: a negative token too large for a float is
    converted to negative infinity, which [objective] returns. *)
Lemma C4_counterexample :
  fst (objective (env_where (completed 0 huge_negative_output [])) new_trial)
    = Ret (S754_infinity true) /\
  is_finite (S754_infinity true) = false /\
  S754_infinity true <> sentinel.
Proof.
  split; [vm_compute; reflexivity|]. split; [reflexivity | discriminate].
Qed.

(** C4, amended.  A value returned by [objective] is finite, or the
    sentinel, or negative infinity. *)
Theorem C4_finite_or_infinite env st v :
  fst (objective env st) = Ret v ->
  is_finite v = true \/ v = sentinel \/ v = S754_infinity true.
Proof.
  intros H. apply objective_returns_token_value in H as [-> | (t & Ht & F)];
    [right; left; reflexivity|].
  pose proof (py_float_token_not_nan t v Ht F) as Hn.
  destruct v as [s|[|]| |s m e]; simpl in *; auto; discriminate.
Qed.

Lemma C4_witness :
  is_finite (float_literal "3.14") = true \/
  float_literal "3.14" = sentinel \/
  float_literal "3.14" = S754_infinity true.
Proof.
  apply (C4_finite_or_infinite (env_where (completed 0 noisy_output []))
           new_trial).
  vm_compute. reflexivity.
Defined.

(** C5, as stated, fails on a launch failure: the record [objective] logs
    is an error, not a warning, and carries the exception, not the
    parameter vector. *)
Lemma C5_counterexample :
  log (snd (objective (env_where (Raise no_java)) new_trial))
    = [LogRecord ERROR (lit "Failed to run subprocess: %s") [VExn no_java]] /\
  ~ (exists r p,
       In r (log (snd (objective (env_where (Raise no_java)) new_trial))) /\
       levelname r = WARNING /\ In (VDict p) (args r)).
Proof.
  assert (E : log (snd (objective (env_where (Raise no_java)) new_trial))
    = [LogRecord ERROR (lit "Failed to run subprocess: %s") [VExn no_java]])
    by (vm_compute; reflexivity).
  split; [exact E|]. rewrite E.
  intros (r & p & [<- | []] & H & _). discriminate.
Qed.

(** C5, amended.  On a new trial, when [subprocess.run] raises
    [TimeoutExpired] or [FileNotFoundError], [objective] returns the
    sentinel after that one launch and one log record: for a timeout a
    warning with all five parameters of the trial, for a missing program
    an error with the exception. *)
Theorem C5_sentinel_without_retry env st e :
  suggested st = [] ->
  (forall n c t, spawn env n c t = Raise e) ->
  exn_type e = TimeoutExpired \/ exn_type e = FileNotFoundError ->
  let r := objective env st in
  fst r = Ret sentinel /\
  (exists c, launched (snd r) = launched st ++ [(c, timeout_seconds)]) /\
  map fst (params_of (snd r))
    = [lit "swarmSize"; lit "maxIters"; lit "inertias"; lit "c1s"; lit "c2s"] /\
  log (snd r) = log st ++
    [match exn_type e with
     | TimeoutExpired =>
         LogRecord WARNING (lit "Subprocess timed out for params: %s")
                   [VDict (params_of (snd r))]
     | _ => LogRecord ERROR (lit "Failed to run subprocess: %s") [VExn e]
     end].
Proof.
  intros Hs Hr Hc. cbv zeta. rewrite (objective_fresh env st Hs). rewrite Hr.
  destruct Hc as [-> | ->]; simpl; repeat split; eauto.
Qed.

Lemma C5_witness :
  let r := objective (env_where (Raise timed_out)) new_trial in
  fst r = Ret sentinel /\
  (exists c, launched (snd r) = launched new_trial ++ [(c, timeout_seconds)]) /\
  map fst (params_of (snd r))
    = [lit "swarmSize"; lit "maxIters"; lit "inertias"; lit "c1s"; lit "c2s"] /\
  log (snd r) = log new_trial ++
    [match exn_type timed_out with
     | TimeoutExpired =>
         LogRecord WARNING (lit "Subprocess timed out for params: %s")
                   [VDict (params_of (snd r))]
     | _ => LogRecord ERROR (lit "Failed to run subprocess: %s")
                      [VExn timed_out]
     end].
Proof.
  apply (C5_sentinel_without_retry (env_where (Raise timed_out)) new_trial
           timed_out); [reflexivity | reflexivity | left; reflexivity].
Defined.

(** ** The search loop *)

(** C6.  A run of [N] trials whose fitness values are never NaN records
    exactly [N] trials, the one at position [i] being trial [i]; the study
    result is one of them, its fitness is at most the fitness of every
    record, and among the records of equal fitness it is the earliest
    trial.  If every trial yields the sentinel, so does the study result,
    and the sentinel is not a finite value. *)
Theorem C6_search_loop_result
    (Params Strategy : Type) (propose : Strategy -> Params)
    (update : Strategy -> Params -> pyfloat -> Strategy)
    (score : nat -> Params -> pyfloat) (N : nat) (s0 : Strategy) :
  0 < N ->
  (forall i p, is_nan (score i p) = false) ->
  let history := fst (SearchLoop.search_loop propose update score N s0) in
  let result := snd (SearchLoop.search_loop propose update score N s0) in
  length history = N /\
  (forall i r, nth_error history i = Some r -> SearchLoop.index r = i) /\
  exists best,
    result = Some best /\
    (exists r, In r history /\
       SearchLoop.index r = SearchLoop.best_trial_number best /\
       SearchLoop.parameters r = SearchLoop.best_params best /\
       SearchLoop.fitness r = SearchLoop.best_value best) /\
    (forall r, In r history ->
       SFleb (SearchLoop.best_value best) (SearchLoop.fitness r) = true) /\
    (forall r, In r history ->
       SFeqb (SearchLoop.fitness r) (SearchLoop.best_value best) = true ->
       SearchLoop.best_trial_number best <= SearchLoop.index r) /\
    ((forall r, In r history -> SearchLoop.fitness r = sentinel) ->
     SearchLoop.best_value best = sentinel /\
     is_finite (SearchLoop.best_value best) = false).
Proof.
  intros HN Hnan. unfold SearchLoop.search_loop. cbv zeta. cbn [fst snd].
  set (h := SearchLoop.trials_from propose update score N 0 s0 []).
  assert (Hlen : length h = N) by apply SearchLoopFacts.trials_from_length.
  assert (Hpos : forall i r, nth_error h i = Some r -> SearchLoop.index r = i)
    by apply SearchLoopFacts.trials_from_position.
  assert (Hn : forall r, In r h -> is_nan (SearchLoop.fitness r) = false).
  { intros r Hr.
    apply SearchLoopFacts.trials_from_fitness in Hr as (j & p & ->).
    apply Hnan. }
  assert (Hne : h <> []) by (intros E; rewrite E in Hlen; simpl in Hlen; lia).
  destruct (SearchLoopFacts.best_record_spec _ h Hne Hpos Hn)
    as (b & Eb & Hin & Hb).
  split; [exact Hlen|]. split; [exact Hpos|].
  rewrite Eb. eexists. split; [reflexivity|]. cbn.
  split; [exists b; auto|].
  split; [intros r Hr; apply (Hb r Hr)|].
  split; [intros r Hr; apply (Hb r Hr)|].
  intros Hall. rewrite (Hall b Hin). split; reflexivity.
Qed.

Lemma C6_witness :
  let history := fst (SearchLoop.search_loop counting_propose counting_update
                        tied_score n_trials 0) in
  let result := snd (SearchLoop.search_loop counting_propose counting_update
                       tied_score n_trials 0) in
  length history = n_trials /\
  (forall i r, nth_error history i = Some r -> SearchLoop.index r = i) /\
  exists best,
    result = Some best /\
    (exists r, In r history /\
       SearchLoop.index r = SearchLoop.best_trial_number best /\
       SearchLoop.parameters r = SearchLoop.best_params best /\
       SearchLoop.fitness r = SearchLoop.best_value best) /\
    (forall r, In r history ->
       SFleb (SearchLoop.best_value best) (SearchLoop.fitness r) = true) /\
    (forall r, In r history ->
       SFeqb (SearchLoop.fitness r) (SearchLoop.best_value best) = true ->
       SearchLoop.best_trial_number best <= SearchLoop.index r) /\
    ((forall r, In r history -> SearchLoop.fitness r = sentinel) ->
     SearchLoop.best_value best = sentinel /\
     is_finite (SearchLoop.best_value best) = false).
Proof.
  apply (C6_search_loop_result nat nat counting_propose counting_update
           tied_score).
  - unfold n_trials. lia.
  - intros i p. unfold tied_score.
    destruct ((i =? 3)%nat || (i =? 7)%nat); vm_compute; reflexivity.
Defined.

(** With the default of 100 trials: a tie between trials 3 and 7 goes to
    trial 3, and a run in which every trial fails ends on the sentinel. *)
Example search_loop_tie :
  option_map (fun b => (SearchLoop.best_trial_number b, SearchLoop.best_value b))
    (snd (SearchLoop.search_loop counting_propose counting_update tied_score
            n_trials 0))
  = Some (3, float_literal "0.5").
Proof. vm_compute. reflexivity. Qed.

Example search_loop_all_failed :
  option_map (fun b => (SearchLoop.best_trial_number b, SearchLoop.best_value b))
    (snd (SearchLoop.search_loop counting_propose counting_update failing_score
            n_trials 0))
  = Some (0, sentinel) /\
  length (fst (SearchLoop.search_loop counting_propose counting_update
                 failing_score n_trials 0)) = 100.
Proof. vm_compute. split; reflexivity. Qed.

(** ** The fitness depends on the output text only *)

(** C7.  The value [extract_fitness] computes from a text is the same in
    every environment and state.  On new trials, two runs of [objective]
    whose processes complete with the same combined output return the
    same fitness, whatever their exit codes are: the value
    [extract_fitness] computes from the combined output. *)
Theorem C7_fitness_depends_on_text_only env1 st1 env2 st2 r1 r2 :
  suggested st1 = [] -> suggested st2 = [] ->
  (forall n c t, spawn env1 n c t = Ret r1) ->
  (forall n c t, spawn env2 n c t = Ret r2) ->
  combined r1 = combined r2 ->
  (forall text enva sta envb stb,
     fst (extract_fitness text enva sta)
     = fst (extract_fitness text envb stb)) /\
  fst (objective env1 st1) = fst (objective env2 st2) /\
  forall env st,
    fst (objective env1 st1) = fst (extract_fitness (combined r1) env st).
Proof.
  intros H1 H2 S1 S2 Hc. split; [exact extract_fitness_pure|]. split.
  - rewrite (objective_completed env1 st1 r1 H1 S1 env1 st1).
    rewrite (objective_completed env2 st2 r2 H2 S2 env1 st1).
    rewrite Hc. reflexivity.
  - intros env st. apply (objective_completed env1 st1 r1 H1 S1).
Qed.

Lemma C7_witness :
  let r1 := {| returncode := 0; stdout := lit "12" ++ [NL] ++ lit "7.5";
               stderr := [] |} in
  let r2 := {| returncode := 3; stdout := lit "12";
               stderr := lit "7.5" ++ [NL] |} in
  (forall text enva sta envb stb,
     fst (extract_fitness text enva sta)
     = fst (extract_fitness text envb stb)) /\
  fst (objective (env_where (Ret r1)) new_trial)
  = fst (objective (env_where (Ret r2)) new_trial) /\
  forall env st,
    fst (objective (env_where (Ret r1)) new_trial)
    = fst (extract_fitness (combined r1) env st).
Proof.
  intros r1 r2.
  apply (C7_fitness_depends_on_text_only
           (env_where (Ret r1)) new_trial (env_where (Ret r2)) new_trial
           r1 r2); reflexivity.
Defined.

(** ** Parameters and command line *)

(** On a new trial, whatever happens to the process, [objective] leaves the
    five suggestions in the trial and one launch in the list of launches. *)
Lemma objective_trial env st :
  suggested st = [] ->
  let swarmSize := sample_int env (lit "swarmSize") 10 100 in
  let maxIters := sample_int env (lit "maxIters") 50 1000 in
  let inertias := sample_float env (lit "inertias")
                    (float_literal "0.1") (float_literal "1.0") in
  let c1s := sample_float env (lit "c1s")
                    (float_literal "0.1") (float_literal "3.0") in
  let c2s := sample_float env (lit "c2s")
                    (float_literal "0.1") (float_literal "3.0") in
  suggested (snd (objective env st)) =
    [ (lit "swarmSize", SuggestedInt 10 100 swarmSize);
      (lit "maxIters", SuggestedInt 50 1000 maxIters);
      (lit "inertias", SuggestedFloat (float_literal "0.1")
                         (float_literal "1.0") inertias);
      (lit "c1s", SuggestedFloat (float_literal "0.1")
                         (float_literal "3.0") c1s);
      (lit "c2s", SuggestedFloat (float_literal "0.1")
                         (float_literal "3.0") c2s) ] /\
  launched (snd (objective env st)) =
    launched st ++
    [(cmd env swarmSize maxIters inertias c1s c2s, timeout_seconds)].
Proof.
  intros Hs. cbv zeta. rewrite (objective_fresh env st Hs).
  destruct (spawn env _ _ _) as [result|e].
  - destruct (returncode result =? 0)%Z;
      match goal with
      | |- context [extract_fitness ?t ?en ?s] =>
          destruct (extract_fitness_state t en s) as [-> ->]
      end; split; reflexivity.
  - destruct (exn_type e); split; reflexivity.
Qed.

(** C8, as stated, fails: the trial's real-valued parameters are named
    [inertias], [c1s] and [c2s], not [inertia], [c1] and [c2]. *)
Lemma C8_counterexample :
  map fst (params_of (snd (objective
                             (env_where (completed 0 noisy_output []))
                             new_trial)))
  <> claimed_names.
Proof. vm_compute. discriminate. Qed.

(** C8, amended.  On a new trial, [objective] asks for exactly five
    parameters, in this order and with these bounds: the integers
    [swarmSize] in 10..100 and [maxIters] in 50..1000, and the floats
    [inertias] in 0.1..1.0, [c1s] in 0.1..3.0 and [c2s] in 0.1..3.0. *)
Theorem C8_five_parameters env st :
  suggested st = [] ->
  distributions_of (snd (objective env st)) =
    [ (lit "swarmSize", IntDistribution 10 100);
      (lit "maxIters", IntDistribution 50 1000);
      (lit "inertias",
       FloatDistribution (float_literal "0.1") (float_literal "1.0"));
      (lit "c1s",
       FloatDistribution (float_literal "0.1") (float_literal "3.0"));
      (lit "c2s",
       FloatDistribution (float_literal "0.1") (float_literal "3.0")) ] /\
  map fst (params_of (snd (objective env st))) =
    [lit "swarmSize"; lit "maxIters"; lit "inertias"; lit "c1s"; lit "c2s"].
Proof.
  intros Hs. destruct (objective_trial env st Hs) as [E _].
  unfold distributions_of, params_of. rewrite E. split; reflexivity.
Qed.

Lemma C8_witness :
  distributions_of
    (snd (objective (env_where (completed 0 noisy_output [])) new_trial)) =
    [ (lit "swarmSize", IntDistribution 10 100);
      (lit "maxIters", IntDistribution 50 1000);
      (lit "inertias",
       FloatDistribution (float_literal "0.1") (float_literal "1.0"));
      (lit "c1s",
       FloatDistribution (float_literal "0.1") (float_literal "3.0"));
      (lit "c2s",
       FloatDistribution (float_literal "0.1") (float_literal "3.0")) ] /\
  map fst (params_of
             (snd (objective (env_where (completed 0 noisy_output []))
                     new_trial))) =
    [lit "swarmSize"; lit "maxIters"; lit "inertias"; lit "c1s"; lit "c2s"].
Proof.
  apply (C8_five_parameters (env_where (completed 0 noisy_output []))
           new_trial).
  reflexivity.
Defined.

(** [str(n)] is decimal text: ASCII digits whose value is [n]. *)
Lemma pos_digits_digits fuel : forall n acc,
  Forall (fun c => is_ascii_digit c = true) acc ->
  Forall (fun c => is_ascii_digit c = true) (pos_digits fuel n acc).
Proof.
  induction fuel as [|fuel IH]; intros n acc Hacc; cbn [pos_digits];
    [exact Hacc|].
  assert (Hd : is_ascii_digit (digit_char (n mod 10)) = true).
  { unfold digit_char. apply in_range_spec.
    assert (n mod 10 < 10)%N by (apply N.mod_lt; discriminate).
    remember (n mod 10)%N as d. lia. }
  destruct (n / 10 =? 0)%N; [constructor; auto | apply IH; constructor; auto].
Qed.

Lemma pos_digits_value fuel : forall n acc,
  (n < 2 ^ N.of_nat fuel)%N ->
  digits_value 0 (pos_digits fuel n acc) = digits_value n acc.
Proof.
  induction fuel as [|fuel IH]; intros n acc Hn.
  - simpl in *. replace n with 0%N by lia. reflexivity.
  - cbn [pos_digits].
    assert (Hm : (n mod 10 < 10)%N) by (apply N.mod_lt; discriminate).
    assert (Hdm : n = (10 * (n / 10) + n mod 10)%N)
      by (apply N.div_mod; discriminate).
    rewrite Nnat.Nat2N.inj_succ, N.pow_succ_r' in Hn.
    remember (n / 10)%N as q. remember (n mod 10)%N as d.
    assert (Hdv : forall a, digits_value a (digit_char d :: acc)
                   = digits_value (a * 10 + d) acc).
    { intros a. cbn [digits_value]. unfold digit_char. f_equal. lia. }
    destruct (N.eqb_spec q 0) as [Hz | Hz].
    + rewrite Hdv. f_equal. lia.
    + rewrite IH, Hdv; [f_equal; lia | lia].
Qed.

Lemma str_of_nat_decimal n :
  Forall (fun c => is_ascii_digit c = true) (str_of_nat n) /\
  digits_value 0 (str_of_nat n) = n.
Proof.
  unfold str_of_nat. split; [apply pos_digits_digits; constructor|].
  rewrite pos_digits_value; [reflexivity|].
  destruct n as [|p]; [reflexivity|].
  rewrite Nnat.Nat2N.inj_succ, N2Nat.id.
  apply N.log2_spec. reflexivity.
Qed.

Lemma str_of_int_decimal z :
  exists ds,
    str_of_int z = (if (z <? 0)%Z then [ch "-"] else []) ++ ds /\
    Forall (fun c => is_ascii_digit c = true) ds /\
    Z.of_N (digits_value 0 ds) = Z.abs z.
Proof.
  destruct z as [|p|p]; simpl.
  - exists (str_of_nat 0). split; [reflexivity|].
    destruct (str_of_nat_decimal 0) as [H1 H2]. rewrite H2. auto.
  - exists (str_of_nat (Npos p)). split; [reflexivity|].
    destruct (str_of_nat_decimal (Npos p)) as [H1 H2]. rewrite H2. auto.
  - exists (str_of_nat (Npos p)). split; [reflexivity|].
    destruct (str_of_nat_decimal (Npos p)) as [H1 H2]. rewrite H2. auto.
Qed.

(** C9.  On a new trial, [objective] launches one command: [java -jar] and
    the path of the JAR, followed by the text of the trial's five
    parameter values in the order swarmSize, maxIters, inertias, c1s, c2s;
    the two integers are written in decimal, the three floats as [str]
    writes a float. *)
Theorem C9_command_line env st :
  suggested st = [] ->
  exists swarmSize maxIters inertias c1s c2s,
    params_of (snd (objective env st)) =
      [ (lit "swarmSize", VInt swarmSize); (lit "maxIters", VInt maxIters);
        (lit "inertias", VFloat inertias); (lit "c1s", VFloat c1s);
        (lit "c2s", VFloat c2s) ] /\
    launched (snd (objective env st)) =
      launched st ++
      [ ([lit "java"; lit "-jar"; JAR_PATH env] ++
         [ str_of_int swarmSize; str_of_int maxIters;
           float_str env inertias; float_str env c1s; float_str env c2s ],
         timeout_seconds) ] /\
    (exists ds, str_of_int swarmSize
                  = (if (swarmSize <? 0)%Z then [ch "-"] else []) ++ ds /\
                Forall (fun c => is_ascii_digit c = true) ds /\
                Z.of_N (digits_value 0 ds) = Z.abs swarmSize) /\
    (exists ds, str_of_int maxIters
                  = (if (maxIters <? 0)%Z then [ch "-"] else []) ++ ds /\
                Forall (fun c => is_ascii_digit c = true) ds /\
                Z.of_N (digits_value 0 ds) = Z.abs maxIters).
Proof.
  intros Hs. destruct (objective_trial env st Hs) as [E L].
  do 5 eexists. unfold params_of. rewrite E, L.
  split; [reflexivity|]. split; [reflexivity|].
  split; apply str_of_int_decimal.
Qed.

Lemma C9_witness :
  exists swarmSize maxIters inertias c1s c2s,
    params_of (snd (objective (env_where (completed 0 noisy_output []))
                      new_trial)) =
      [ (lit "swarmSize", VInt swarmSize); (lit "maxIters", VInt maxIters);
        (lit "inertias", VFloat inertias); (lit "c1s", VFloat c1s);
        (lit "c2s", VFloat c2s) ] /\
    launched (snd (objective (env_where (completed 0 noisy_output []))
                     new_trial)) =
      launched new_trial ++
      [ ([lit "java"; lit "-jar";
          JAR_PATH (env_where (completed 0 noisy_output []))] ++
         [ str_of_int swarmSize; str_of_int maxIters;
           float_str (env_where (completed 0 noisy_output [])) inertias;
           float_str (env_where (completed 0 noisy_output [])) c1s;
           float_str (env_where (completed 0 noisy_output [])) c2s ],
         timeout_seconds) ] /\
    (exists ds, str_of_int swarmSize
                  = (if (swarmSize <? 0)%Z then [ch "-"] else []) ++ ds /\
                Forall (fun c => is_ascii_digit c = true) ds /\
                Z.of_N (digits_value 0 ds) = Z.abs swarmSize) /\
    (exists ds, str_of_int maxIters
                  = (if (maxIters <? 0)%Z then [ch "-"] else []) ++ ds /\
                Forall (fun c => is_ascii_digit c = true) ds /\
                Z.of_N (digits_value 0 ds) = Z.abs maxIters).
Proof.
  apply (C9_command_line (env_where (completed 0 noisy_output [])) new_trial).
  reflexivity.
Defined.

(** The command of that run, as text. *)
Example command_line_example :
  map fst (launched (snd (objective (env_where (completed 0 noisy_output []))
                            new_trial)))
  = [ [ lit "java"; lit "-jar";
        lit "/opt/pso/thermoforming_optimization-1.0.jar";
        lit "10"; lit "50"; lit "0.1"; lit "0.1"; lit "0.1" ] ].
Proof. vm_compute. reflexivity. Qed.

(** ** No NaN *)

Lemma pattern_rejects_nan : search fitness_pattern (lit "nan") = None.
Proof. reflexivity. Qed.

Lemma float_accepts_nan : py_float (lit "nan") = Ret S754_nan.
Proof. reflexivity. Qed.

(** C10.  A value returned by [objective] is never NaN: the fitness pattern
    finds nothing in the text [nan], and the float of a token of the
    pattern is never NaN.  [float] accepts every token of at most
    [MAX_DIGITS] characters; a token it refuses yields no float at all. *)
Theorem C10_fitness_never_nan env st v :
  fst (objective env st) = Ret v ->
  is_nan v = false /\
  search fitness_pattern (lit "nan") = None /\
  (forall t, unicode_token t ->
     (forall x, py_float t = Ret x -> is_nan x = false) /\
     ((N.of_nat (length t) <= MAX_DIGITS)%N ->
      exists x, py_float t = Ret x /\ is_nan x = false)).
Proof.
  intros H. split; [|split; [exact pattern_rejects_nan|]].
  - apply objective_returns_token_value in H as [-> | (t & Ht & F)];
      [reflexivity|].
    exact (py_float_token_not_nan t v Ht F).
  - intros t Ht. split; [intros x; apply py_float_token_not_nan; exact Ht|].
    intros Hlen.
    destruct (py_float_token_short t Ht Hlen) as (neg & m & e & F & _).
    exists (round_decimal neg m e). split; [exact F|].
    apply round_decimal_not_nan.
Qed.

Lemma C10_witness :
  is_nan (float_literal "12.345") = false /\
  search fitness_pattern (lit "nan") = None /\
  (forall t, unicode_token t ->
     (forall x, py_float t = Ret x -> is_nan x = false) /\
     ((N.of_nat (length t) <= MAX_DIGITS)%N ->
      exists x, py_float t = Ret x /\ is_nan x = false)).
Proof.
  apply (C10_fitness_never_nan (env_where (completed 0 wordy_output
                                             (lit "Fitness: 12.345")))
           new_trial).
  vm_compute. reflexivity.
Defined.

(* ===================================================================== *)
(** * The sign of the float of a token *)
(* ===================================================================== *)

Module SignFacts.
Import PyStr Py PyFloat Spec FloatSign CharFacts FloatFacts.

Lemma binary_round_aux_sign pr em sx mx ex lx :
  is_nan (binary_round_aux pr em sx mx ex lx) = false ->
  sign_bit (binary_round_aux pr em sx mx ex lx) = sx.
Proof.
  unfold binary_round_aux.
  destruct (shr_fexp pr em mx ex lx) as [mrs' e'].
  destruct (shr_fexp pr em _ e' loc_Exact) as [mrs'' e''].
  destruct (shr_m mrs'') as [|m|m]; [reflexivity | | discriminate].
  destruct (e'' <=? em - pr)%Z; reflexivity.
Qed.

Lemma binary_round_sign pr em sx mx ex :
  sign_bit (binary_round pr em sx mx ex) = sx.
Proof.
  pose proof (binary_round_not_nan pr em sx mx ex) as H. revert H.
  unfold binary_round. destruct (shl_align mx ex _) as [mz ez].
  apply binary_round_aux_sign.
Qed.

(** Rounding keeps the sign, also for a zero and for an infinity. *)
Lemma round_decimal_sign neg m e : sign_bit (round_decimal neg m e) = neg.
Proof.
  pose proof (round_decimal_not_nan neg m e) as H. revert H.
  unfold round_decimal. destruct m as [|p]; [reflexivity|].
  destruct e as [|k|k]; intros H; try apply binary_round_sign.
  destruct (SFdiv_core_binary _ _ _ _ _ _) as [[q e2] l].
  apply binary_round_aux_sign. exact H.
Qed.

Lemma strtod_sign (s : str) v r :
  strtod s = Some (v, r) -> sign_bit v = fst (take_sign s).
Proof.
  unfold strtod. destruct (take_sign s) as [neg s1].
  destruct (span is_ascii_digit s1) as [ip s2].
  destruct (match s2 with
            | [] => ([], [])
            | c :: s' => if (c =? ch ".")%N then span is_ascii_digit s'
                         else ([], s2)
            end) as [fp s3].
  destruct (ip ++ fp) as [|d ds]; [discriminate|].
  destruct (too_many_digits ip fp); [discriminate|].
  destruct (scan_exponent s3) as [e s4].
  intros E; inversion E; subst. apply round_decimal_sign.
Qed.

(** The conversion to ASCII keeps a leading minus sign and adds none. *)
Lemma take_sign_to_ascii (s : str) :
  fst (take_sign (to_ascii s)) = starts_with_minus s.
Proof.
  destruct s as [|c s]; [reflexivity|]. cbn [to_ascii starts_with_minus].
  destruct (N.ltb_spec c 127) as [Hlt | Hge].
  - unfold take_sign. destruct (c =? ch "-")%N; [reflexivity|].
    destruct (c =? ch "+")%N; reflexivity.
  - assert (Hm : (c =? ch "-")%N = false)
      by (apply N.eqb_neq; unfold ch; simpl; lia).
    rewrite Hm. destruct (is_space c); [reflexivity|].
    destruct (to_decimal c) as [d|]; [|reflexivity].
    unfold take_sign, digit_char.
    change (ch "-") with 45%N. change (ch "+") with 43%N.
    assert (H1 : (48 + d =? 45)%N = false) by (apply N.eqb_neq; lia).
    assert (H2 : (48 + d =? 43)%N = false) by (apply N.eqb_neq; lia).
    rewrite H1, H2. reflexivity.
Qed.

(** The float of a token of the pattern has its sign bit set exactly when
    the token starts with a minus sign. *)
Lemma py_float_token_sign (t : str) v :
  Pattern.unicode_token t -> py_float t = Ret v ->
  sign_bit v = starts_with_minus t.
Proof.
  intros Ht F. destruct (py_float_token_value t v Ht F) as [_ S].
  rewrite (strtod_sign _ _ _ S). apply take_sign_to_ascii.
Qed.

End SignFacts.

(* ===================================================================== *)
(** * Further properties of [objective] and of the script *)
(* ===================================================================== *)

Import LinesFacts FloatSign SignFacts Script Runs.

(** ** Which line the fitness is read from *)

Lemma combined_lines (result : CompletedProcess) :
  lines (combined result) = lines (stdout result) ++ lines (stderr result).
Proof.
  unfold combined. cbn [join].
  assert (E : forall a : str, str_or a [] = a) by (intros [|c a]; reflexivity).
  rewrite !E. apply (lines_newline (stdout result) (stderr result)).
Qed.

(** X1.  The non-empty lines of the combined output are those of the
    standard output followed by those of the error stream. *)
Theorem X1_lines_of_combined (result : CompletedProcess) :
  lines (combined result) = lines (stdout result) ++ lines (stderr result).
Proof. exact (combined_lines result). Qed.

Lemma lines_last_empty text : last (lines text) [] = [] -> lines text = [].
Proof.
  intros H. destruct (lines_cases text) as [E | (line & before & E)];
    [exact E|].
  exfalso. rewrite E, last_last in H. subst line.
  assert (Hin : In [] (lines text)) by (rewrite E; apply in_or_app; right; left; reflexivity).
  apply lines_in in Hin as (l0 & _ & _ & Hne). congruence.
Qed.

Lemma extract_same_last_line text1 text2 env1 st1 env2 st2 :
  last (lines text1) [] = last (lines text2) [] ->
  fst (extract_fitness text1 env1 st1) = fst (extract_fitness text2 env2 st2).
Proof.
  intros H.
  destruct (lines_cases text1) as [E1 | (line & Hl1)].
  - rewrite E1 in H. simpl in H. symmetry in H. apply lines_last_empty in H.
    rewrite (extract_no_lines _ _ _ E1), (extract_no_lines _ _ _ H).
    reflexivity.
  - assert (Hl2 : last_nonempty_line text2 line).
    { destruct Hl1 as (before & E1). rewrite E1, last_last in H.
      destruct (lines_cases text2) as [E2 | (line2 & before2 & E2)].
      - rewrite E2 in H. simpl in H. subst line.
        assert (Hin : In [] (lines text1))
          by (rewrite E1; apply in_or_app; right; left; reflexivity).
        apply lines_in in Hin as (l0 & _ & _ & Hne). congruence.
      - rewrite E2, last_last in H. subst line2. exists before2. exact E2. }
    destruct (search fitness_pattern line) as [m|] eqn:S.
    + rewrite (extract_match _ _ _ env1 st1 Hl1 S).
      rewrite (extract_match _ _ _ env2 st2 Hl2 S). reflexivity.
    + rewrite (extract_no_match _ _ env1 st1 Hl1 S).
      rewrite (extract_no_match _ _ env2 st2 Hl2 S). reflexivity.
Qed.

(** X2.  Only the last non-empty line counts: two texts with the same last
    non-empty line, or both without one, yield the same fitness. *)
Theorem X2_fitness_from_last_line text1 text2 env1 st1 env2 st2 :
  last (lines text1) [] = last (lines text2) [] ->
  fst (extract_fitness text1 env1 st1) = fst (extract_fitness text2 env2 st2).
Proof. exact (extract_same_last_line text1 text2 env1 st1 env2 st2). Qed.

Lemma X2_witness :
  fst (extract_fitness (lit "7" ++ [NL] ++ lit "cost 3.5") 
         (env_where (Ret quiet_run)) new_trial)
  = fst (extract_fitness (lit "cost 3.5" ++ [NL; NL])
           (env_where (Raise no_java)) new_trial).
Proof.
  apply X2_fitness_from_last_line. reflexivity.
Defined.

(** X3.  The error stream comes last: when it has a non-empty line, the
    fitness is read from the error stream alone, whatever the standard
    output holds. *)
Theorem X3_error_stream_wins env st result :
  suggested st = [] ->
  (forall n c t, spawn env n c t = Ret result) ->
  lines (stderr result) <> [] ->
  forall env' st',
    fst (objective env st) = fst (extract_fitness (stderr result) env' st').
Proof.
  intros Hs Hr Hne env' st'.
  rewrite (objective_completed env st result Hs Hr env' st').
  apply extract_same_last_line. rewrite combined_lines.
  destruct (exists_last Hne) as (before & line & ->).
  rewrite app_assoc, !last_last. reflexivity.
Qed.

Lemma X3_witness :
  fst (objective (env_where (Ret run_with_warning)) new_trial)
  = fst (extract_fitness (stderr run_with_warning)
           (env_where (Raise no_java)) new_trial).
Proof.
  apply (X3_error_stream_wins (env_where (Ret run_with_warning)) new_trial
           run_with_warning).
  - reflexivity.
  - reflexivity.
  - vm_compute. discriminate.
Defined.

(** In that run the fitness is the 3 of the warning, not the 12.5 the
    program printed. *)
Example warning_hides_fitness :
  fst (objective (env_where (Ret run_with_warning)) new_trial)
  = Ret (float_literal "3").
Proof. vm_compute. reflexivity. Qed.

(** X4.  When the error stream has no non-empty line, the fitness is read
    from the standard output alone. *)
Theorem X4_standard_output_otherwise env st result :
  suggested st = [] ->
  (forall n c t, spawn env n c t = Ret result) ->
  lines (stderr result) = [] ->
  forall env' st',
    fst (objective env st) = fst (extract_fitness (stdout result) env' st').
Proof.
  intros Hs Hr He env' st'.
  rewrite (objective_completed env st result Hs Hr env' st').
  apply extract_same_last_line.
  rewrite combined_lines, He, app_nil_r. reflexivity.
Qed.

Lemma X4_witness :
  fst (objective (env_where (Ret quiet_run)) new_trial)
  = fst (extract_fitness (stdout quiet_run)
           (env_where (Raise no_java)) new_trial).
Proof.
  apply (X4_standard_output_otherwise (env_where (Ret quiet_run)) new_trial
           quiet_run); reflexivity.
Defined.

(** X5.  Every line that [lines] keeps is not empty, has no white space at
    either end (so that [strip] leaves it as it is) and holds no line
    boundary. *)
Theorem X5_lines_are_trimmed text l :
  In l (lines text) ->
  l <> [] /\ strip l = l /\ Forall (fun c => is_linebreak c = false) l.
Proof.
  intros H. apply lines_in in H as (l0 & Hin & -> & Hne).
  split; [exact Hne|]. split.
  - destruct (strip l0) as [|c r] eqn:E; [congruence|].
    apply (strip_fixed (c :: r) c r eq_refl).
    + apply (strip_first l0 c r E).
    + rewrite <- E. apply strip_last. rewrite E. discriminate.
  - apply strip_forall.
    pose proof (splitlines_no_break text [] false (Forall_nil _)) as F.
    rewrite Forall_forall in F. apply F. exact Hin.
Qed.

Lemma X5_witness :
  lit "3.14 extra text" <> [] /\
  strip (lit "3.14 extra text") = lit "3.14 extra text" /\
  Forall (fun c => is_linebreak c = false) (lit "3.14 extra text").
Proof.
  apply (X5_lines_are_trimmed noisy_output). right. left. reflexivity.
Defined.

(** X6.  White space after the end of a text, blank lines included, changes
    neither its lines nor the fitness read from it. *)
Theorem X6_trailing_white_space text ws env1 st1 env2 st2 :
  Forall (fun c => is_space c = true) ws ->
  lines (text ++ ws) = lines text /\
  fst (extract_fitness (text ++ ws) env1 st1)
  = fst (extract_fitness text env2 st2).
Proof.
  intros Hws.
  assert (E : lines (text ++ ws) = lines text).
  { unfold lines, splitlines.
    apply (splitlines_trailing_space ws Hws text [] false). discriminate. }
  split; [exact E|]. apply extract_same_last_line. rewrite E. reflexivity.
Qed.

Lemma X6_witness :
  lines (lit "cost 3.5" ++ [NL; 32%N; 13%N; NL; 9%N]) = lines (lit "cost 3.5") /\
  fst (extract_fitness (lit "cost 3.5" ++ [NL; 32%N; 13%N; NL; 9%N])
         (env_where (Ret quiet_run)) new_trial)
  = fst (extract_fitness (lit "cost 3.5") (env_where (Ret quiet_run)) new_trial).
Proof.
  apply X6_trailing_white_space. repeat constructor.
Defined.

(** ** What is logged *)

(** The records [extract_fitness] adds to the log: one warning when there
    is no line, one when the last line has no token, one when [float]
    refuses the token, none otherwise. *)
Lemma extract_fitness_log text env st :
  log (snd (extract_fitness text env st)) =
  log st ++
  match lines text with
  | [] =>
      [LogRecord WARNING (lit "No output to parse for params: %s")
                 [VDict (params_of st)]]
  | l :: ls =>
      match search fitness_pattern (last (l :: ls) []) with
      | None =>
          [LogRecord WARNING (lit "No numeric value found in last line: %s")
                     [VStr (last (l :: ls) [])]]
      | Some m =>
          match py_float (m_group0 m) with
          | Ret _ => []
          | Raise _ =>
              [LogRecord WARNING
                 (lit "Failed to convert extracted token to float: %s")
                 [VStr (m_group0 m)]]
          end
      end
  end.
Proof.
  unfold extract_fitness. destruct (lines text) as [|l ls]; [reflexivity|].
  destruct (search fitness_pattern _) as [m|] eqn:S; [|reflexivity].
  unfold try_except, bind, of_outcome, ret.
  destruct (py_float (m_group0 m)) as [v|e] eqn:F.
  - symmetry. apply app_nil_r.
  - apply py_float_raises in F. unfold find_handler, isinstance. rewrite F.
    reflexivity.
Qed.

(** X7.  On a new trial whose process completes, the log grows by a
    warning with the exit code and the stripped error stream when the exit
    code is not zero, then by one warning when there is no output line,
    when the last line has no token, or when [float] refuses the token; a
    run that exits with zero and ends on a token that [float] accepts logs
    nothing. *)
Theorem X7_log_of_completed_run env st result :
  suggested st = [] ->
  (forall n c t, spawn env n c t = Ret result) ->
  log (snd (objective env st)) =
  log st ++
  (if (returncode result =? 0)%Z then []
   else [LogRecord WARNING (lit "Jar exited with code %s. stderr: %s")
                   [VInt (returncode result);
                    VStr (strip (stderr result))]]) ++
  match lines (combined result) with
  | [] =>
      [LogRecord WARNING (lit "No output to parse for params: %s")
                 [VDict (params_of (snd (objective env st)))]]
  | l :: ls =>
      match search fitness_pattern (last (l :: ls) []) with
      | None =>
          [LogRecord WARNING (lit "No numeric value found in last line: %s")
                     [VStr (last (l :: ls) [])]]
      | Some m =>
          match py_float (m_group0 m) with
          | Ret _ => []
          | Raise _ =>
              [LogRecord WARNING
                 (lit "Failed to convert extracted token to float: %s")
                 [VStr (m_group0 m)]]
          end
      end
  end.
Proof.
  intros Hs Hr.
  assert (P : params_of (snd (objective env st)) =
              map (fun kv => (fst kv, suggestion_value (snd kv)))
                  (suggested (snd (objective env st)))) by reflexivity.
  rewrite P. destruct (objective_trial env st Hs) as [Es _]. rewrite Es.
  rewrite (objective_fresh env st Hs), Hr.
  destruct (returncode result =? 0)%Z; rewrite extract_fitness_log; simpl log.
  - rewrite app_nil_r. reflexivity.
  - rewrite <- app_assoc. reflexivity.
Qed.

Lemma X7_witness :
  log (snd (objective (env_where (Ret failed_run)) new_trial)) =
  log new_trial ++
  (if (returncode failed_run =? 0)%Z then []
   else [LogRecord WARNING (lit "Jar exited with code %s. stderr: %s")
                   [VInt (returncode failed_run);
                    VStr (strip (stderr failed_run))]]) ++
  match lines (combined failed_run) with
  | [] =>
      [LogRecord WARNING (lit "No output to parse for params: %s")
                 [VDict (params_of
                           (snd (objective (env_where (Ret failed_run))
                                   new_trial)))]]
  | l :: ls =>
      match search fitness_pattern (last (l :: ls) []) with
      | None =>
          [LogRecord WARNING (lit "No numeric value found in last line: %s")
                     [VStr (last (l :: ls) [])]]
      | Some m =>
          match py_float (m_group0 m) with
          | Ret _ => []
          | Raise _ =>
              [LogRecord WARNING
                 (lit "Failed to convert extracted token to float: %s")
                 [VStr (m_group0 m)]]
          end
      end
  end.
Proof.
  apply (X7_log_of_completed_run (env_where (Ret failed_run)) new_trial
           failed_run); reflexivity.
Defined.

(** The two warnings of the failed run, and the silence of the quiet one. *)
Example failed_run_log :
  map (fun r => (levelname r, msg r, args r))
      (log (snd (objective (env_where (Ret failed_run)) new_trial)))
  = [ (WARNING, lit "Jar exited with code %s. stderr: %s",
       [VInt 2; VStr (lit "Error: bad arguments")]);
      (WARNING, lit "No numeric value found in last line: %s",
       [VStr (lit "Error: bad arguments")]) ].
Proof. vm_compute. reflexivity. Qed.

Example quiet_run_log :
  log (snd (objective (env_where (Ret quiet_run)) new_trial)) = [].
Proof. vm_compute. reflexivity. Qed.

(** ** The clause for a failed conversion *)

Lemma last_forall (P : char -> Prop) (l : str) d :
  P d -> Forall P l -> P (last l d).
Proof.
  intros Hd. induction 1 as [|c l Hc Hl IH]; [exact Hd|].
  destruct l as [|c' l']; [exact Hc | exact IH].
Qed.

(** Lines 55 to 57 can run.  When the output is one run of more than
    [MAX_DIGITS] digits that does not start with a zero, followed by
    white space only, the pattern matches the whole run, [float] refuses
    it, and [extract_fitness] returns the sentinel after the warning of
    the [except ValueError] clause. *)
Lemma long_token_refused (d : char) (ds ws : str) env st :
  is_ascii_digit d = true -> is_zero_digit d = false ->
  Forall (fun c => is_ascii_digit c = true) ds ->
  (MAX_DIGITS < N.of_nat (length (d :: ds)))%N ->
  Forall (fun c => is_space c = true) ws ->
  fst (extract_fitness ((d :: ds) ++ ws) env st) = Ret inf /\
  log (snd (extract_fitness ((d :: ds) ++ ws) env st)) =
    log st ++
    [LogRecord WARNING
       (lit "Failed to convert extracted token to float: %s")
       [VStr (d :: ds)]].
Proof.
  intros Hd Hz Hds Hlen Hws. set (text := d :: ds).
  assert (Hall : Forall (fun c => is_ascii_digit c = true) text)
    by (constructor; assumption).
  assert (Hns : Forall (fun c => is_space c = false) text).
  { eapply Forall_impl; [|exact Hall]. intros c Hc.
    apply decimal_not_space, ascii_digit_decimal, Hc. }
  assert (Hnb : Forall (fun c => is_linebreak c = false) text).
  { eapply Forall_impl; [|exact Hns]. intros c Hc.
    destruct (is_linebreak c) eqn:L; [|reflexivity].
    apply linebreak_space in L. congruence. }
  assert (Hl : last_nonempty_line (text ++ ws) text).
  { apply last_trimmed_line_lines. exists [], [], ws.
    split; [reflexivity|].
    split; [left; reflexivity|]. split; [constructor|].
    split; [exact Hnb|]. split; [exact Hws|].
    exists d, ds. split; [reflexivity|].
    apply Forall_cons_iff in Hns as [Hs1 Hs2]. split; [exact Hs1|].
    apply (last_forall (fun c => is_space c = false)); [exact Hs1|].
    constructor; assumption. }
  assert (Ht : unicode_token text).
  { apply numeric_unicode. exists [], [], [], text, [].
    split; [cbn [app]; rewrite app_nil_r; reflexivity|].
    split; [left; reflexivity|]. split; [constructor|].
    split; [left; reflexivity|]. split; [exact Hall|].
    split; [discriminate | left; reflexivity]. }
  destruct (search fitness_pattern text) as [[pre tok post]|] eqn:Sr.
  - destruct (search_token_some _ _ Sr) as (E & _ & Hleft).
    pose proof (search_token_longest _ _ Sr) as Hlong. simpl in E, Hleft, Hlong.
    assert (Epre : pre = []).
    { specialize (Hleft [] text [] ltac:(cbn [app]; rewrite app_nil_r; reflexivity) Ht).
      destruct pre; [reflexivity|].
      exfalso. simpl in Hleft. clear - Hleft. lia. }
    subst pre. cbn [app] in E.
    assert (Etok : tok = text).
    { specialize (Hlong text [] ltac:(rewrite app_nil_r; symmetry; exact E) Ht).
      assert (Hp : post = []).
      { apply (f_equal (@length char)) in E. rewrite length_app in E.
        destruct post as [|c post]; [reflexivity|].
        exfalso. change (length (c :: post)) with (S (length post)) in E.
        revert E Hlong.
        generalize (length text), (length tok), (length post).
        intros; lia. }
      subst post. rewrite app_nil_r in E. congruence. }
    subst tok.
    pose proof (py_float_long_digits d ds Hd Hz Hds Hlen) as F.
    fold text in F. split.
    + rewrite (extract_match _ _ _ env st Hl Sr). cbn [m_group0].
      rewrite F. reflexivity.
    + rewrite extract_fitness_log.
      destruct (last_line_eq _ _ Hl) as (l & ls & El & Elast).
      rewrite El, Elast, Sr. cbn [m_group0]. rewrite F. reflexivity.
  - exfalso. apply search_token_none in Sr. apply Sr.
    exists [], text, []. split; [|exact Ht].
    cbn [app]. rewrite app_nil_r. reflexivity.
Qed.

Lemma overlong_number_length :
  (MAX_DIGITS < N.of_nat (length overlong_number))%N.
Proof.
  unfold overlong_number.
  assert (E : forall l : str, length (49%N :: l) = S (length l))
    by reflexivity.
  rewrite E, repeat_length, Nnat.Nat2N.inj_succ, Nnat.N2Nat.id.
  reflexivity.
Qed.

(** So it is for [objective], on a new trial whose process exits with
    zero and prints such a number. *)
Lemma objective_long_token env st result (d : char) (ds ws : str) :
  suggested st = [] ->
  (forall n c t, spawn env n c t = Ret result) ->
  returncode result = 0%Z ->
  combined result = (d :: ds) ++ ws ->
  is_ascii_digit d = true -> is_zero_digit d = false ->
  Forall (fun c => is_ascii_digit c = true) ds ->
  (MAX_DIGITS < N.of_nat (length (d :: ds)))%N ->
  Forall (fun c => is_space c = true) ws ->
  fst (objective env st) = Ret inf /\
  log (snd (objective env st)) =
    log st ++
    [LogRecord WARNING
       (lit "Failed to convert extracted token to float: %s")
       [VStr (d :: ds)]].
Proof.
  intros Hs Hr Hrc Hc Hd Hz Hds Hlen Hws.
  rewrite (objective_fresh env st Hs), Hr, Hrc, Hc. cbn [Z.eqb].
  match goal with
  | |- context [extract_fitness _ ?e ?s] =>
      destruct (long_token_refused d ds ws e s Hd Hz Hds Hlen Hws)
        as [Hv Hlog]
  end.
  split; [exact Hv|]. rewrite Hlog. cbn [log]. rewrite app_nil_r.
  reflexivity.
Qed.

(** For instance, on the output of [overlong_run] the fitness is the
    sentinel and the one record logged is that warning. *)
Example conversion_can_fail :
  fst (objective (env_where (Ret overlong_run)) new_trial) = Ret inf /\
  log (snd (objective (env_where (Ret overlong_run)) new_trial)) =
    log new_trial ++
    [LogRecord WARNING
       (lit "Failed to convert extracted token to float: %s")
       [VStr (49%N :: repeat 49%N (N.to_nat 1000000000))]].
Proof.
  assert (Hdigits : Forall (fun c => is_ascii_digit c = true)
                      (repeat 49%N (N.to_nat 1000000000))).
  { apply Forall_forall. intros c Hc. apply repeat_spec in Hc. subst c.
    reflexivity. }
  assert (Hspawn : forall n c t,
            spawn (env_where (Ret overlong_run)) n c t = Ret overlong_run)
    by reflexivity.
  assert (Hcomb : combined overlong_run
                  = (49%N :: repeat 49%N (N.to_nat 1000000000)) ++ [NL])
    by reflexivity.
  exact (objective_long_token (env_where (Ret overlong_run)) new_trial
           overlong_run 49%N (repeat 49%N (N.to_nat 1000000000)) [NL]
           eq_refl Hspawn eq_refl Hcomb eq_refl eq_refl Hdigits
           overlong_number_length ltac:(repeat constructor)).
Qed.

(** X8.  On a new trial, however the process ends, [objective] only adds to
    the log, at most two records.  The warning of the [except ValueError]
    clause is among them only when the token found has more than
    [MAX_DIGITS] characters; it names that token, and the sentinel is
    returned. *)
Theorem X8_conversion_fails_on_long_token_only env st :
  suggested st = [] ->
  exists records,
    log (snd (objective env st)) = log st ++ records /\
    length records <= 2 /\
    forall r, In r records ->
      msg r = lit "Failed to convert extracted token to float: %s" ->
      exists tok,
        args r = [VStr tok] /\ unicode_token tok /\
        (MAX_DIGITS < N.of_nat (length tok))%N /\
        fst (objective env st) = Ret inf.
Proof.
  intros Hs. rewrite (objective_fresh env st Hs).
  assert (Hx : forall text st1 r,
            In r match lines text with
                 | [] =>
                     [LogRecord WARNING
                        (lit "No output to parse for params: %s")
                        [VDict (params_of st1)]]
                 | l :: ls =>
                     match search fitness_pattern (last (l :: ls) []) with
                     | None =>
                         [LogRecord WARNING
                            (lit "No numeric value found in last line: %s")
                            [VStr (last (l :: ls) [])]]
                     | Some m =>
                         match py_float (m_group0 m) with
                         | Ret _ => []
                         | Raise _ =>
                             [LogRecord WARNING
                                (lit "Failed to convert extracted token to float: %s")
                                [VStr (m_group0 m)]]
                         end
                     end
                 end ->
            msg r = lit "Failed to convert extracted token to float: %s" ->
            exists tok,
              args r = [VStr tok] /\ unicode_token tok /\
              (MAX_DIGITS < N.of_nat (length tok))%N /\
              fst (extract_fitness text env st1) = Ret inf).
  { intros text st1 r Hin Hm.
    destruct (lines_cases text) as [El | (line & Hl)].
    - rewrite El in Hin. destruct Hin as [<- | []]. discriminate.
    - destruct (last_line_eq _ _ Hl) as (l & ls & El & Elast).
      rewrite El, Elast in Hin.
      destruct (search fitness_pattern line) as [m|] eqn:S.
      + pose proof (extract_match _ _ _ env st1 Hl S) as Hv.
        apply search_token_some in S as (_ & Ht & _).
        destruct (py_float (m_group0 m)) as [x|e] eqn:F; [destruct Hin|].
        destruct Hin as [<- | []].
        destruct (py_float_token_raise _ _ Ht F) as [_ Hlen].
        exists (m_group0 m). auto.
      + destruct Hin as [<- | []]. discriminate. }
  destruct (spawn env _ _ _) as [result|e].
  - destruct (returncode result =? 0)%Z; rewrite extract_fitness_log;
      simpl log; rewrite <- ?app_assoc;
      (eexists; split; [reflexivity|]); split.
    + cbn [app]. destruct (lines (combined result)) as [|l ls];
        try destruct (search fitness_pattern _);
        try destruct (py_float _); simpl; lia.
    + cbn [app]. intros r Hin Hm. eapply Hx; eassumption.
    + cbn [app]. destruct (lines (combined result)) as [|l ls];
        try destruct (search fitness_pattern _);
        try destruct (py_float _); simpl; lia.
    + cbn [app]. intros r [<- | Hin] Hm; [discriminate|].
      eapply Hx; eassumption.
  - destruct (exn_type e); simpl log;
      (eexists; split; [reflexivity|]);
      (split; [simpl; lia |]);
      intros r Hin Hm; simpl in Hin;
      repeat (destruct Hin as [<- | Hin]; [discriminate|]); destruct Hin.
Qed.

Lemma X8_witness :
  (exists records,
     log (snd (objective (env_where (Ret quiet_run)) new_trial))
       = log new_trial ++ records /\
     length records <= 2 /\
     forall r, In r records ->
       msg r = lit "Failed to convert extracted token to float: %s" ->
       exists tok,
         args r = [VStr tok] /\ unicode_token tok /\
         (MAX_DIGITS < N.of_nat (length tok))%N /\
         fst (objective (env_where (Ret quiet_run)) new_trial) = Ret inf) /\
  (exists records,
     log (snd (objective (env_where (Ret overlong_run)) new_trial))
       = log new_trial ++ records /\
     length records <= 2 /\
     forall r, In r records ->
       msg r = lit "Failed to convert extracted token to float: %s" ->
       exists tok,
         args r = [VStr tok] /\ unicode_token tok /\
         (MAX_DIGITS < N.of_nat (length tok))%N /\
         fst (objective (env_where (Ret overlong_run)) new_trial) = Ret inf).
Proof.
  split.
  - apply (X8_conversion_fails_on_long_token_only
             (env_where (Ret quiet_run)) new_trial).
    reflexivity.
  - apply (X8_conversion_fails_on_long_token_only
             (env_where (Ret overlong_run)) new_trial).
    reflexivity.
Defined.

(** ** The sign of the fitness *)

(** X9.  When the last non-empty line has a token of the pattern, of at most
    [MAX_DIGITS] characters, the fitness returned has its sign bit set
    exactly when the token found starts with a minus sign: a zero and an
    infinity keep the sign of their token. *)
Theorem X9_sign_of_fitness text line m env st :
  last_nonempty_line text line ->
  search fitness_pattern line = Some m ->
  (N.of_nat (length (m_group0 m)) <= MAX_DIGITS)%N ->
  exists v,
    fst (extract_fitness text env st) = Ret v /\
    sign_bit v = starts_with_minus (m_group0 m).
Proof.
  intros Hl S Hlen. rewrite (extract_match _ _ _ env st Hl S).
  apply search_token_some in S as (_ & Ht & _).
  destruct (py_float_token_short _ Ht Hlen) as (neg & x & e & F & _).
  rewrite F. eexists. split; [reflexivity|].
  exact (py_float_token_sign _ _ Ht F).
Qed.

Lemma X9_witness :
  exists v,
    fst (extract_fitness (stdout quiet_run) (env_where (Ret quiet_run))
           new_trial) = Ret v /\
    sign_bit v = starts_with_minus (lit "-12.5").
Proof.
  apply (X9_sign_of_fitness (stdout quiet_run) (lit "Fitness: -12.5")
           (MatchObject (lit "Fitness: ") (lit "-12.5") [])).
  - exists []. reflexivity.
  - reflexivity.
  - vm_compute. discriminate.
Defined.

(** ** The script *)

(** X10.  When the JAR is not a file, the script exits with status 1 after
    one error record that names the path: no study is created, no trial
    runs, nothing is printed and nothing is written. *)
Theorem X10_exit_without_jar w s :
  jar_is_file w = false ->
  fst (main w s) = Exited 1 /\
  printed (snd (main w s)) = printed s /\
  written (snd (main w s)) = written s /\
  suggested (trials (snd (main w s))) = suggested (trials s) /\
  launched (trials (snd (main w s))) = launched (trials s) /\
  log (trials (snd (main w s))) =
    log (trials s) ++
    [LogRecord ERROR
       (lit "JAR not found at `%s`. Please build the project or correct the path.")
       [VStr (JAR_PATH (trial_env w))]].
Proof.
  intros H. unfold main. rewrite H. simpl. repeat split; reflexivity.
Qed.

Lemma X10_witness :
  fst (main (script_env false (Ret tt)) start) = Exited 1 /\
  printed (snd (main (script_env false (Ret tt)) start)) = printed start /\
  written (snd (main (script_env false (Ret tt)) start)) = written start /\
  suggested (trials (snd (main (script_env false (Ret tt)) start)))
    = suggested (trials start) /\
  launched (trials (snd (main (script_env false (Ret tt)) start)))
    = launched (trials start) /\
  log (trials (snd (main (script_env false (Ret tt)) start))) =
    log (trials start) ++
    [LogRecord ERROR
       (lit "JAR not found at `%s`. Please build the project or correct the path.")
       [VStr (JAR_PATH (trial_env (script_env false (Ret tt))))]].
Proof.
  apply (X10_exit_without_jar (script_env false (Ret tt)) start). reflexivity.
Defined.

(** X11.  Once the study has run and reports its best trial, an [OSError]
    of any kind while the result file is written (a [PermissionError] or a
    [FileNotFoundError] as well) does not fail the script: it ends
    normally, the best hyperparameters are printed before and after the
    attempt, no file is recorded as written, and one error record names
    the path and the exception. *)
Theorem X11_write_failure_absorbed w s study t bp bv bn e :
  jar_is_file w = true ->
  create_study w (lit "minimize") = Ret study ->
  optimize study objective n_trials (trial_env w) (trials s) = (Ret tt, t) ->
  best_params study = Ret bp ->
  best_value study = Ret bv ->
  best_trial_number study = Ret bn ->
  write_json w out_path (output bp bv bn (direction study)) = Raise e ->
  isinstance e OSError = true ->
  fst (main w s) = Finished /\
  written (snd (main w s)) = written s /\
  printed (snd (main w s)) =
    printed s ++ [ [VStr (lit "Best hyperparameters:"); VDict bp];
                   [VStr (lit "Best hyperparameters:"); VDict bp] ] /\
  log (trials (snd (main w s))) =
    log t ++ [LogRecord ERROR (lit "Failed to write best results to %s: %s")
                        [VStr (lit "best_results.json"); VExn e]].
Proof.
  intros Hj Hc Ho Hp Hv Hn Hw He. unfold main, save_results.
  rewrite Hj, Hc, Ho, Hp, Hv, Hn, Hw, He. simpl.
  rewrite <- app_assoc. repeat split; reflexivity.
Qed.

Lemma X11_witness :
  fst (main (script_env true (Raise read_only)) start) = Finished /\
  written (snd (main (script_env true (Raise read_only)) start))
    = written start /\
  printed (snd (main (script_env true (Raise read_only)) start)) =
    printed start ++
    [ [VStr (lit "Best hyperparameters:"); VDict [(lit "swarmSize", VInt 10)]];
      [VStr (lit "Best hyperparameters:"); VDict [(lit "swarmSize", VInt 10)]] ] /\
  log (trials (snd (main (script_env true (Raise read_only)) start))) =
    log (snd (optimize one_trial_study objective n_trials
                (trial_env (script_env true (Raise read_only)))
                (trials start))) ++
    [LogRecord ERROR (lit "Failed to write best results to %s: %s")
               [VStr (lit "best_results.json"); VExn read_only]].
Proof.
  apply (X11_write_failure_absorbed (script_env true (Raise read_only)) start
           one_trial_study
           (snd (optimize one_trial_study objective n_trials
                   (trial_env (script_env true (Raise read_only)))
                   (trials start)))
           [(lit "swarmSize", VInt 10)] (float_literal "12.5") 0%Z read_only);
    reflexivity.
Defined.

(** The same script when the file can be written: three lines printed,
    one file with the four entries of [output]. *)
Example script_run :
  let r := main (script_env true (Ret tt)) start in
  fst r = Finished /\
  map fst (written (snd r)) = [lit "best_results.json"] /\
  map (fun f => map fst (snd f)) (written (snd r))
    = [ [lit "best_params"; lit "best_value"; lit "best_trial_number";
         lit "direction"] ] /\
  length (printed (snd r)) = 3 /\
  length (launched (trials (snd r))) = 1.
Proof. vm_compute. repeat split; reflexivity. Qed.

(** ** Exceptions and silent returns *)

(** X12.  On a new trial, the only exceptions that leave [objective] are
    those [subprocess.run] raised, of a class other than [TimeoutExpired]
    and [FileNotFoundError]: the suggestions, the pattern search and
    [float] raise nothing of their own. *)
Theorem X12_only_launch_exceptions env st e :
  suggested st = [] ->
  fst (objective env st) = Raise e ->
  (exists c, spawn env (length (launched st)) c timeout_seconds = Raise e) /\
  exn_type e <> TimeoutExpired /\ exn_type e <> FileNotFoundError.
Proof.
  intros Hs. rewrite (objective_fresh env st Hs).
  destruct (spawn env _ _ _) as [result|e0] eqn:E.
  - destruct (returncode result =? 0)%Z;
      match goal with
      | |- context [extract_fitness ?t ?en ?s] =>
          destruct (extract_value t en s) as (v & Hv & _)
      end; rewrite Hv; discriminate.
  - destruct (exn_type e0) eqn:C; simpl; intros H; inversion H; subst;
      (split; [eexists; exact E | split; congruence]).
Qed.

Lemma X12_witness :
  (exists c, spawn (env_where (Raise permission_denied))
               (length (launched new_trial)) c timeout_seconds
             = Raise permission_denied) /\
  exn_type permission_denied <> TimeoutExpired /\
  exn_type permission_denied <> FileNotFoundError.
Proof.
  apply (X12_only_launch_exceptions (env_where (Raise permission_denied))
           new_trial permission_denied); reflexivity.
Defined.

Lemma app_same_nil (A : Type) (l x : list A) : l ++ x = l -> x = [].
Proof.
  intros H. rewrite <- (app_nil_r l) in H at 2.
  apply app_inv_head in H. exact H.
Qed.

(** X13.  On a new trial, a value that [objective] returns without adding
    a record to the log is never a substitute: the process completed with
    exit code zero, and the value is the float of the token found on the
    last non-empty line of its output. *)
Theorem X13_silent_value_is_parsed env st v :
  suggested st = [] ->
  fst (objective env st) = Ret v ->
  log (snd (objective env st)) = log st ->
  exists result line m,
    (exists c, spawn env (length (launched st)) c timeout_seconds
               = Ret result) /\
    returncode result = 0%Z /\
    last_nonempty_line (combined result) line /\
    search fitness_pattern line = Some m /\
    py_float (m_group0 m) = Ret v.
Proof.
  intros Hs. rewrite (objective_fresh env st Hs).
  destruct (spawn env _ _ _) as [result|e] eqn:E.
  - destruct (returncode result =? 0)%Z eqn:Hrc.
    + rewrite extract_fitness_log. simpl log. intros Hv Hlog.
      rewrite <- app_assoc in Hlog. apply app_same_nil in Hlog.
      cbn [app] in Hlog.
      destruct (lines_cases (combined result)) as [El | (line & Hl)].
      * rewrite El in Hlog. discriminate.
      * destruct (last_line_eq _ _ Hl) as (l & ls & El & Elast).
        rewrite El, Elast in Hlog.
        destruct (search fitness_pattern line) as [m|] eqn:S; [|discriminate].
        rewrite (extract_match _ _ _ _ _ Hl S) in Hv.
        destruct (py_float (m_group0 m)) as [x|e] eqn:F; [|discriminate].
        inversion Hv; subst x.
        exists result, line, m. apply Z.eqb_eq in Hrc.
        repeat split; eauto.
    + rewrite extract_fitness_log. simpl log. intros _ Hlog.
      rewrite <- app_assoc in Hlog. apply app_same_nil in Hlog. discriminate.
  - destruct (exn_type e); simpl; intros Hv Hlog;
      try discriminate; apply app_same_nil in Hlog; discriminate.
Qed.

Lemma X13_witness :
  exists result line m,
    (exists c, spawn (env_where (Ret quiet_run))
                 (length (launched new_trial)) c timeout_seconds
               = Ret result) /\
    returncode result = 0%Z /\
    last_nonempty_line (combined result) line /\
    search fitness_pattern line = Some m /\
    py_float (m_group0 m) = Ret (float_literal "-12.5").
Proof.
  apply (X13_silent_value_is_parsed (env_where (Ret quiet_run)) new_trial);
    vm_compute; reflexivity.
Defined.

(** ** The result file *)

